(** * Admin two-factor authentication of the flowboard store

    Shallow embedding of the PL/pgSQL migration "Add admin two-factor
    authentication support" (base32 codec, TOTP validation, recovery codes,
    login challenges, enrolment and disablement), of the login it replaces,
    of the script that creates an admin and of the React provider that calls
    the functions, followed by the properties proved about them.

    Conventions of the embedding:
    - [text] is [string], the bytes of the UTF-8 encoding; [bytea] is
      [list byte]; SQL NULL is [None] of an [option];
    - [upper] follows the locale of the database, which the migration does
      not fix: it is a parameter ([Pg.locale]); [trim] and the character
      class [[^A-Z2-7]] act on ASCII characters, which are single bytes;
    - [bigint] and [integer] values are [Z]; the operators that wrap in
      PostgreSQL ([<<]) wrap here, the operations that could overflow ([+] on
      the bit buffers, which are never masked, and the unary [-] of the
      drift) are checked here and may [Raise], and [%] is the remainder with
      the sign of the dividend;
    - a call of a built-in function is resolved by the types of its
      arguments when its statement first runs: where the function is declared
      on [integer] and the argument is a [bigint] expression, the call raises
      ([Pg.integer_argument]);
    - an unqualified name in an SQL statement that is both a variable of the
      function and a column of the table of the statement raises
      ([Plpgsql.column_references]); the functions that have no variable
      named like a column use the names for the columns;
    - [timestamptz] is the number of microseconds since the Unix epoch;
    - a function that runs SQL statements takes the database and returns the
      new one; a raised exception aborts the statement, so [Raise] carries no
      database. *)

From Stdlib Require Import ZArith List String Ascii Bool Lia QArith Qround.
From Stdlib.Strings Require Import Byte.
Import ListNotations.
Close Scope Q_scope.
Local Open Scope string_scope.
Local Open Scope list_scope.
Local Open Scope Z_scope.

(** ** Results of PL/pgSQL code: a value, or a raised exception *)

Inductive result (A : Type) : Type :=
| Ok : A -> result A
| Raise : string -> result A.
Arguments Ok {A} _.
Arguments Raise {A} _.

Definition bind {A B : Type} (c : result A) (k : A -> result B) : result B :=
  match c with
  | Ok a => k a
  | Raise m => Raise m
  end.

Notation "x <- c ;; k" := (bind c (fun x => k))
  (at level 61, c at next level, right associativity).

(** [FOR i IN lo..hi LOOP body END LOOP], the loop variable counted upwards;
    the body transforms the local variables [S]. *)
Fixpoint for_loop {S : Type} (n : nat) (i : Z) (body : Z -> S -> result S) (s : S)
  : result S :=
  match n with
  | O => Ok s
  | Datatypes.S n' => s' <- body i s ;; for_loop n' (i + 1) body s'
  end.

Definition for_range {S : Type} (lo hi : Z) (body : Z -> S -> result S) (s : S)
  : result S :=
  for_loop (Z.to_nat (hi - lo + 1)) lo body s.

(** A [FOR] loop whose body may [RETURN v]: [Some v] leaves the function. *)
Fixpoint for_loop_return {R : Type} (n : nat) (i : Z) (body : Z -> result (option R))
  : result (option R) :=
  match n with
  | O => Ok None
  | Datatypes.S n' =>
      r <- body i ;;
      match r with
      | Some v => Ok (Some v)
      | None => for_loop_return n' (i + 1) body
      end
  end.

Definition for_range_return {R : Type} (lo hi : Z) (body : Z -> result (option R))
  : result (option R) :=
  for_loop_return (Z.to_nat (hi - lo + 1)) lo body.

(** [WHILE cond LOOP body END LOOP]; [fuel] bounds the number of iterations
    and running out of it is reported as an exception of its own. *)
Fixpoint while_loop {S : Type} (fuel : nat) (cond : S -> bool) (body : S -> result S)
  (s : S) : result S :=
  if cond s then
    match fuel with
    | O => Raise "while_loop: out of fuel"
    | Datatypes.S fuel' => s' <- body s ;; while_loop fuel' cond body s'
    end
  else Ok s.

(** ** PostgreSQL built-ins used by the migration *)

Module Pg.

Abbreviation text := string (only parsing).
Abbreviation bytea := (list byte) (only parsing).
Abbreviation timestamptz := Z (only parsing).

(** *** bigint and integer arithmetic *)

Definition wrap64 (z : Z) : Z := (z + 2 ^ 63) mod 2 ^ 64 - 2 ^ 63.
Definition wrap32 (z : Z) : Z := (z + 2 ^ 31) mod 2 ^ 32 - 2 ^ 31.

(** [a << n] on bigint: the bits shifted out are lost, no overflow check. *)
Definition int8shl (a n : Z) : Z := wrap64 (a * 2 ^ n).
(** [a >> n] on bigint: arithmetic shift. *)
Definition int8shr (a n : Z) : Z := Z.shiftr a n.
(** [a + b] on bigint: raises when the sum leaves the 64-bit range. *)
Definition int8pl (a b : Z) : result Z :=
  let s := a + b in
  if (- 2 ^ 63 <=? s) && (s <=? 2 ^ 63 - 1) then Ok s
  else Raise "bigint out of range".

(** [a << n] on integer. *)
Definition int4shl (a n : Z) : Z := wrap32 (a * 2 ^ n).
(** [- a] on integer: raises for the least integer, which has no negative. *)
Definition int4um (a : Z) : result Z :=
  if a =? - 2 ^ 31 then Raise "integer out of range" else Ok (- a).

(** *** The types of integer expressions, and calls of built-in functions

    PostgreSQL resolves a call by the types of its arguments, when the
    statement that holds it first runs. An [integer] argument is cast to
    [bigint] implicitly; a [bigint] argument is cast to [integer] only in an
    assignment, so a function that is declared on [integer] is not found for
    it and the statement raises undefined_function (SQLSTATE 42883). *)

Inductive inttype : Type := integer | bigint.

(** [a << n] and [a >> n] have the type of [a]; [a & b] and [a + b] are
    [bigint] as soon as one operand is. *)
Definition shift_type (a n : inttype) : inttype := a.

Definition binary_type (a b : inttype) : inttype :=
  match a, b with
  | integer, integer => integer
  | _, _ => bigint
  end.

(** An argument of type [t] for a parameter declared [integer]; [called]
    spells the function that is looked up. *)
Definition integer_argument (called : text) (t : inttype) : result unit :=
  match t with
  | integer => Ok tt
  | bigint =>
      Raise (String.append "function " (String.append called " does not exist"))
  end.

(** *** bytea *)

Definition byte_value (b : byte) : Z := Z.of_N (Byte.to_N b).
Definition byte_of_value (v : Z) : byte :=
  match Byte.of_N (Z.to_N (v mod 256)) with
  | Some b => b
  | None => x00
  end.

Definition length_bytea (b : bytea) : Z := Z.of_nat (List.length b).

Definition get_byte (b : bytea) (n : Z) : result Z :=
  if (n <? 0) || (length_bytea b <=? n) then Raise "index out of valid range"
  else Ok (byte_value (nth (Z.to_nat n) b x00)).

Fixpoint replace_nth (n : nat) (v : byte) (b : bytea) : bytea :=
  match b, n with
  | [], _ => []
  | _ :: r, O => v :: r
  | x :: r, Datatypes.S n' => x :: replace_nth n' v r
  end.

Definition set_byte (b : bytea) (n : Z) (v : Z) : result bytea :=
  if (n <? 0) || (length_bytea b <=? n) then Raise "index out of valid range"
  else Ok (replace_nth (Z.to_nat n) (byte_of_value v) b).

(** *** text *)

Definition length_text (s : text) : Z := Z.of_nat (String.length s).

(** [substr(s, start, len)]: characters [start .. start+len-1], positions
    counted from 1 and clipped to the string. *)
Definition substr (s : text) (start len : Z) : text :=
  let lo := Z.max start 1 in
  let hi := start + len in
  if hi <=? lo then EmptyString
  else String.substring (Z.to_nat (lo - 1)) (Z.to_nat (hi - lo)) s.

(** [position(sub IN s)]: 1-based place of the first occurrence, 0 if none. *)
Definition position (sub s : text) : Z :=
  match String.index 0 sub s with
  | Some k => Z.of_nat k + 1
  | None => 0
  end.

(** [upper(s)] follows the locale of the database (its ctype): which
    characters it maps, and to what, is not fixed by the migration. *)
Class locale : Type := { upper : text -> text }.

(** Upper-casing of ASCII: the letters a to z become A to Z, byte by byte.
    This is [upper] under the locale C. *)
Definition upper_char (c : ascii) : ascii :=
  let n := N_of_ascii c in
  if (97 <=? n)%N && (n <=? 122)%N then ascii_of_N (n - 32) else c.

Fixpoint upper_ascii (s : text) : text :=
  match s with
  | EmptyString => EmptyString
  | String c r => String (upper_char c) (upper_ascii r)
  end.

Definition c_locale : locale := {| upper := upper_ascii |}.

(** Text of ASCII characters only. *)
Definition is_ascii_char (c : ascii) : bool := (N_of_ascii c <? 128)%N.

Fixpoint is_ascii (s : text) : bool :=
  match s with
  | EmptyString => true
  | String c r => is_ascii_char c && is_ascii r
  end.

(** The locale upper-cases ASCII text the ASCII way. The locales of
    PostgreSQL do, the Turkic ones apart (there i becomes a dotted capital);
    what [upper] does to other characters stays open. *)
Definition ascii_cased (lc : locale) : Prop :=
  forall s : text, is_ascii s = true -> @upper lc s = upper_ascii s.

Definition is_space (c : ascii) : bool := (N_of_ascii c =? 32)%N.

Fixpoint ltrim (s : text) : text :=
  match s with
  | EmptyString => EmptyString
  | String c r => if is_space c then ltrim r else s
  end.

Fixpoint rtrim (s : text) : text :=
  match s with
  | EmptyString => EmptyString
  | String c r =>
      match rtrim r with
      | EmptyString => if is_space c then EmptyString else String c EmptyString
      | r' => String c r'
      end
  end.

(** [trim(s)]: spaces removed from both ends. *)
Definition trim (s : text) : text := rtrim (ltrim s).

Fixpoint repeat_text (n : nat) (s : text) : text :=
  match n with
  | O => EmptyString
  | Datatypes.S n' => String.append s (repeat_text n' s)
  end.

(** [lpad(s, n, fill)]: [s] cut to [n] characters, or filled on the left. *)
Definition lpad (s : text) (n : Z) (fill : text) : text :=
  let len := length_text s in
  if n <=? len then String.substring 0 (Z.to_nat n) s
  else
    let missing := Z.to_nat (n - len) in
    String.append (String.substring 0 missing (repeat_text missing fill)) s.

(** *** numbers as text, hexadecimal *)

Definition digit_char (d : Z) : ascii :=
  match String.get (Z.to_nat d) "0123456789abcdef" with
  | Some c => c
  | None => "0"%char
  end.

Fixpoint digits (fuel : nat) (base n : Z) (acc : text) : text :=
  let acc' := String (digit_char (n mod base)) acc in
  match fuel with
  | O => acc'
  | Datatypes.S fuel' =>
      if n / base =? 0 then acc' else digits fuel' base (n / base) acc'
  end.

(** [n::text] for an integer. *)
Definition text_of_int (n : Z) : text :=
  if n <? 0 then String "-" (digits (Z.to_nat (Z.log2 (- n))) 10 (- n) EmptyString)
  else digits (Z.to_nat (Z.log2 n)) 10 n EmptyString.

(** [to_hex(n)] for an integer (two's complement for a negative one). *)
Definition to_hex (n : Z) : text :=
  let m := if n <? 0 then n + 2 ^ 32 else n in
  digits (Z.to_nat (Z.log2 m)) 16 m EmptyString.

Definition hex_value (c : ascii) : option Z :=
  let n := Z.of_N (N_of_ascii c) in
  if (48 <=? n) && (n <=? 57) then Some (n - 48)
  else if (97 <=? n) && (n <=? 102) then Some (n - 87)
  else if (65 <=? n) && (n <=? 70) then Some (n - 55)
  else None.

(** [decode(s, 'hex')]. *)
Fixpoint decode_hex (s : text) : result bytea :=
  match s with
  | EmptyString => Ok []
  | String _ EmptyString => Raise "invalid hexadecimal data: odd number of digits"
  | String h (String l r) =>
      match hex_value h, hex_value l with
      | Some a, Some b =>
          rest <- decode_hex r ;; Ok (byte_of_value (a * 16 + b) :: rest)
      | _, _ => Raise "invalid hexadecimal digit"
      end
  end.

(** [encode(b, 'hex')]. *)
Fixpoint encode_hex (b : bytea) : text :=
  match b with
  | [] => EmptyString
  | x :: r =>
      String (digit_char (byte_value x / 16))
        (String (digit_char (byte_value x mod 16)) (encode_hex r))
  end.

(** [array_remove(a, x)]: every element equal to [x] is dropped. *)
Definition array_remove (a : list text) (x : text) : list text :=
  filter (fun y => negb (String.eqb y x)) a.

End Pg.

(** ** Names in the SQL statements of a PL/pgSQL function

    Inside a function, an unqualified name of an SQL statement may denote a
    variable of the function (a parameter, an output column of [RETURNS
    TABLE], a declared variable) or a column of a table of the statement. A
    name that is both is refused when the statement first runs, with
    ambiguous_column (SQLSTATE 42702): plpgsql.variable_conflict is [error]
    unless a function sets it otherwise, and no function of the migration
    does. The messages are those of PostgreSQL without the quotation marks it
    puts around the name. *)

Module Plpgsql.

Definition declares (names : list Pg.text) (name : Pg.text) : bool :=
  existsb (String.eqb name) names.

Definition column_reference (variables columns : list Pg.text) (name : Pg.text)
  : result unit :=
  if declares variables name && declares columns name then
    Raise (String.append "column reference " (String.append name " is ambiguous"))
  else Ok tt.

(** The unqualified names of one statement, in the order it has them. *)
Fixpoint column_references (variables columns names : list Pg.text) : result unit :=
  match names with
  | [] => Ok tt
  | name :: rest =>
      _ <- column_reference variables columns name ;;
      column_references variables columns rest
  end.

End Plpgsql.

(** ** base32_encode, base32_decode *)

Definition alphabet : Pg.text := "ABCDEFGHIJKLMNOPQRSTUVWXYZ234567".

(** The local variables of the two codec loops. *)
Record enc_vars := { enc_output : Pg.text; enc_buffer : Z; enc_bits : Z }.
Record dec_vars := { dec_output : Pg.bytea; dec_buffer : Z; dec_bits : Z }.

(** [buffer bigint], [bits integer]: the position handed to [substr] in
    [substr(alphabet, ((buffer >> bits) & 31) + 1, 1)] is a [bigint], and so
    is the one in [substr(alphabet, ((buffer << (5 - bits)) & 31) + 1, 1)];
    [substr] is declared on [(text, integer, integer)]. *)
Definition encode_position_type : Pg.inttype :=
  Pg.binary_type
    (Pg.binary_type (Pg.shift_type Pg.bigint Pg.integer) Pg.integer) Pg.integer.

(** The body and the loop of [WHILE bits >= 5] in [base32_encode]. *)
Definition encode_emit (v : enc_vars) : result enc_vars :=
  let bits := enc_bits v - 5 in
  _ <- Pg.integer_argument "substr(text, bigint, integer)" encode_position_type ;;
  Ok {| enc_output :=
          String.append (enc_output v)
            (Pg.substr alphabet
               (Z.land (Pg.int8shr (enc_buffer v) bits) 31 + 1) 1);
        enc_buffer := enc_buffer v;
        enc_bits := bits |}.

Definition encode_drain (v : enc_vars) : result enc_vars :=
  while_loop (Z.to_nat (enc_bits v)) (fun v => 5 <=? enc_bits v) encode_emit v.

Definition encode_byte (input : Pg.bytea) (i : Z) (v : enc_vars) : result enc_vars :=
  byte_value <- Pg.get_byte input i ;;
  buffer <- Pg.int8pl (Pg.int8shl (enc_buffer v) 8) byte_value ;;
  encode_drain {| enc_output := enc_output v;
                  enc_buffer := buffer;
                  enc_bits := enc_bits v + 8 |}.

Definition base32_encode (input : option Pg.bytea) : result Pg.text :=
  match input with
  | None => Ok EmptyString
  | Some input =>
      if Pg.length_bytea input =? 0 then Ok EmptyString
      else
        v <- for_range 0 (Pg.length_bytea input - 1) (encode_byte input)
               {| enc_output := EmptyString; enc_buffer := 0; enc_bits := 0 |} ;;
        if 0 <? enc_bits v then
          _ <- Pg.integer_argument "substr(text, bigint, integer)"
                 encode_position_type ;;
          Ok (String.append (enc_output v)
                (Pg.substr alphabet
                   (Z.land (Pg.int8shl (enc_buffer v) (5 - enc_bits v)) 31 + 1) 1))
        else Ok (enc_output v)
  end.

(** The character class [[A-Z2-7]] of the cleaning regular expression. *)
Definition in_class (c : ascii) : bool :=
  let n := N_of_ascii c in
  ((65 <=? n)%N && (n <=? 90)%N) || ((50 <=? n)%N && (n <=? 55)%N).

(** [regexp_replace(s, '[^A-Z2-7]', '', 'g')]. *)
Fixpoint strip_outside_class (s : Pg.text) : Pg.text :=
  match s with
  | EmptyString => EmptyString
  | String c r =>
      if in_class c then String c (strip_outside_class r) else strip_outside_class r
  end.

Definition coalesce_text (s : option Pg.text) (d : Pg.text) : Pg.text :=
  match s with
  | Some s => s
  | None => d
  end.

Definition cleaned_input {lc : Pg.locale} (input : option Pg.text) : Pg.text :=
  strip_outside_class (Pg.upper (coalesce_text input EmptyString)).

(** The body and the loop of [WHILE bits >= 8] in [base32_decode]. *)
Definition decode_emit (v : dec_vars) : result dec_vars :=
  let bits := dec_bits v - 8 in
  let byte := Z.land (Pg.int8shr (dec_buffer v) bits) 255 in
  piece <- Pg.decode_hex (Pg.lpad (Pg.to_hex byte) 2 "0") ;;
  Ok {| dec_output := dec_output v ++ piece;
        dec_buffer := dec_buffer v;
        dec_bits := bits |}.

Definition decode_drain (v : dec_vars) : result dec_vars :=
  while_loop (Z.to_nat (dec_bits v)) (fun v => 8 <=? dec_bits v) decode_emit v.

Definition decode_char (cleaned : Pg.text) (i : Z) (v : dec_vars) : result dec_vars :=
  let ch := Pg.substr cleaned i 1 in
  let value := Pg.position ch alphabet - 1 in
  if value <? 0 then
    Raise (String.append "Invalid base32 character: " ch)
  else
    buffer <- Pg.int8pl (Pg.int8shl (dec_buffer v) 5) value ;;
    decode_drain {| dec_output := dec_output v;
                    dec_buffer := buffer;
                    dec_bits := dec_bits v + 5 |}.

Definition base32_decode {lc : Pg.locale} (input : option Pg.text)
  : result Pg.bytea :=
  let cleaned := cleaned_input input in
  if String.eqb cleaned EmptyString then Ok []
  else
    v <- for_range 1 (Pg.length_text cleaned) (decode_char cleaned)
           {| dec_output := []; dec_buffer := 0; dec_bits := 0 |} ;;
    Ok (dec_output v).

(** ** pgcrypto's [hmac(data, key, 'sha1')]: HMAC (RFC 2104) over SHA-1

    pgcrypto is an extension of PostgreSQL and not part of the repository;
    its [hmac] is written here from the standards it implements and checked
    below on their published vectors. Its [crypt] stays a parameter of the
    operations. *)

Module Sha1.

Definition add32 (a b : Z) : Z := (a + b) mod 2 ^ 32.
Definition rotl (n x : Z) : Z :=
  Z.lor (Z.shiftl x n mod 2 ^ 32) (Z.shiftr x (32 - n)).
Definition not32 (x : Z) : Z := Z.lxor x 0xffffffff.

Definition word_of_bytes (b0 b1 b2 b3 : Z) : Z :=
  ((b0 * 256 + b1) * 256 + b2) * 256 + b3.
Definition bytes_of_word (w : Z) : list Z :=
  [w / 2 ^ 24 mod 256; w / 2 ^ 16 mod 256; w / 2 ^ 8 mod 256; w mod 256].

Fixpoint words_of_bytes (l : list Z) : list Z :=
  match l with
  | b0 :: b1 :: b2 :: b3 :: r => word_of_bytes b0 b1 b2 b3 :: words_of_bytes r
  | _ => []
  end.

(** Message padding: a one bit, zeros up to 56 modulo 64 bytes, and the bit
    length as a 64-bit big-endian number. *)
Definition pad (msg : list Z) : list Z :=
  let len := Z.of_nat (List.length msg) in
  msg ++ [128] ++ repeat 0 (Z.to_nat ((55 - len) mod 64))
      ++ bytes_of_word ((8 * len) / 2 ^ 32) ++ bytes_of_word ((8 * len) mod 2 ^ 32).

Fixpoint chunks (n : nat) (l : list Z) : list (list Z) :=
  match n with
  | O => []
  | S n' => firstn 64 l :: chunks n' (skipn 64 l)
  end.

(** The message schedule, most recent word first. *)
Fixpoint extend (n : nat) (ws : list Z) : list Z :=
  match n with
  | O => ws
  | S n' =>
      extend n'
        (rotl 1 (Z.lxor (Z.lxor (nth 2 ws 0) (nth 7 ws 0))
                        (Z.lxor (nth 13 ws 0) (nth 15 ws 0))) :: ws)
  end.

Definition schedule (block : list Z) : list Z :=
  rev (extend 64 (rev (words_of_bytes block))).

Definition state : Type := Z * Z * Z * Z * Z.

Definition round (t : Z) (st : state) (w : Z) : state :=
  let '(a, b, c, d, e) := st in
  let '(f, k) :=
    if t <? 20 then (Z.lor (Z.land b c) (Z.land (not32 b) d), 0x5A827999)
    else if t <? 40 then (Z.lxor (Z.lxor b c) d, 0x6ED9EBA1)
    else if t <? 60 then
      (Z.lor (Z.lor (Z.land b c) (Z.land b d)) (Z.land c d), 0x8F1BBCDC)
    else (Z.lxor (Z.lxor b c) d, 0xCA62C1D6) in
  (add32 (add32 (add32 (add32 (rotl 5 a) f) e) k) w, a, rotl 30 b, c, d).

Fixpoint rounds (t : Z) (ws : list Z) (st : state) : state :=
  match ws with
  | [] => st
  | w :: ws' => rounds (t + 1) ws' (round t st w)
  end.

Definition compress (h : state) (block : list Z) : state :=
  let '(h0, h1, h2, h3, h4) := h in
  let '(a, b, c, d, e) := rounds 0 (schedule block) h in
  (add32 h0 a, add32 h1 b, add32 h2 c, add32 h3 d, add32 h4 e).

Definition initial : state :=
  (0x67452301, 0xEFCDAB89, 0x98BADCFE, 0x10325476, 0xC3D2E1F0).

Definition digest_of (h : state) : list Z :=
  let '(h0, h1, h2, h3, h4) := h in
  bytes_of_word h0 ++ bytes_of_word h1 ++ bytes_of_word h2
    ++ bytes_of_word h3 ++ bytes_of_word h4.

Definition sha1 (msg : list Z) : list Z :=
  let padded := pad msg in
  digest_of
    (fold_left compress (chunks (List.length padded / 64) padded) initial).

Definition hmac_sha1 (key data : list Z) : list Z :=
  let key := if (64 <? Z.of_nat (List.length key)) then sha1 key else key in
  let key := key ++ repeat 0 (64 - List.length key) in
  sha1 (map (Z.lxor 0x5c) key ++ sha1 (map (Z.lxor 0x36) key ++ data)).

End Sha1.

Module Pgcrypto.

(** [hmac(data bytea, key bytea, type text)]. *)
Definition hmac (data key : Pg.bytea) (type : Pg.text) : result Pg.bytea :=
  if String.eqb type "sha1" then
    Ok (map Pg.byte_of_value
          (Sha1.hmac_sha1 (map Pg.byte_value key) (map Pg.byte_value data)))
  else Raise "Cannot use hmac: No such hash algorithm".

End Pgcrypto.

(** ** int8_to_bytea, admin_totp_is_valid *)

(** [value bigint], [i integer]: in [set_byte(result, 7 - i, (value >> (i *
    8)) & 255)] the new byte is a [bigint]; [set_byte] is declared on
    [(bytea, integer, integer)]. *)
Definition int8_to_bytea (value : Z) : result Pg.bytea :=
  for_range 0 7
    (fun i result =>
       _ <- Pg.integer_argument "set_byte(bytea, integer, bigint)"
              (Pg.binary_type (Pg.shift_type Pg.bigint Pg.integer) Pg.integer) ;;
       Pg.set_byte result (7 - i) (Z.land (Pg.int8shr value (i * 8)) 255))
    (repeat x00 8).

(** [extract(epoch FROM now())]: seconds since the epoch, with the fraction. *)
Definition epoch (now : Pg.timestamptz) : Q := (inject_Z now / inject_Z 1000000)%Q.

(** [floor(extract(epoch FROM now()) / 30)]. *)
Definition timestep_at (now : Pg.timestamptz) : Z := Qfloor (epoch now / inject_Z 30)%Q.

(** The body of the [FOR i IN -allowed_drift..allowed_drift] loop up to the
    assignment of [otp]. *)
Definition window_otp (secret_bytes : Pg.bytea) (timestep i : Z) : result Pg.text :=
  let counter := timestep + i in
  message <- int8_to_bytea counter ;;
  hash <- Pgcrypto.hmac message secret_bytes "sha1" ;;
  last <- Pg.get_byte hash (Pg.length_bytea hash - 1) ;;
  let offset_pos := Z.land last 15 in
  b0 <- Pg.get_byte hash offset_pos ;;
  b1 <- Pg.get_byte hash (offset_pos + 1) ;;
  b2 <- Pg.get_byte hash (offset_pos + 2) ;;
  b3 <- Pg.get_byte hash (offset_pos + 3) ;;
  let slice :=
    Z.lor (Z.lor (Z.lor (Pg.int4shl (Z.land b0 255) 24)
                        (Pg.int4shl (Z.land b1 255) 16))
                 (Pg.int4shl (Z.land b2 255) 8))
          (Z.land b3 255) in
  let slice := Z.land slice 2147483647 in
  Ok (Pg.lpad (Pg.text_of_int (Z.rem slice 1000000)) 6 "0").

Definition admin_totp_is_valid {lc : Pg.locale} (now : Pg.timestamptz)
  (secret code : option Pg.text) (allowed_drift : Z) : result bool :=
  let timestep := timestep_at now in
  match secret, code with
  | Some secret, Some code =>
      if String.eqb (Pg.trim code) "" then Ok false
      else
        secret_bytes <- base32_decode (Some secret) ;;
        if Pg.length_bytea secret_bytes =? 0 then Ok false
        else
          lower <- Pg.int4um allowed_drift ;;
          r <- for_range_return lower allowed_drift
                 (fun i =>
                    otp <- window_otp secret_bytes timestep i ;;
                    if String.eqb otp (Pg.trim code) then Ok (Some true)
                    else Ok None) ;;
          match r with
          | Some b => Ok b
          | None => Ok false
          end
  | _, _ => Ok false
  end.

(** ** The tables *)

Abbreviation uuid := N (only parsing).

Module AdminUsers.
Record row : Type := {
  id : uuid;
  email : Pg.text;
  password_hash : Pg.text;
  name : Pg.text;
  role : Pg.text;
  created_at : option Pg.timestamptz;
  updated_at : option Pg.timestamptz;
  two_factor_enabled : bool;
  two_factor_secret : option Pg.text;
  two_factor_recovery_codes : list Pg.text;
  two_factor_temp_secret : option Pg.text;
  two_factor_temp_recovery_codes : list Pg.text;
  two_factor_confirmed_at : option Pg.timestamptz
}.

Definition columns : list Pg.text :=
  ["id"; "email"; "password_hash"; "name"; "role"; "created_at"; "updated_at";
   "two_factor_enabled"; "two_factor_secret"; "two_factor_recovery_codes";
   "two_factor_temp_secret"; "two_factor_temp_recovery_codes";
   "two_factor_confirmed_at"].

(** The trigger [update_admin_users_updated_at]: [NEW.updated_at = now()]. *)
Definition update_updated_at_column (now : Pg.timestamptz) (r : row) : row :=
  {| id := id r; email := email r; password_hash := password_hash r;
     name := name r; role := role r; created_at := created_at r;
     updated_at := Some now;
     two_factor_enabled := two_factor_enabled r;
     two_factor_secret := two_factor_secret r;
     two_factor_recovery_codes := two_factor_recovery_codes r;
     two_factor_temp_secret := two_factor_temp_secret r;
     two_factor_temp_recovery_codes := two_factor_temp_recovery_codes r;
     two_factor_confirmed_at := two_factor_confirmed_at r |}.

(** [SET two_factor_recovery_codes = codes]. *)
Definition set_recovery_codes (codes : list Pg.text) (r : row) : row :=
  {| id := id r; email := email r; password_hash := password_hash r;
     name := name r; role := role r; created_at := created_at r;
     updated_at := updated_at r;
     two_factor_enabled := two_factor_enabled r;
     two_factor_secret := two_factor_secret r;
     two_factor_recovery_codes := codes;
     two_factor_temp_secret := two_factor_temp_secret r;
     two_factor_temp_recovery_codes := two_factor_temp_recovery_codes r;
     two_factor_confirmed_at := two_factor_confirmed_at r |}.

(** [SET two_factor_temp_secret = s, two_factor_temp_recovery_codes = codes]. *)
Definition set_temp (s : option Pg.text) (codes : list Pg.text) (r : row) : row :=
  {| id := id r; email := email r; password_hash := password_hash r;
     name := name r; role := role r; created_at := created_at r;
     updated_at := updated_at r;
     two_factor_enabled := two_factor_enabled r;
     two_factor_secret := two_factor_secret r;
     two_factor_recovery_codes := two_factor_recovery_codes r;
     two_factor_temp_secret := s;
     two_factor_temp_recovery_codes := codes;
     two_factor_confirmed_at := two_factor_confirmed_at r |}.

(** The [SET] list of [admin_confirm_two_factor]. *)
Definition set_confirmed (now : Pg.timestamptz) (secret : option Pg.text)
  (codes : list Pg.text) (r : row) : row :=
  {| id := id r; email := email r; password_hash := password_hash r;
     name := name r; role := role r; created_at := created_at r;
     updated_at := updated_at r;
     two_factor_enabled := true;
     two_factor_secret := secret;
     two_factor_recovery_codes := codes;
     two_factor_temp_secret := None;
     two_factor_temp_recovery_codes := [];
     two_factor_confirmed_at := Some now |}.

(** The [SET] list of [admin_disable_two_factor]. *)
Definition set_disabled (r : row) : row :=
  {| id := id r; email := email r; password_hash := password_hash r;
     name := name r; role := role r; created_at := created_at r;
     updated_at := updated_at r;
     two_factor_enabled := false;
     two_factor_secret := None;
     two_factor_recovery_codes := [];
     two_factor_temp_secret := None;
     two_factor_temp_recovery_codes := [];
     two_factor_confirmed_at := two_factor_confirmed_at r |}.
End AdminUsers.

Module AdminLoginChallenges.
Record row : Type := {
  id : uuid;
  admin_user_id : uuid;
  created_at : Pg.timestamptz;
  expires_at : Pg.timestamptz;
  consumed_at : option Pg.timestamptz
}.

Definition columns : list Pg.text :=
  ["id"; "admin_user_id"; "created_at"; "expires_at"; "consumed_at"].

(** [SET consumed_at = now()]. *)
Definition set_consumed (now : Pg.timestamptz) (r : row) : row :=
  {| id := id r; admin_user_id := admin_user_id r; created_at := created_at r;
     expires_at := expires_at r; consumed_at := Some now |}.
End AdminLoginChallenges.

Record database : Type := {
  admin_users : list AdminUsers.row;
  admin_login_challenges : list AdminLoginChallenges.row
}.

(** [UPDATE admin_users SET ... WHERE cond]: every row that satisfies [cond]
    is rewritten and passes through the [BEFORE UPDATE] trigger. *)
Definition update_admin_users (now : Pg.timestamptz) (cond : AdminUsers.row -> bool)
  (set : AdminUsers.row -> AdminUsers.row) (db : database) : database :=
  {| admin_users :=
       map (fun r =>
              if cond r then AdminUsers.update_updated_at_column now (set r) else r)
           (admin_users db);
     admin_login_challenges := admin_login_challenges db |}.

(** [UPDATE admin_login_challenges SET consumed_at = now() WHERE id = c]. *)
Definition consume_challenge (now : Pg.timestamptz) (c : uuid) (db : database)
  : database :=
  {| admin_users := admin_users db;
     admin_login_challenges :=
       map (fun r =>
              if N.eqb (AdminLoginChallenges.id r) c
              then AdminLoginChallenges.set_consumed now r else r)
           (admin_login_challenges db) |}.

(** [INSERT INTO admin_login_challenges(admin_user_id, expires_at)]; the
    defaults fill [id] ([gen_random_uuid()], here [fresh]), [created_at]
    and [consumed_at]. *)
Definition insert_challenge (now : Pg.timestamptz) (fresh user : uuid)
  (expires : Pg.timestamptz) (db : database) : database :=
  {| admin_users := admin_users db;
     admin_login_challenges :=
       admin_login_challenges db ++
       [ {| AdminLoginChallenges.id := fresh;
            AdminLoginChallenges.admin_user_id := user;
            AdminLoginChallenges.created_at := now;
            AdminLoginChallenges.expires_at := expires;
            AdminLoginChallenges.consumed_at := None |} ] |}.

(** [SELECT * FROM admin_users WHERE email = e]: no row for a NULL [e]. *)
Definition select_by_email (db : database) (e : option Pg.text)
  : option AdminUsers.row :=
  match e with
  | None => None
  | Some e => find (fun a => String.eqb (AdminUsers.email a) e) (admin_users db)
  end.

(** [SELECT * FROM admin_users WHERE id = u]. *)
Definition select_by_id (db : database) (u : uuid) : option AdminUsers.row :=
  find (fun a => N.eqb (AdminUsers.id a) u) (admin_users db).

(** [SELECT * FROM admin_login_challenges WHERE id = c AND consumed_at IS NULL
    AND expires_at > now()]. *)
Definition select_valid_challenge (db : database) (now : Pg.timestamptz)
  (c : option uuid) : option AdminLoginChallenges.row :=
  match c with
  | None => None
  | Some c =>
      find (fun r =>
              N.eqb (AdminLoginChallenges.id r) c
              && match AdminLoginChallenges.consumed_at r with
                 | None => true
                 | Some _ => false
                 end
              && (now <? AdminLoginChallenges.expires_at r))
           (admin_login_challenges db)
  end.

(** ** SQL's three-valued conditions *)

Definition sql_text_ne (a b : option Pg.text) : option bool :=
  match a, b with
  | Some a, Some b => Some (negb (String.eqb a b))
  | _, _ => None
  end.

(** [IF c THEN]: the branch is taken only when [c] is true, not when it is
    false or NULL. *)
Definition is_true (c : option bool) : bool :=
  match c with
  | Some true => true
  | _ => false
  end.

(** ** The results the functions return *)

Module LoginResult.
Record row : Type := {
  success : bool;
  requires_otp : bool;
  challenge_id : option uuid;
  error : option Pg.text;
  id : option uuid;
  email : option Pg.text;
  name : option Pg.text;
  role : option Pg.text;
  two_factor_enabled : bool
}.
End LoginResult.

Module VerifyResult.
Record row : Type := {
  success : bool;
  error : option Pg.text;
  id : option uuid;
  email : option Pg.text;
  name : option Pg.text;
  role : option Pg.text;
  two_factor_enabled : bool
}.
End VerifyResult.

Module StartResult.
Record row : Type := { secret : Pg.text; recovery_codes : list Pg.text }.
End StartResult.

Module StatusResult.
Record row : Type := { success : bool; error : option Pg.text }.
End StatusResult.

Definition login_rejected (msg : Pg.text) : LoginResult.row :=
  {| LoginResult.success := false; LoginResult.requires_otp := false;
     LoginResult.challenge_id := None; LoginResult.error := Some msg;
     LoginResult.id := None; LoginResult.email := None;
     LoginResult.name := None; LoginResult.role := None;
     LoginResult.two_factor_enabled := false |}.

Definition verify_rejected (msg : Pg.text) : VerifyResult.row :=
  {| VerifyResult.success := false; VerifyResult.error := Some msg;
     VerifyResult.id := None; VerifyResult.email := None;
     VerifyResult.name := None; VerifyResult.role := None;
     VerifyResult.two_factor_enabled := false |}.

Definition verify_accepted (account : AdminUsers.row) : VerifyResult.row :=
  {| VerifyResult.success := true; VerifyResult.error := None;
     VerifyResult.id := Some (AdminUsers.id account);
     VerifyResult.email := Some (AdminUsers.email account);
     VerifyResult.name := Some (AdminUsers.name account);
     VerifyResult.role := Some (AdminUsers.role account);
     VerifyResult.two_factor_enabled := AdminUsers.two_factor_enabled account |}.

Definition status_rejected (msg : Pg.text) : StatusResult.row :=
  {| StatusResult.success := false; StatusResult.error := Some msg |}.

Definition status_ok : StatusResult.row :=
  {| StatusResult.success := true; StatusResult.error := None |}.

(** The random values one call of [admin_start_two_factor] draws:
    [gen_random_bytes(20)], and in the i-th turn of its loop
    [gen_random_bytes(5)] and [gen_salt('bf')]. *)
Record entropy : Type := {
  secret_bytes : Pg.bytea;
  code_bytes : Z -> Pg.bytea;
  salt : Z -> Pg.text
}.

(** [upper(substr(encode(b, 'hex'), 1, 10))] cut as [XXXXX-XXXXX]. *)
Definition recovery_code_text {lc : Pg.locale} (b : Pg.bytea) : Pg.text :=
  let code_value := Pg.upper (Pg.substr (Pg.encode_hex b) 1 10) in
  String.append (Pg.substr code_value 1 5)
    (String.append "-" (Pg.substr code_value 6 5)).

(** ** The operations; [crypt] is pgcrypto's password hash

    Every operation starts with [SELECT * INTO account ... WHERE email =
    login_email] and [IF NOT FOUND OR account.password_hash <> crypt(...)]:
    without a row the condition is true, with a row it is the comparison. *)

(** The variables of the two functions whose result table has a column [id]:
    the output columns, the parameters and the declared variables. *)
Definition admin_login_variables : list Pg.text :=
  ["success"; "requires_otp"; "challenge_id"; "error"; "id"; "email"; "name"; "role";
   "two_factor_enabled"; "login_email"; "login_password"; "account"; "challenge"].

Definition admin_verify_two_factor_variables : list Pg.text :=
  ["success"; "error"; "id"; "email"; "name"; "role"; "two_factor_enabled";
   "challenge"; "otp_code"; "record_challenge"; "account"; "used_recovery";
   "matched_hash"].

(** The variables of the other functions; none is named like a column of
    [admin_users], nor like the alias [code_hash]. *)
Definition admin_take_recovery_code_variables : list Pg.text :=
  ["user_id"; "attempt"; "hashed"; "matched"].

Definition admin_start_two_factor_variables : list Pg.text :=
  ["secret"; "recovery_codes"; "login_email"; "login_password"; "account";
   "generated_secret"; "codes"; "hashed"; "code_value"; "i"].

Definition admin_confirm_two_factor_variables : list Pg.text :=
  ["success"; "error"; "login_email"; "login_password"; "otp_code"; "account"].

Definition admin_disable_two_factor_variables : list Pg.text :=
  ["success"; "error"; "login_email"; "login_password"; "otp_code"; "account";
   "valid"].

Section Operations.

Context {lc : Pg.locale}.
Variable crypt : Pg.text -> Pg.text -> Pg.text.

(** [crypt] is declared STRICT: a NULL password gives NULL. *)
Definition sql_crypt (password : option Pg.text) (setting : Pg.text)
  : option Pg.text :=
  match password with
  | Some p => Some (crypt p setting)
  | None => None
  end.

(** [account.password_hash <> crypt(login_password, account.password_hash)]. *)
Definition password_differs (account : AdminUsers.row)
  (login_password : option Pg.text) : option bool :=
  sql_text_ne (Some (AdminUsers.password_hash account))
    (sql_crypt login_password (AdminUsers.password_hash account)).

(** [SELECT code_hash FROM unnest(codes) WHERE crypt(attempt, code_hash) =
    code_hash LIMIT 1]. *)
Definition matching_hash (attempt : Pg.text) (codes : list Pg.text)
  : option Pg.text :=
  find (fun code_hash => String.eqb (crypt attempt code_hash) code_hash) codes.

Definition admin_take_recovery_code (db : database) (now : Pg.timestamptz)
  (user_id : uuid) (attempt : option Pg.text) : result (bool * database) :=
  match attempt with
  | None => Ok (false, db)
  | Some attempt =>
      if String.eqb (Pg.trim attempt) "" then Ok (false, db)
      else
        let codes :=
          match select_by_id db user_id with
          | Some a => AdminUsers.two_factor_recovery_codes a
          | None => []
          end in
        match matching_hash (Pg.trim attempt) codes with
        | None => Ok (false, db)
        | Some matched =>
            Ok (true,
                update_admin_users now
                  (fun a => N.eqb (AdminUsers.id a) user_id)
                  (fun a =>
                     AdminUsers.set_recovery_codes
                       (Pg.array_remove (AdminUsers.two_factor_recovery_codes a)
                          matched) a)
                  db)
        end
  end.

Definition admin_login (db : database) (now : Pg.timestamptz) (fresh : uuid)
  (login_email login_password : option Pg.text)
  : result (LoginResult.row * database) :=
  match select_by_email db login_email with
  | None => Ok (login_rejected "Invalid credentials", db)
  | Some account =>
      if is_true (password_differs account login_password) then
        Ok (login_rejected "Invalid credentials", db)
      else if AdminUsers.two_factor_enabled account
              && match AdminUsers.two_factor_secret account with
                 | Some _ => true
                 | None => false
                 end then
        _ <- Plpgsql.column_references admin_login_variables
               AdminLoginChallenges.columns ["id"] ;;
        Ok ({| LoginResult.success := false; LoginResult.requires_otp := true;
               LoginResult.challenge_id := Some fresh;
               LoginResult.error := None;
               LoginResult.id := None; LoginResult.email := None;
               LoginResult.name := None; LoginResult.role := None;
               LoginResult.two_factor_enabled :=
                 AdminUsers.two_factor_enabled account |},
            insert_challenge now fresh (AdminUsers.id account)
              (now + 5 * 60 * 1000000) db)
      else
        Ok ({| LoginResult.success := true; LoginResult.requires_otp := false;
               LoginResult.challenge_id := None; LoginResult.error := None;
               LoginResult.id := Some (AdminUsers.id account);
               LoginResult.email := Some (AdminUsers.email account);
               LoginResult.name := Some (AdminUsers.name account);
               LoginResult.role := Some (AdminUsers.role account);
               LoginResult.two_factor_enabled :=
                 AdminUsers.two_factor_enabled account |},
            db)
  end.

Definition admin_verify_two_factor (db : database) (now : Pg.timestamptz)
  (challenge : option uuid) (otp_code : option Pg.text)
  : result (VerifyResult.row * database) :=
  let names := Plpgsql.column_references admin_verify_two_factor_variables in
  _ <- names AdminLoginChallenges.columns
         ["id"; "challenge"; "consumed_at"; "expires_at"] ;;
  match select_valid_challenge db now challenge with
  | None => Ok (verify_rejected "Challenge expired or invalid", db)
  | Some record_challenge =>
      _ <- names AdminUsers.columns ["id"] ;;
      match select_by_id db (AdminLoginChallenges.admin_user_id record_challenge) with
      | None => Ok (verify_rejected "Account not found", db)
      | Some account =>
          let consume (d : database) : result database :=
            _ <- names AdminLoginChallenges.columns ["id"] ;;
            Ok (consume_challenge now (AdminLoginChallenges.id record_challenge) d) in
          if negb (AdminUsers.two_factor_enabled account)
             || match AdminUsers.two_factor_secret account with
                | None => true
                | Some _ => false
                end then
            consumed <- consume db ;;
            Ok (verify_accepted account, consumed)
          else
            valid <- admin_totp_is_valid now (AdminUsers.two_factor_secret account)
                       otp_code 1 ;;
            if valid then
              consumed <- consume db ;;
              Ok (verify_accepted account, consumed)
            else
              _ <- names ["code_hash"] ["otp_code"; "code_hash"] ;;
              match matching_hash (coalesce_text otp_code "")
                      (AdminUsers.two_factor_recovery_codes account) with
              | None => Ok (verify_rejected "Invalid authentication code", db)
              | Some matched_hash =>
                  _ <- names AdminUsers.columns
                         ["two_factor_recovery_codes"; "matched_hash"; "id"] ;;
                  consumed <-
                    consume
                      (update_admin_users now
                         (fun a => N.eqb (AdminUsers.id a) (AdminUsers.id account))
                         (fun a =>
                            AdminUsers.set_recovery_codes
                              (Pg.array_remove
                                 (AdminUsers.two_factor_recovery_codes a)
                                 matched_hash) a)
                         db) ;;
                  Ok (verify_accepted account, consumed)
              end
      end
  end.

(** One turn of the [FOR i IN 1..8] loop of [admin_start_two_factor]; the
    local variables are [(codes, hashed)]. *)
Definition generate_code (rnd : entropy) (i : Z)
  (v : list Pg.text * list Pg.text) : result (list Pg.text * list Pg.text) :=
  let code_value := recovery_code_text (code_bytes rnd i) in
  Ok (fst v ++ [code_value], snd v ++ [crypt code_value (salt rnd i)]).

Definition admin_start_two_factor (db : database) (now : Pg.timestamptz)
  (rnd : entropy) (login_email login_password : option Pg.text)
  : result (StartResult.row * database) :=
  match select_by_email db login_email with
  | None => Raise "Invalid credentials"
  | Some account =>
      if is_true (password_differs account login_password) then
        Raise "Invalid credentials"
      else
        generated_secret <- base32_encode (Some (secret_bytes rnd)) ;;
        v <- for_range 1 8 (generate_code rnd) ([], []) ;;
        Ok ({| StartResult.secret := generated_secret;
               StartResult.recovery_codes := fst v |},
            update_admin_users now
              (fun a => N.eqb (AdminUsers.id a) (AdminUsers.id account))
              (AdminUsers.set_temp (Some generated_secret) (snd v))
              db)
  end.

Definition admin_confirm_two_factor (db : database) (now : Pg.timestamptz)
  (login_email login_password otp_code : option Pg.text)
  : result (StatusResult.row * database) :=
  match select_by_email db login_email with
  | None => Ok (status_rejected "Invalid credentials", db)
  | Some account =>
      if is_true (password_differs account login_password) then
        Ok (status_rejected "Invalid credentials", db)
      else
        match AdminUsers.two_factor_temp_secret account with
        | None => Ok (status_rejected "No pending setup found", db)
        | Some _ =>
            valid <- admin_totp_is_valid now
                       (AdminUsers.two_factor_temp_secret account) otp_code 1 ;;
            if negb valid then
              Ok (status_rejected "Verification code is invalid", db)
            else
              Ok (status_ok,
                  update_admin_users now
                    (fun a => N.eqb (AdminUsers.id a) (AdminUsers.id account))
                    (AdminUsers.set_confirmed now
                       (AdminUsers.two_factor_temp_secret account)
                       (AdminUsers.two_factor_temp_recovery_codes account))
                    db)
        end
  end.

Definition admin_disable_two_factor (db : database) (now : Pg.timestamptz)
  (login_email login_password otp_code : option Pg.text)
  : result (StatusResult.row * database) :=
  match select_by_email db login_email with
  | None => Ok (status_rejected "Invalid credentials", db)
  | Some account =>
      if is_true (password_differs account login_password) then
        Ok (status_rejected "Invalid credentials", db)
      else if negb (AdminUsers.two_factor_enabled account) then
        Ok (status_rejected "Two-factor authentication is not enabled", db)
      else
        valid <- admin_totp_is_valid now (AdminUsers.two_factor_secret account)
                   otp_code 1 ;;
        taken <- (if negb valid
                  then admin_take_recovery_code db now (AdminUsers.id account) otp_code
                  else Ok (valid, db)) ;;
        let valid := fst taken in
        let db := snd taken in
        if negb valid then
          Ok (status_rejected "Invalid authentication code", db)
        else
          Ok (status_ok,
              update_admin_users now
                (fun a => N.eqb (AdminUsers.id a) (AdminUsers.id account))
                AdminUsers.set_disabled
                db)
  end.

End Operations.

(** What a call leaves behind and what it returns: a raised exception rolls
    the call back and returns nothing. *)
Definition database_after {A : Type} (db : database) (r : result (A * database))
  : database :=
  match r with
  | Ok (_, db') => db'
  | Raise _ => db
  end.

(** ** The login the migration replaces, and the script that creates an admin

    [admin_login] of the migration "Fix Admin Login Authentication", which
    the two-factor migration drops and defines anew, and the [DO] block of
    scripts/create-admin-user.sql with its four variables. *)

Definition sql_text_eq (a b : option Pg.text) : option bool :=
  match a, b with
  | Some a, Some b => Some (String.eqb a b)
  | _, _ => None
  end.

(** [a AND b] in three-valued logic. *)
Definition sql_and (a b : option bool) : option bool :=
  match a, b with
  | Some false, _ | _, Some false => Some false
  | Some true, Some true => Some true
  | _, _ => None
  end.

Module Previous.
Record row : Type := { id : uuid; email : Pg.text; name : Pg.text; role : Pg.text }.

(** [SELECT a.id, a.email, a.name, a.role FROM admin_users a WHERE a.email =
    login_email AND a.password_hash = crypt(login_password, a.password_hash)]:
    the rows for which the condition is true. *)
Definition admin_login (crypt : Pg.text -> Pg.text -> Pg.text) (db : database)
  (login_email login_password : option Pg.text) : list row :=
  map (fun a => {| id := AdminUsers.id a; email := AdminUsers.email a;
                   name := AdminUsers.name a; role := AdminUsers.role a |})
    (filter
       (fun a =>
          is_true
            (sql_and
               (sql_text_eq (Some (AdminUsers.email a)) login_email)
               (sql_text_eq (Some (AdminUsers.password_hash a))
                  (sql_crypt crypt login_password (AdminUsers.password_hash a)))))
       (admin_users db)).
End Previous.

(** The [DO] block of the script: [INSERT .. ON CONFLICT (email) DO NOTHING]
    with the defaults of the table for the other columns ([fresh] is
    [gen_random_uuid()], [salt] is [gen_salt('bf')]), then the notices. *)
Definition create_admin_user (crypt : Pg.text -> Pg.text -> Pg.text) (db : database)
  (now : Pg.timestamptz) (fresh : uuid) (salt : Pg.text)
  (admin_email admin_password admin_name admin_role : Pg.text)
  : list Pg.text * database :=
  let inserted :=
    {| AdminUsers.id := fresh;
       AdminUsers.email := admin_email;
       AdminUsers.password_hash := crypt admin_password salt;
       AdminUsers.name := admin_name;
       AdminUsers.role := admin_role;
       AdminUsers.created_at := Some now;
       AdminUsers.updated_at := Some now;
       AdminUsers.two_factor_enabled := false;
       AdminUsers.two_factor_secret := None;
       AdminUsers.two_factor_recovery_codes := [];
       AdminUsers.two_factor_temp_secret := None;
       AdminUsers.two_factor_temp_recovery_codes := [];
       AdminUsers.two_factor_confirmed_at := None |} in
  let db' :=
    if existsb (fun a => String.eqb (AdminUsers.email a) admin_email) (admin_users db)
    then db
    else {| admin_users := admin_users db ++ [inserted];
            admin_login_challenges := admin_login_challenges db |} in
  (["Admin user created successfully!";
    String.append "Email: " admin_email;
    String.append "Password: "
      (String.append admin_password " (change this after first login!)")],
   db').

(** ** The admin client, src/contexts/AdminAuthContext.tsx

    The React provider that calls the five RPCs from the browser. An
    [await supabase.rpc(..)] either throws or yields [{ data, error }]; the
    provider keeps the signed-in admin in its state hook [adminUser] and in
    the entry 'adminUser' of [localStorage] (the JSON text is modelled by the
    value it spells). A function takes the state of the provider and the
    state [S] of the server it calls and returns what it resolves to with
    both states; the effect that restores [adminUser] from [localStorage]
    when the provider mounts is not part of the embedding. *)

Module Rpc.
(** [{ data, error }]: the rows the function returned, or the error. *)
Record response (A : Type) : Type := {
  data : option (list A);
  error : option Pg.text
}.
Arguments data {A} _.
Arguments error {A} _.

(** What [await] gives: the response, or a thrown exception. *)
Inductive settled (A : Type) : Type :=
| Fulfilled (r : response A)
| Rejected.
Arguments Fulfilled {A} _.
Arguments Rejected {A}.
End Rpc.

(** [supabase.rpc(name, args)] for the five functions, on a server [S]. *)
Record supabase (S : Type) : Type := {
  rpc_admin_login :
    option Pg.text -> option Pg.text -> S -> Rpc.settled LoginResult.row * S;
  rpc_admin_verify_two_factor :
    option uuid -> option Pg.text -> S -> Rpc.settled VerifyResult.row * S;
  rpc_admin_start_two_factor :
    option Pg.text -> option Pg.text -> S -> Rpc.settled StartResult.row * S;
  rpc_admin_confirm_two_factor :
    option Pg.text -> option Pg.text -> option Pg.text -> S
    -> Rpc.settled StatusResult.row * S;
  rpc_admin_disable_two_factor :
    option Pg.text -> option Pg.text -> option Pg.text -> S
    -> Rpc.settled StatusResult.row * S
}.
Arguments rpc_admin_login {S} _ _ _ _.
Arguments rpc_admin_verify_two_factor {S} _ _ _ _.
Arguments rpc_admin_start_two_factor {S} _ _ _ _.
Arguments rpc_admin_confirm_two_factor {S} _ _ _ _ _.
Arguments rpc_admin_disable_two_factor {S} _ _ _ _ _.

Module AdminAuthContext.

(** [interface AdminUser]; a field holds what the payload had, NULL too. *)
Record AdminUser : Type := {
  id : option uuid;
  email : option Pg.text;
  name : option Pg.text;
  role : option Pg.text;
  twoFactorEnabled : bool
}.

(** [Partial<AdminUser>]: the fields that are given. *)
Record PartialAdminUser : Type := {
  with_id : option (option uuid);
  with_email : option (option Pg.text);
  with_name : option (option Pg.text);
  with_role : option (option Pg.text);
  with_twoFactorEnabled : option bool
}.

(** The state hook [adminUser] and [localStorage.getItem('adminUser')]. *)
Record state : Type := {
  adminUser : option AdminUser;
  localStorage : option AdminUser
}.

(** The columns [mapUser] reads from a row of either result table. *)
Record payload : Type := {
  payload_id : option uuid;
  payload_email : option Pg.text;
  payload_name : option Pg.text;
  payload_role : option Pg.text;
  payload_two_factor_enabled : option bool
}.

Definition login_payload (r : LoginResult.row) : payload :=
  {| payload_id := LoginResult.id r; payload_email := LoginResult.email r;
     payload_name := LoginResult.name r; payload_role := LoginResult.role r;
     payload_two_factor_enabled := Some (LoginResult.two_factor_enabled r) |}.

Definition verify_payload (r : VerifyResult.row) : payload :=
  {| payload_id := VerifyResult.id r; payload_email := VerifyResult.email r;
     payload_name := VerifyResult.name r; payload_role := VerifyResult.role r;
     payload_two_factor_enabled := Some (VerifyResult.two_factor_enabled r) |}.

(** [a ?? b]. *)
Definition nullish {A : Type} (a : option A) (b : A) : A :=
  match a with
  | Some v => v
  | None => b
  end.

(** [data?.[0]]. *)
Definition first_row {A : Type} (data : option (list A)) : option A :=
  match data with
  | Some (row :: _) => Some row
  | _ => None
  end.

Definition persistUser (user : option AdminUser) (st : state) : state :=
  {| adminUser := user; localStorage := user |}.

Definition mapUser (p : payload) : AdminUser :=
  {| id := payload_id p; email := payload_email p; name := payload_name p;
     role := payload_role p;
     twoFactorEnabled := nullish (payload_two_factor_enabled p) false |}.

(** [{ ...prev, ...updates }]. *)
Definition spread (prev : AdminUser) (updates : PartialAdminUser) : AdminUser :=
  {| id := nullish (with_id updates) (id prev);
     email := nullish (with_email updates) (email prev);
     name := nullish (with_name updates) (name prev);
     role := nullish (with_role updates) (role prev);
     twoFactorEnabled := nullish (with_twoFactorEnabled updates) (twoFactorEnabled prev) |}.

Definition updateAdminUser (updates : PartialAdminUser) (st : state) : state :=
  match adminUser st with
  | None => st
  | Some prev =>
      let next := spread prev updates in
      {| adminUser := Some next; localStorage := Some next |}
  end.

(** [{ twoFactorEnabled: b }]. *)
Definition only_twoFactorEnabled (b : bool) : PartialAdminUser :=
  {| with_id := None; with_email := None; with_name := None; with_role := None;
     with_twoFactorEnabled := Some b |}.

(** The values the functions resolve to; an absent field is [None]. *)
Module LoginOutcome.
Record t : Type := {
  success : bool;
  error : option Pg.text;
  requiresOtp : option bool;
  challengeId : option uuid
}.
End LoginOutcome.

Module StatusOutcome.
Record t : Type := { success : bool; error : option Pg.text }.
End StatusOutcome.

Module StartOutcome.
Record t : Type := {
  secret : option Pg.text;
  recoveryCodes : option (list Pg.text);
  error : option Pg.text
}.
End StartOutcome.

Definition login_failed (msg : Pg.text) : LoginOutcome.t :=
  {| LoginOutcome.success := false; LoginOutcome.error := Some msg;
     LoginOutcome.requiresOtp := None; LoginOutcome.challengeId := None |}.

Definition status_failed (msg : Pg.text) : StatusOutcome.t :=
  {| StatusOutcome.success := false; StatusOutcome.error := Some msg |}.

Definition status_done : StatusOutcome.t :=
  {| StatusOutcome.success := true; StatusOutcome.error := None |}.

Definition start_failed (msg : Pg.text) : StartOutcome.t :=
  {| StartOutcome.secret := None; StartOutcome.recoveryCodes := None;
     StartOutcome.error := Some msg |}.

(** [throw new Error('Admin user not available')] when nobody is signed in. *)
Definition ensureAdminEmail (st : state) : result (option Pg.text) :=
  match adminUser st with
  | None => Raise "Admin user not available"
  | Some user => Ok (email user)
  end.

Section Functions.

Context {S : Type} (sb : supabase S).

Definition login (login_email login_password : Pg.text) (st : state) (server : S)
  : LoginOutcome.t * state * S :=
  match rpc_admin_login sb (Some login_email) (Some login_password) server with
  | (Rpc.Rejected, server) => (login_failed "Login failed", st, server)
  | (Rpc.Fulfilled r, server) =>
      match Rpc.error r with
      | Some _ => (login_failed "Invalid credentials", st, server)
      | None =>
          match Rpc.data r with
          | None | Some [] => (login_failed "Invalid credentials", st, server)
          | Some (response :: _) =>
              if LoginResult.requires_otp response then
                ({| LoginOutcome.success := false; LoginOutcome.error := None;
                    LoginOutcome.requiresOtp := Some true;
                    LoginOutcome.challengeId := LoginResult.challenge_id response |},
                 st, server)
              else if negb (LoginResult.success response) then
                (login_failed (nullish (LoginResult.error response) "Invalid credentials"),
                 st, server)
              else
                ({| LoginOutcome.success := true; LoginOutcome.error := None;
                    LoginOutcome.requiresOtp := None;
                    LoginOutcome.challengeId := None |},
                 persistUser (Some (mapUser (login_payload response))) st, server)
          end
      end
  end.

Definition verifyTwoFactor (challengeId : uuid) (code : Pg.text) (st : state)
  (server : S) : StatusOutcome.t * state * S :=
  match rpc_admin_verify_two_factor sb (Some challengeId) (Some code) server with
  | (Rpc.Rejected, server) => (status_failed "Verification failed", st, server)
  | (Rpc.Fulfilled r, server) =>
      match Rpc.error r with
      | Some _ => (status_failed "Verification failed", st, server)
      | None =>
          match first_row (Rpc.data r) with
          | None => (status_failed "Verification failed", st, server)
          | Some result =>
              if negb (VerifyResult.success result) then
                (status_failed (nullish (VerifyResult.error result) "Verification failed"),
                 st, server)
              else
                (status_done,
                 persistUser (Some (mapUser (verify_payload result))) st, server)
          end
      end
  end.

Definition startTwoFactorSetup (password : Pg.text) (st : state) (server : S)
  : StartOutcome.t * state * S :=
  match ensureAdminEmail st with
  | Raise _ => (start_failed "Unable to start setup", st, server)
  | Ok login_email =>
      match rpc_admin_start_two_factor sb login_email (Some password) server with
      | (Rpc.Rejected, server) => (start_failed "Unable to start setup", st, server)
      | (Rpc.Fulfilled r, server) =>
          match Rpc.error r with
          | Some _ => (start_failed "Unable to start setup", st, server)
          | None =>
              match first_row (Rpc.data r) with
              | None => (start_failed "Unable to start setup", st, server)
              | Some result =>
                  if String.eqb (StartResult.secret result) "" then
                    (start_failed "Unable to start setup", st, server)
                  else
                    ({| StartOutcome.secret := Some (StartResult.secret result);
                        StartOutcome.recoveryCodes :=
                          Some (StartResult.recovery_codes result);
                        StartOutcome.error := None |},
                     st, server)
              end
          end
      end
  end.

Definition confirmTwoFactorSetup (password code : Pg.text) (st : state) (server : S)
  : StatusOutcome.t * state * S :=
  match ensureAdminEmail st with
  | Raise _ => (status_failed "Unable to confirm 2FA", st, server)
  | Ok login_email =>
      match rpc_admin_confirm_two_factor sb login_email (Some password) (Some code)
              server with
      | (Rpc.Rejected, server) => (status_failed "Unable to confirm 2FA", st, server)
      | (Rpc.Fulfilled r, server) =>
          match Rpc.error r with
          | Some _ => (status_failed "Unable to confirm 2FA", st, server)
          | None =>
              match first_row (Rpc.data r) with
              | None => (status_failed "Unable to confirm 2FA", st, server)
              | Some result =>
                  if negb (StatusResult.success result) then
                    (status_failed
                       (nullish (StatusResult.error result) "Unable to confirm 2FA"),
                     st, server)
                  else
                    (status_done, updateAdminUser (only_twoFactorEnabled true) st,
                     server)
              end
          end
      end
  end.

Definition disableTwoFactor (password code : Pg.text) (st : state) (server : S)
  : StatusOutcome.t * state * S :=
  match ensureAdminEmail st with
  | Raise _ => (status_failed "Unable to disable 2FA", st, server)
  | Ok login_email =>
      match rpc_admin_disable_two_factor sb login_email (Some password) (Some code)
              server with
      | (Rpc.Rejected, server) => (status_failed "Unable to disable 2FA", st, server)
      | (Rpc.Fulfilled r, server) =>
          match Rpc.error r with
          | Some _ => (status_failed "Unable to disable 2FA", st, server)
          | None =>
              match first_row (Rpc.data r) with
              | None => (status_failed "Unable to disable 2FA", st, server)
              | Some result =>
                  if negb (StatusResult.success result) then
                    (status_failed
                       (nullish (StatusResult.error result) "Unable to disable 2FA"),
                     st, server)
                  else
                    (status_done, updateAdminUser (only_twoFactorEnabled false) st,
                     server)
              end
          end
      end
  end.

Definition logout (st : state) : state := persistUser None st.

End Functions.

End AdminAuthContext.

(** PostgREST in front of the migration: the row a function returned comes
    back as a one-element array, a raised exception as an error with the
    call rolled back. [now], [fresh] and [rnd] are the clock and the random
    values of the server during the call. *)
Definition postgrest {A : Type} (r : result (A * database)) (db : database)
  : Rpc.settled A * database :=
  match r with
  | Ok (row, db') =>
      (Rpc.Fulfilled {| Rpc.data := Some [row]; Rpc.error := None |}, db')
  | Raise m => (Rpc.Fulfilled {| Rpc.data := None; Rpc.error := Some m |}, db)
  end.

Definition flowboard_backend {lc : Pg.locale} (crypt : Pg.text -> Pg.text -> Pg.text)
  (now : Pg.timestamptz) (fresh : uuid) (rnd : entropy) : supabase database :=
  {| rpc_admin_login :=
       fun e p db => postgrest (admin_login crypt db now fresh e p) db;
     rpc_admin_verify_two_factor :=
       fun c code db => postgrest (admin_verify_two_factor crypt db now c code) db;
     rpc_admin_start_two_factor :=
       fun e p db => postgrest (admin_start_two_factor crypt db now rnd e p) db;
     rpc_admin_confirm_two_factor :=
       fun e p code db => postgrest (admin_confirm_two_factor crypt db now e p code) db;
     rpc_admin_disable_two_factor :=
       fun e p code db => postgrest (admin_disable_two_factor crypt db now e p code) db |}.

(** ** Concrete data to run the operations on *)

(** A stand-in for [crypt]: the first four characters of the setting are the
    salt, the hash is the salt followed by the password. *)
Definition demo_crypt (password setting : Pg.text) : Pg.text :=
  String.append (String.substring 0 4 setting) password.

Definition demo_secret : Pg.text := "GEZDGNBVGY3TQOJQGEZDGNBVGY3TQOJQ".

Definition demo_codes : list Pg.text :=
  ["0A1B2-C3D4E"; "11111-22222"; "ABCDE-F0123"; "99999-00000";
   "DEADB-EEF00"; "CAFE0-12345"; "0F0F0-F0F0F"; "13579-BDF02"].

Definition demo_hashes : list Pg.text :=
  ["s0010A1B2-C3D4E"; "s00211111-22222"; "s003ABCDE-F0123"; "s00499999-00000";
   "s005DEADB-EEF00"; "s006CAFE0-12345"; "s0070F0F0-F0F0F"; "s00813579-BDF02"].

Definition demo_admin (enabled : bool) (secret : option Pg.text)
  (codes : list Pg.text) : AdminUsers.row :=
  {| AdminUsers.id := 7%N;
     AdminUsers.email := "admin@example.com";
     AdminUsers.password_hash := "pw00ChangeThisPassword123!";
     AdminUsers.name := "Admin User";
     AdminUsers.role := "super_admin";
     AdminUsers.created_at := Some 0;
     AdminUsers.updated_at := Some 0;
     AdminUsers.two_factor_enabled := enabled;
     AdminUsers.two_factor_secret := secret;
     AdminUsers.two_factor_recovery_codes := codes;
     AdminUsers.two_factor_temp_secret := None;
     AdminUsers.two_factor_temp_recovery_codes := [];
     AdminUsers.two_factor_confirmed_at := None |}.

Definition demo_challenge (c : uuid) (expires : Pg.timestamptz)
  : AdminLoginChallenges.row :=
  {| AdminLoginChallenges.id := c;
     AdminLoginChallenges.admin_user_id := 7%N;
     AdminLoginChallenges.created_at := 0;
     AdminLoginChallenges.expires_at := expires;
     AdminLoginChallenges.consumed_at := None |}.

Definition demo_password : option Pg.text := Some "ChangeThisPassword123!".
Definition demo_email : option Pg.text := Some "admin@example.com".

(** 2FA off, nothing pending. *)
Definition demo_db_plain : database :=
  {| admin_users := [demo_admin false None []]; admin_login_challenges := [] |}.

(** 2FA on with eight recovery codes, and two open challenges. *)
Definition demo_db_enabled : database :=
  {| admin_users := [demo_admin true (Some demo_secret) demo_hashes];
     admin_login_challenges :=
       [demo_challenge 100%N 400000000; demo_challenge 101%N 400000000] |}.

Definition demo_entropy : entropy :=
  {| secret_bytes := list_byte_of_string "12345678901234567890";
     code_bytes := fun i => map Pg.byte_of_value [i; 16 * i; 255 - i; 7; 200 + i];
     salt := fun i => String.append "s00" (Pg.text_of_int i) |}.

Definition demo_batch : list (Pg.text * Pg.text) := combine demo_codes demo_hashes.

(** 2FA switched off while a challenge issued earlier is still open. *)
Definition demo_db_switched_off : database :=
  {| admin_users := [demo_admin false None []];
     admin_login_challenges := [demo_challenge 100%N 400000000] |}.

(** 2FA on with recovery codes but no secret, as [admin_login] and
    [admin_verify_two_factor] provide for ([two_factor_secret IS NULL]). *)
Definition demo_db_recovery_only : database :=
  {| admin_users := [demo_admin true None demo_hashes];
     admin_login_challenges := [] |}.

(** An enrolment that waits for its confirmation: the temp fields are set. *)
Definition demo_admin_pending : AdminUsers.row :=
  AdminUsers.set_temp (Some demo_secret) demo_hashes (demo_admin false None []).

Definition demo_db_pending : database :=
  {| admin_users := [demo_admin_pending]; admin_login_challenges := [] |}.

(** A challenge that was consumed at 30 seconds past the epoch. *)
Definition demo_db_consumed : database :=
  {| admin_users := [demo_admin true (Some demo_secret) demo_hashes];
     admin_login_challenges :=
       [AdminLoginChallenges.set_consumed 30000000 (demo_challenge 100%N 400000000)] |}.

(** ** Vocabulary of the statements *)

(** *** Bit streams of the base32 codec *)

(** The [n] low bits of [v], most significant first. *)
Fixpoint bits_of (n : nat) (v : Z) : list bool :=
  match n with
  | O => []
  | S n' => Z.testbit v (Z.of_nat n') :: bits_of n' v
  end.

(** The value a base32 character stands for: its place in [alphabet]. *)
Definition code_of (c : ascii) : Z := Pg.position (String c EmptyString) alphabet - 1.

(** The bit stream of a byte string, and of a base32 text (five bits a
    character). *)
Definition bytes_bits (b : Pg.bytea) : list bool :=
  flat_map (fun x => bits_of 8 (Pg.byte_value x)) b.

Fixpoint chars_bits (s : Pg.text) : list bool :=
  match s with
  | EmptyString => []
  | String c r => bits_of 5 (code_of c) ++ chars_bits r
  end.

(** Every character of the text is in the class [[A-Z2-7]] of the cleaning
    expression; every character of the text occurs in [alphabet]. *)
Fixpoint class_only (s : Pg.text) : bool :=
  match s with
  | EmptyString => true
  | String c r => in_class c && class_only r
  end.

Definition in_alphabet (c : ascii) : bool :=
  0 <? Pg.position (String c EmptyString) alphabet.

(** A loop over the elements of a list, the shape the index loops reduce to. *)
Fixpoint foldM {A S : Type} (step : A -> S -> result S) (l : list A) (s : S)
  : result S :=
  match l with
  | [] => Ok s
  | a :: r => s' <- step a s ;; foldM step r s'
  end.

(** What one turn of the loop of [base32_decode] does with the character read. *)
Definition decode_step (c : ascii) (v : dec_vars) : result dec_vars :=
  let ch := String c EmptyString in
  let value := Pg.position ch alphabet - 1 in
  if value <? 0 then
    Raise (String.append "Invalid base32 character: " ch)
  else
    buffer <- Pg.int8pl (Pg.int8shl (dec_buffer v) 5) value ;;
    decode_drain {| dec_output := dec_output v;
                    dec_buffer := buffer;
                    dec_bits := dec_bits v + 5 |}.

(** Exhaustive checks over the 256 byte values and the 256 characters. *)
Definition hex_piece_ok (z : Z) : bool :=
  match Pg.decode_hex (Pg.lpad (Pg.to_hex z) 2 "0") with
  | Ok [b] => Byte.eqb b (Pg.byte_of_value z) && (Pg.byte_value b =? z)
  | _ => false
  end.

Definition class_char_ok (c : ascii) : bool :=
  Bool.eqb (in_class c) (in_alphabet c)
  && (negb (in_class c)
      || ((0 <=? code_of c) && (code_of c <? 32) && Ascii.eqb (Pg.upper_char c) c)).

(** *** The reference one-time password, following RFC 6238 and RFC 4226

    These definitions follow the words of the specification, not the code:
    the counter as an 8-byte big-endian integer, HMAC-SHA1 keyed with the
    secret, the low four bits of the last byte as an offset, four bytes from
    there with the top bit masked, the remainder modulo 1,000,000 written with
    six decimal digits. *)

Definition big_endian_8 (counter : Z) : Pg.bytea :=
  map (fun k => Pg.byte_of_value (counter / 256 ^ k)) [7; 6; 5; 4; 3; 2; 1; 0].

Definition dynamic_truncation (hash : Pg.bytea) : Z :=
  let offset :=
    Z.to_nat (Pg.byte_value (nth (List.length hash - 1) hash x00) mod 16) in
  let byte_at k := Pg.byte_value (nth (offset + k) hash x00) in
  (byte_at 0%nat * 2 ^ 24 + byte_at 1%nat * 2 ^ 16 + byte_at 2%nat * 2 ^ 8
   + byte_at 3%nat) mod 2 ^ 31.

Definition six_digits (n : Z) : Pg.text :=
  String (Pg.digit_char (n / 100000 mod 10))
    (String (Pg.digit_char (n / 10000 mod 10))
       (String (Pg.digit_char (n / 1000 mod 10))
          (String (Pg.digit_char (n / 100 mod 10))
             (String (Pg.digit_char (n / 10 mod 10))
                (String (Pg.digit_char (n mod 10)) EmptyString))))).

Definition hmac_sha1_bytes (key message : Pg.bytea) : Pg.bytea :=
  map Pg.byte_of_value
    (Sha1.hmac_sha1 (map Pg.byte_value key) (map Pg.byte_value message)).

Definition rfc6238_code (key : Pg.bytea) (counter : Z) : Pg.text :=
  six_digits
    (dynamic_truncation (hmac_sha1_bytes key (big_endian_8 counter)) mod 1000000).

(** Whole seconds since the epoch, and the 30-second step they fall in. *)
Definition unix_seconds (now : Pg.timestamptz) : Z := now / 1000000.
Definition time_step (now : Pg.timestamptz) : Z := unix_seconds now / 30.

(** *** Accounts, challenges and recovery codes *)

(** The active two-factor state of an account, and its pending enrolment. *)
Definition active_state (a : AdminUsers.row)
  : bool * option Pg.text * list Pg.text * option Pg.timestamptz :=
  (AdminUsers.two_factor_enabled a, AdminUsers.two_factor_secret a,
   AdminUsers.two_factor_recovery_codes a, AdminUsers.two_factor_confirmed_at a).

Definition pending_state (a : AdminUsers.row) : option Pg.text * list Pg.text :=
  (AdminUsers.two_factor_temp_secret a, AdminUsers.two_factor_temp_recovery_codes a).

(** The credentials check every operation starts with fails. *)
Definition credentials_rejected (crypt : Pg.text -> Pg.text -> Pg.text)
  (db : database) (login_email login_password : option Pg.text) : bool :=
  match select_by_email db login_email with
  | None => true
  | Some account => is_true (password_differs crypt account login_password)
  end.

(** A batch of recovery codes as [(plaintext, stored hash)] pairs: eight of
    them, each plaintext trimmed and not blank, and verifying against its own
    hash and against no other stored hash. *)
Fixpoint texts_eqb (a b : list Pg.text) : bool :=
  match a, b with
  | [], [] => true
  | x :: a', y :: b' => String.eqb x y && texts_eqb a' b'
  | _, _ => false
  end.

Definition recovery_plaintext_ok (p : Pg.text) : bool :=
  String.eqb (Pg.trim p) p && negb (String.eqb p EmptyString).

Definition recovery_batch_ok (crypt : Pg.text -> Pg.text -> Pg.text)
  (batch : list (Pg.text * Pg.text)) : bool :=
  Nat.eqb (List.length batch) 8
  && forallb
       (fun ph =>
          recovery_plaintext_ok (fst ph)
          && texts_eqb
               (filter (fun code_hash => String.eqb (crypt (fst ph) code_hash) code_hash)
                  (map snd batch))
               [snd ph])
       batch.

(** *** Sequences of calls *)

(** The calls a client can make, and the database each leaves behind. *)
Inductive call : Type :=
| CallLogin (fresh : uuid) (login_email login_password : option Pg.text)
| CallVerify (challenge : option uuid) (otp_code : option Pg.text)
| CallStart (rnd : entropy) (login_email login_password : option Pg.text)
| CallConfirm (login_email login_password otp_code : option Pg.text)
| CallDisable (login_email login_password otp_code : option Pg.text)
| CallTakeRecovery (user_id : uuid) (attempt : option Pg.text).

Definition run {lc : Pg.locale} (crypt : Pg.text -> Pg.text -> Pg.text) (db : database)
  (now : Pg.timestamptz) (c : call) : database :=
  match c with
  | CallLogin fresh e p => database_after db (admin_login crypt db now fresh e p)
  | CallVerify ch code => database_after db (admin_verify_two_factor crypt db now ch code)
  | CallStart rnd e p => database_after db (admin_start_two_factor crypt db now rnd e p)
  | CallConfirm e p code =>
      database_after db (admin_confirm_two_factor crypt db now e p code)
  | CallDisable e p code =>
      database_after db (admin_disable_two_factor crypt db now e p code)
  | CallTakeRecovery u attempt =>
      database_after db (admin_take_recovery_code crypt db now u attempt)
  end.

(** A list of calls, each at its own time, run one after the other. *)
Definition run_all {lc : Pg.locale} (crypt : Pg.text -> Pg.text -> Pg.text)
  (db : database) (calls : list (Pg.timestamptz * call)) : database :=
  fold_left (fun d tc => run crypt d (fst tc) (snd tc)) calls db.

(** The columns of an account that [CREATE TABLE admin_users] declares,
    [updated_at] apart: who the account is and how it signs in. *)
Definition identity_of (a : AdminUsers.row)
  : uuid * Pg.text * Pg.text * Pg.text * Pg.text * option Pg.timestamptz :=
  (AdminUsers.id a, AdminUsers.email a, AdminUsers.password_hash a,
   AdminUsers.name a, AdminUsers.role a, AdminUsers.created_at a).

(** The rows of the previous result table that a row of the new one spells. *)
Definition identity_rows (r : LoginResult.row) : list Previous.row :=
  match LoginResult.id r, LoginResult.email r, LoginResult.name r, LoginResult.role r with
  | Some i, Some e, Some n, Some ro =>
      [{| Previous.id := i; Previous.email := e; Previous.name := n;
          Previous.role := ro |}]
  | _, _, _, _ => []
  end.

(** *** What a call may do to the tables *)

(** What the UPDATEs of one call, made at [now], may do to an account row:
    the identity columns stay, and a row that changed carries the time of
    the call. *)
Definition touched_at (now : Pg.timestamptz) (r r' : AdminUsers.row) : Prop :=
  identity_of r' = identity_of r /\ (r' = r \/ AdminUsers.updated_at r' = Some now).

(** What may happen to the two-factor state of an account: it may lose the
    flag, the secret and recovery codes, and gains nothing. *)
Definition never_gains (r r' : AdminUsers.row) : Prop :=
  (AdminUsers.two_factor_enabled r' = true -> AdminUsers.two_factor_enabled r = true)
  /\ (AdminUsers.two_factor_secret r' = AdminUsers.two_factor_secret r
      \/ AdminUsers.two_factor_secret r' = None)
  /\ incl (AdminUsers.two_factor_recovery_codes r')
       (AdminUsers.two_factor_recovery_codes r)
  /\ AdminUsers.two_factor_confirmed_at r' = AdminUsers.two_factor_confirmed_at r.


(** The rows of other accounts than [u] are as before. *)
Definition only_account (u : uuid) (us us' : list AdminUsers.row) : Prop :=
  Forall2 (fun r r' => AdminUsers.id r <> u -> r' = r) us us'.

(** What a challenge is issued with: its id, owner, creation and expiry. *)
Definition challenge_terms (r : AdminLoginChallenges.row)
  : uuid * uuid * Pg.timestamptz * Pg.timestamptz :=
  (AdminLoginChallenges.id r, AdminLoginChallenges.admin_user_id r,
   AdminLoginChallenges.created_at r, AdminLoginChallenges.expires_at r).

(** *** The client and the server together *)

(** The functions the provider exports, as calls on the state of the client
    and of the server. *)
Inductive client_call : Type :=
| ClientLogin (login_email login_password : Pg.text)
| ClientVerifyTwoFactor (challengeId : uuid) (code : Pg.text)
| ClientStartTwoFactorSetup (password : Pg.text)
| ClientConfirmTwoFactorSetup (password code : Pg.text)
| ClientDisableTwoFactor (password code : Pg.text)
| ClientUpdateAdminUser (updates : AdminAuthContext.PartialAdminUser)
| ClientLogout.

Definition client_run {S : Type} (sb : supabase S) (c : client_call)
  (w : AdminAuthContext.state * S) : AdminAuthContext.state * S :=
  match c with
  | ClientLogin e p =>
      let r := AdminAuthContext.login sb e p (fst w) (snd w) in (snd (fst r), snd r)
  | ClientVerifyTwoFactor ch code =>
      let r := AdminAuthContext.verifyTwoFactor sb ch code (fst w) (snd w) in
      (snd (fst r), snd r)
  | ClientStartTwoFactorSetup p =>
      let r := AdminAuthContext.startTwoFactorSetup sb p (fst w) (snd w) in
      (snd (fst r), snd r)
  | ClientConfirmTwoFactorSetup p code =>
      let r := AdminAuthContext.confirmTwoFactorSetup sb p code (fst w) (snd w) in
      (snd (fst r), snd r)
  | ClientDisableTwoFactor p code =>
      let r := AdminAuthContext.disableTwoFactor sb p code (fst w) (snd w) in
      (snd (fst r), snd r)
  | ClientUpdateAdminUser updates =>
      (AdminAuthContext.updateAdminUser updates (fst w), snd w)
  | ClientLogout => (AdminAuthContext.logout (fst w), snd w)
  end.

Definition client_run_all {S : Type} (sb : supabase S) (calls : list client_call)
  (w : AdminAuthContext.state * S) : AdminAuthContext.state * S :=
  fold_left (fun w c => client_run sb c w) calls w.

(** The stored entry spells the admin the state hook holds. *)
Definition in_sync (st : AdminAuthContext.state) : Prop :=
  AdminAuthContext.localStorage st = AdminAuthContext.adminUser st.

(** The admin a row of a successful sign-in describes. *)
Definition admin_of (a : AdminUsers.row) : AdminAuthContext.AdminUser :=
  {| AdminAuthContext.id := Some (AdminUsers.id a);
     AdminAuthContext.email := Some (AdminUsers.email a);
     AdminAuthContext.name := Some (AdminUsers.name a);
     AdminAuthContext.role := Some (AdminUsers.role a);
     AdminAuthContext.twoFactorEnabled := AdminUsers.two_factor_enabled a |}.

Definition signed_out : AdminAuthContext.state :=
  {| AdminAuthContext.adminUser := None; AdminAuthContext.localStorage := None |}.

Definition signed_in (a : AdminUsers.row) : AdminAuthContext.state :=
  AdminAuthContext.persistUser (Some (admin_of a)) signed_out.

(** The server of the concrete accounts at 59 seconds past the epoch. *)
Definition demo_backend : supabase database :=
  @flowboard_backend Pg.c_locale demo_crypt 59000000 102%N demo_entropy.


(** *** The errors of the platform *)

(** What the statements of the migration raise when a call or a name cannot
    be resolved. *)
Definition undefined_set_byte : Pg.text :=
  "function set_byte(bytea, integer, bigint) does not exist".

Definition undefined_substr : Pg.text :=
  "function substr(text, bigint, integer) does not exist".

Definition ambiguous_id : Pg.text := "column reference id is ambiguous".

(** * Properties *)

(** ** Loops *)

Lemma for_loop_elements {A V : Type} (d : A) (step : A -> V -> result V)
  (body : Z -> V -> result V) (l : list A) :
  forall (lo : Z) (s : V),
    (forall (k : nat) (s : V), (k < List.length l)%nat ->
       body (lo + Z.of_nat k) s = step (nth k l d) s) ->
    for_loop (List.length l) lo body s = foldM step l s.
Proof.
  induction l as [| a r IH]; intros lo s H; simpl.
  - reflexivity.
  - assert (H0 : body lo s = step a s).
    { specialize (H O s). simpl in H. rewrite Z.add_0_r in H. apply H. lia. }
    rewrite H0.
    destruct (step a s) as [s' | m]; simpl; [| reflexivity].
    apply IH. intros k s0 Hk.
    replace (lo + 1 + Z.of_nat k) with (lo + Z.of_nat (S k)) by lia.
    apply (H (S k)). simpl. lia.
Qed.

(** ** Bits of a number *)

Lemma bits_of_length (n : nat) (v : Z) : List.length (bits_of n v) = n.
Proof. induction n; simpl; congruence. Qed.

Lemma bits_of_ext (n : nat) (v w : Z) :
  (forall i, 0 <= i < Z.of_nat n -> Z.testbit v i = Z.testbit w i) ->
  bits_of n v = bits_of n w.
Proof.
  induction n as [| n IH]; intros H; simpl.
  - reflexivity.
  - rewrite (H (Z.of_nat n)) by lia. f_equal. apply IH.
    intros i Hi. apply H. lia.
Qed.

Lemma bits_of_app (n m : nat) (v : Z) :
  bits_of (n + m) v = bits_of n (Z.shiftr v (Z.of_nat m)) ++ bits_of m v.
Proof.
  induction n as [| n IH]; simpl.
  - reflexivity.
  - rewrite IH. f_equal.
    rewrite Z.shiftr_spec by lia. f_equal. lia.
Qed.

Lemma testbit_congr (k a b i : Z) :
  a mod 2 ^ k = b mod 2 ^ k -> 0 <= i < k -> Z.testbit a i = Z.testbit b i.
Proof.
  intros H Hi.
  rewrite <- (Z.mod_pow2_bits_low a k i) by lia.
  rewrite <- (Z.mod_pow2_bits_low b k i) by lia.
  now rewrite H.
Qed.

Lemma bits_of_congr (n : nat) (a b : Z) :
  a mod 2 ^ Z.of_nat n = b mod 2 ^ Z.of_nat n -> bits_of n a = bits_of n b.
Proof.
  intros H. apply bits_of_ext. intros i Hi.
  apply (testbit_congr (Z.of_nat n)); assumption.
Qed.

Lemma bits_of_land_ones (n : nat) (a : Z) :
  bits_of n (Z.land a (Z.ones (Z.of_nat n))) = bits_of n a.
Proof.
  apply bits_of_congr. rewrite Z.land_ones by lia. apply Z.mod_mod.
  apply Z.pow_nonzero; lia.
Qed.

(** ** The wrapping shift and the checked sum of the bit buffers *)

Lemma wrap64_mod (z : Z) : Pg.wrap64 z mod 2 ^ 64 = z mod 2 ^ 64.
Proof.
  unfold Pg.wrap64.
  rewrite Zminus_mod, Zmod_mod.
  rewrite <- Zminus_mod.
  f_equal. lia.
Qed.

Lemma shifted_sum_in_range (a x w : Z) :
  0 <= w <= 8 -> 0 <= x < 2 ^ w ->
  Pg.int8pl (Pg.int8shl a w) x = Ok (Pg.int8shl a w + x).
Proof.
  intros Hw Hx. unfold Pg.int8pl, Pg.int8shl, Pg.wrap64.
  set (m := (a * 2 ^ w + 2 ^ 63) mod 2 ^ 64).
  assert (Hm : 0 <= m < 2 ^ 64) by (apply Z.mod_pos_bound; lia).
  assert (Hd : exists k, m = 2 ^ w * k).
  { exists (a + 2 ^ (63 - w) - 2 ^ (64 - w) * ((a * 2 ^ w + 2 ^ 63) / 2 ^ 64)).
    unfold m. rewrite Z.mod_eq by lia.
    replace (2 ^ 63) with (2 ^ w * 2 ^ (63 - w))
      by (rewrite <- Z.pow_add_r by lia; f_equal; lia).
    replace (2 ^ 64) with (2 ^ w * 2 ^ (64 - w))
      by (rewrite <- Z.pow_add_r by lia; f_equal; lia).
    ring. }
  destruct Hd as [k Hk].
  assert (Hp : 0 < 2 ^ w) by (apply Z.pow_pos_nonneg; lia).
  assert (H64 : 2 ^ 64 = 2 ^ w * 2 ^ (64 - w))
    by (rewrite <- Z.pow_add_r by lia; f_equal; lia).
  assert (Hk' : k < 2 ^ (64 - w)) by nia.
  assert (Hle : m + x <= 2 ^ 64 - 1) by nia.
  replace ((- 2 ^ 63 <=? m - 2 ^ 63 + x) && (m - 2 ^ 63 + x <=? 2 ^ 63 - 1)) with true.
  - reflexivity.
  - symmetry. apply andb_true_iff. split; apply Z.leb_le; lia.
Qed.

(** Shifting [w] fresh bits into a buffer that holds [n] pending ones. *)
Lemma bits_of_push (n w : nat) (a x : Z) :
  (n + w <= 64)%nat -> 0 <= x < 2 ^ Z.of_nat w ->
  bits_of (n + w) (Pg.int8shl a (Z.of_nat w) + x) = bits_of n a ++ bits_of w x.
Proof.
  intros Hn Hx.
  assert (E : forall i, 0 <= i < 64 ->
            Z.testbit (Pg.int8shl a (Z.of_nat w) + x) i
            = Z.testbit (a * 2 ^ Z.of_nat w + x) i).
  { intros i Hi. apply (testbit_congr 64); [| assumption].
    unfold Pg.int8shl. rewrite Zplus_mod, wrap64_mod, <- Zplus_mod. reflexivity. }
  rewrite bits_of_app. f_equal.
  - apply bits_of_ext. intros i Hi.
    rewrite Z.shiftr_spec by lia. rewrite E by lia.
    rewrite <- Z.shiftr_spec by lia.
    rewrite Z.shiftr_div_pow2 by lia.
    f_equal. rewrite Z.div_add_l by (apply Z.pow_nonzero; lia).
    rewrite Z.div_small by assumption. lia.
  - rewrite (bits_of_ext w _ (a * 2 ^ Z.of_nat w + x)) by (intros; apply E; lia).
    apply bits_of_congr.
    rewrite Z.add_comm, Z.mod_add by (apply Z.pow_nonzero; lia). reflexivity.
Qed.

(** ** The embedding on published test vectors *)

(** FIPS 180 ("abc"), RFC 2202 test case 2 and, for the decoder under the
    locale C, RFC 4648 section 10. *)
Example sha1_abc :
  Sha1.sha1 (map Pg.byte_value (list_byte_of_string "abc"))
  = [0xa9; 0x99; 0x3e; 0x36; 0x47; 0x06; 0x81; 0x6a; 0xba; 0x3e;
     0x25; 0x71; 0x78; 0x50; 0xc2; 0x6c; 0x9c; 0xd0; 0xd8; 0x9d].
Proof. vm_compute. reflexivity. Qed.

Example hmac_sha1_jefe :
  Pgcrypto.hmac (list_byte_of_string "what do ya want for nothing?")
    (list_byte_of_string "Jefe") "sha1"
  = Ok (map Pg.byte_of_value
          [0xef; 0xfc; 0xdf; 0x6a; 0xe5; 0xeb; 0x2f; 0xa2; 0xd2; 0x74;
           0x16; 0xd5; 0xf1; 0x84; 0xdf; 0x9c; 0x25; 0x9a; 0x7c; 0x79]).
Proof. vm_compute. reflexivity. Qed.

Example base32_decode_vectors :
  @base32_decode Pg.c_locale (Some "MY") = Ok (list_byte_of_string "f")
  /\ @base32_decode Pg.c_locale (Some "MZXQ") = Ok (list_byte_of_string "fo")
  /\ @base32_decode Pg.c_locale (Some "mzxw6ytboi") = Ok (list_byte_of_string "foobar")
  /\ @base32_decode Pg.c_locale (Some demo_secret)
     = Ok (list_byte_of_string "12345678901234567890").
Proof. vm_compute. repeat split. Qed.

(** The reference code on RFC 4226 appendix D (counters 0 and 1) and RFC 6238
    appendix B (times 59, 1111111109 and 20000000000, last six digits). *)
Example rfc6238_vectors :
  rfc6238_code (list_byte_of_string "12345678901234567890") 0 = "755224"
  /\ rfc6238_code (list_byte_of_string "12345678901234567890") 1 = "287082"
  /\ rfc6238_code (list_byte_of_string "12345678901234567890") (time_step 59000000)
     = "287082"
  /\ rfc6238_code (list_byte_of_string "12345678901234567890")
       (time_step 1111111109000000) = "081804"
  /\ rfc6238_code (list_byte_of_string "12345678901234567890")
       (time_step 20000000000000000) = "353130".
Proof. vm_compute. repeat split. Qed.

(** ** Exhaustive facts about the alphabet and about bytes *)

Lemma forall_below (P : Z -> bool) (n : nat) :
  forallb P (map Z.of_nat (seq 0 n)) = true ->
  forall z, 0 <= z < Z.of_nat n -> P z = true.
Proof.
  intros H z Hz. rewrite forallb_forall in H. apply H.
  apply in_map_iff. exists (Z.to_nat z). split; [lia |].
  apply in_seq. lia.
Qed.

Lemma class_chars (c : ascii) : class_char_ok c = true.
Proof. destruct c as [[] [] [] [] [] [] [] []]; vm_compute; reflexivity. Qed.

Lemma in_class_code (c : ascii) :
  in_class c = true -> 0 <= code_of c < 32 /\ Pg.upper_char c = c.
Proof.
  intros Hc. pose proof (class_chars c) as H. unfold class_char_ok in H.
  apply andb_true_iff in H. destruct H as [_ H].
  rewrite Hc in H. cbn [negb orb] in H.
  apply andb_true_iff in H. destruct H as [H H3].
  apply andb_true_iff in H. destruct H as [H1 H2].
  apply Z.leb_le in H1. apply Z.ltb_lt in H2. apply Ascii.eqb_eq in H3.
  auto.
Qed.

Lemma byte_value_range (b : byte) : 0 <= Pg.byte_value b < 256.
Proof.
  unfold Pg.byte_value. pose proof (Byte.to_N_bounded b). lia.
Qed.

Lemma hex_pieces (z : Z) :
  0 <= z < 256 ->
  exists b, Pg.decode_hex (Pg.lpad (Pg.to_hex z) 2 "0") = Ok [b]
            /\ b = Pg.byte_of_value z /\ Pg.byte_value b = z.
Proof.
  intros Hz.
  assert (H : hex_piece_ok z = true).
  { apply (forall_below hex_piece_ok 256); [vm_compute; reflexivity | lia]. }
  unfold hex_piece_ok in H.
  destruct (Pg.decode_hex _) as [[| b [| ? ?]] | ?]; try discriminate.
  apply andb_true_iff in H. destruct H as [H1 H2].
  exists b. repeat split.
  - apply Byte.byte_dec_bl. assumption.
  - apply Z.eqb_eq. assumption.
Qed.

Lemma land_255_range (a : Z) : 0 <= Z.land a 255 < 256.
Proof.
  change 255 with (Z.ones 8). rewrite Z.land_ones by lia.
  apply Z.mod_pos_bound. lia.
Qed.

(** ** Text and bit streams *)

Lemma bytes_bits_app (a b : Pg.bytea) :
  bytes_bits (a ++ b) = bytes_bits a ++ bytes_bits b.
Proof. unfold bytes_bits. apply flat_map_app. Qed.

Lemma bytes_bits_length (a : Pg.bytea) :
  List.length (bytes_bits a) = (8 * List.length a)%nat.
Proof.
  induction a as [| x a IH]; [reflexivity |].
  unfold bytes_bits in *. cbn [flat_map List.length].
  rewrite length_app, bits_of_length, IH. lia.
Qed.

Lemma chars_bits_length (s : string) :
  List.length (chars_bits s) = (5 * String.length s)%nat.
Proof.
  induction s as [| c r IH]; [reflexivity |].
  cbn [chars_bits String.length]. rewrite length_app, bits_of_length, IH. lia.
Qed.

(** ** The inner loop of the decoder *)

Lemma decode_while (f : nat) :
  forall v : dec_vars,
    0 <= dec_bits v < 8 * (Z.of_nat f + 1) ->
    exists v' new,
      while_loop f (fun v => 8 <=? dec_bits v) decode_emit v = Ok v'
      /\ 0 <= dec_bits v' < 8
      /\ dec_buffer v' = dec_buffer v
      /\ dec_output v' = dec_output v ++ new
      /\ bytes_bits new ++ bits_of (Z.to_nat (dec_bits v')) (dec_buffer v)
         = bits_of (Z.to_nat (dec_bits v)) (dec_buffer v).
Proof.
  induction f as [| f IH]; intros v Hv.
  - exists v, []. simpl.
    replace (8 <=? dec_bits v) with false by (symmetry; apply Z.leb_gt; lia).
    rewrite app_nil_r. repeat split; try reflexivity; lia.
  - cbn [while_loop]. destruct (8 <=? dec_bits v) eqn:Hc.
    + apply Z.leb_le in Hc.
      set (g := Z.land (Pg.int8shr (dec_buffer v) (dec_bits v - 8)) 255).
      destruct (hex_pieces g (land_255_range _)) as (b & Hpiece & _ & Hval).
      unfold decode_emit at 1. fold g. rewrite Hpiece. cbn [bind].
      match goal with
      | |- context [while_loop f _ _ ?v1] =>
          destruct (IH v1) as (v' & new & Hrun & Hb & Hbuf & Hout & Hbits)
      end.
      { cbn [dec_bits]. lia. }
      cbn [dec_bits dec_buffer dec_output] in *.
      exists v', (b :: new). rewrite Hrun.
      repeat split; try lia; try assumption.
      * rewrite Hout, <- app_assoc. reflexivity.
      * unfold bytes_bits in *. cbn [flat_map]. rewrite <- app_assoc, Hbits, Hval.
        replace (Z.to_nat (dec_bits v)) with (8 + Z.to_nat (dec_bits v - 8))%nat by lia.
        rewrite bits_of_app. f_equal.
        rewrite Z2Nat.id by lia.
        unfold g. change 255 with (Z.ones (Z.of_nat 8)).
        apply bits_of_land_ones.
    + apply Z.leb_gt in Hc.
      exists v, []. rewrite app_nil_r.
      repeat split; try reflexivity; lia.
Qed.

(** ** One turn of the outer loop, and the loop as a fold *)

Lemma decode_step_spec (c : ascii) (v : dec_vars) :
  in_class c = true -> 0 <= dec_bits v < 8 ->
  exists v' new,
    decode_step c v = Ok v'
    /\ 0 <= dec_bits v' < 8
    /\ dec_output v' = dec_output v ++ new
    /\ bytes_bits new ++ bits_of (Z.to_nat (dec_bits v')) (dec_buffer v')
       = bits_of (Z.to_nat (dec_bits v)) (dec_buffer v) ++ bits_of 5 (code_of c).
Proof.
  intros Hc Hv. unfold decode_step. fold (code_of c).
  destruct (in_class_code c Hc) as [Hcode _].
  replace (code_of c <? 0) with false by (symmetry; apply Z.ltb_ge; lia).
  rewrite shifted_sum_in_range by (change (2 ^ 5) with 32; lia).
  cbn [bind]. unfold decode_drain. cbn [dec_bits].
  match goal with
  | |- context [while_loop ?f _ _ ?v1] =>
      destruct (decode_while f v1) as (v' & new & Hrun & Hb & Hbuf & Hout & Hbits)
  end.
  { cbn [dec_bits]. lia. }
  cbn [dec_bits dec_buffer dec_output] in *.
  exists v', new. rewrite Hrun, Hbuf, Hbits.
  repeat split; try lia; try assumption.
  replace (Z.to_nat (dec_bits v + 5)) with (Z.to_nat (dec_bits v) + 5)%nat by lia.
  change 5 with (Z.of_nat 5) at 1.
  apply bits_of_push; [lia |]. change (2 ^ Z.of_nat 5) with 32. lia.
Qed.

Lemma decode_fold (s : string) :
  class_only s = true ->
  forall v : dec_vars,
    0 <= dec_bits v < 8 ->
    exists v' new,
      foldM decode_step (list_ascii_of_string s) v = Ok v'
      /\ 0 <= dec_bits v' < 8
      /\ dec_output v' = dec_output v ++ new
      /\ bytes_bits new ++ bits_of (Z.to_nat (dec_bits v')) (dec_buffer v')
         = bits_of (Z.to_nat (dec_bits v)) (dec_buffer v) ++ chars_bits s.
Proof.
  induction s as [| c s IH]; intros Hs v Hv.
  - exists v, []. cbn [list_ascii_of_string foldM chars_bits bytes_bits flat_map].
    rewrite !app_nil_r. repeat split; try reflexivity; lia.
  - cbn [class_only] in Hs. apply andb_true_iff in Hs. destruct Hs as [Hc Hs].
    destruct (decode_step_spec c v Hc Hv) as (v1 & n1 & Hrun1 & Hb1 & Hout1 & Hbits1).
    destruct (IH Hs v1 Hb1) as (v2 & n2 & Hrun2 & Hb2 & Hout2 & Hbits2).
    exists v2, (n1 ++ n2).
    cbn [list_ascii_of_string foldM]. rewrite Hrun1. cbn [bind]. rewrite Hrun2.
    repeat split; try lia.
    + rewrite Hout2, Hout1. symmetry. apply app_assoc.
    + rewrite bytes_bits_app, <- app_assoc, Hbits2, app_assoc, Hbits1.
      cbn [chars_bits]. rewrite app_assoc. reflexivity.
Qed.

(** ** The index loop is this fold *)

Lemma get_byte_nth (b : Pg.bytea) (k : nat) :
  (k < List.length b)%nat ->
  Pg.get_byte b (Z.of_nat k) = Ok (Pg.byte_value (nth k b x00)).
Proof.
  intros Hk. unfold Pg.get_byte, Pg.length_bytea.
  replace ((Z.of_nat k <? 0) || (Z.of_nat (List.length b) <=? Z.of_nat k)) with false.
  - rewrite Nat2Z.id. reflexivity.
  - symmetry. apply orb_false_iff. split; [apply Z.ltb_ge | apply Z.leb_gt]; lia.
Qed.

Lemma substring_one (s : string) :
  forall k : nat,
    (k < String.length s)%nat ->
    String.substring k 1 s
    = String (nth k (list_ascii_of_string s) "000"%char) EmptyString.
Proof.
  induction s as [| c s IH]; intros k Hk; [simpl in Hk; lia |].
  destruct k as [| k].
  - simpl. destruct s; reflexivity.
  - simpl. apply IH. simpl in Hk. lia.
Qed.

Lemma substr_nth (s : string) (k : nat) :
  (k < String.length s)%nat ->
  Pg.substr s (1 + Z.of_nat k) 1
  = String (nth k (list_ascii_of_string s) "000"%char) EmptyString.
Proof.
  intros Hk. unfold Pg.substr.
  replace (1 + Z.of_nat k + 1 <=? Z.max (1 + Z.of_nat k) 1) with false
    by (symmetry; apply Z.leb_gt; lia).
  replace (Z.to_nat (Z.max (1 + Z.of_nat k) 1 - 1)) with k by lia.
  replace (Z.to_nat (1 + Z.of_nat k + 1 - Z.max (1 + Z.of_nat k) 1)) with 1%nat by lia.
  apply substring_one. assumption.
Qed.

Lemma list_ascii_length (s : string) :
  List.length (list_ascii_of_string s) = String.length s.
Proof. induction s; simpl; congruence. Qed.

Lemma decode_loop_fold (cleaned : Pg.text) (v : dec_vars) :
  for_range 1 (Pg.length_text cleaned) (decode_char cleaned) v
  = foldM decode_step (list_ascii_of_string cleaned) v.
Proof.
  unfold for_range, Pg.length_text.
  replace (Z.to_nat (Z.of_nat (String.length cleaned) - 1 + 1))
    with (List.length (list_ascii_of_string cleaned))
    by (rewrite list_ascii_length; lia).
  apply (for_loop_elements "000"%char). intros k s Hk.
  rewrite list_ascii_length in Hk.
  unfold decode_char, decode_step.
  rewrite substr_nth by assumption. reflexivity.
Qed.

(** ** What the decoder computes, as a bit stream *)

Lemma strip_class_only (s : string) : class_only (strip_outside_class s) = true.
Proof.
  induction s as [| c s IH]; [reflexivity |].
  cbn [strip_outside_class]. destruct (in_class c) eqn:Hc; [| assumption].
  cbn [class_only]. rewrite Hc, IH. reflexivity.
Qed.

Lemma cleaned_class_only {lc : Pg.locale} (input : option Pg.text) :
  class_only (cleaned_input input) = true.
Proof. apply strip_class_only. Qed.

Lemma base32_decode_bits {lc : Pg.locale} (input : option Pg.text) :
  exists (out : Pg.bytea) (q : list bool),
    base32_decode input = Ok out
    /\ (List.length q < 8)%nat
    /\ bytes_bits out ++ q = chars_bits (cleaned_input input).
Proof.
  unfold base32_decode.
  destruct (String.eqb (cleaned_input input) EmptyString) eqn:He.
  - apply String.eqb_eq in He. rewrite He.
    exists [], []. repeat split. simpl. lia.
  - rewrite decode_loop_fold.
    match goal with
    | |- context [foldM decode_step _ ?v0] =>
        destruct (decode_fold (cleaned_input input) (cleaned_class_only input) v0)
          as (v & new & Hrun & Hb & Hout & Hbits)
    end.
    { cbn [dec_bits]. lia. }
    cbn [dec_bits dec_buffer dec_output] in *.
    rewrite Hrun. cbn [bind].
    change (bits_of (Z.to_nat 0) 0) with (@nil bool) in Hbits.
    cbn [app] in Hout, Hbits.
    exists (dec_output v), (bits_of (Z.to_nat (dec_bits v)) (dec_buffer v)).
    rewrite Hout. repeat split; [| assumption].
    rewrite bits_of_length. lia.
Qed.

(** ** base32_encode: the call of substr *)

(** The first byte of the input is shifted into the buffer, and the first
    turn of [WHILE bits >= 5] then calls [substr] with a [bigint]. *)
Lemma encode_first_byte (x : byte) (b : Pg.bytea) :
  encode_byte (x :: b) 0
    {| enc_output := EmptyString; enc_buffer := 0; enc_bits := 0 |}
  = Raise undefined_substr.
Proof.
  unfold encode_byte.
  change 0 with (Z.of_nat 0) at 1.
  rewrite (get_byte_nth (x :: b) 0) by (cbn [List.length]; lia).
  cbn [nth bind enc_buffer enc_output enc_bits].
  pose proof (byte_value_range x) as Hx.
  rewrite shifted_sum_in_range by (change (2 ^ 8) with 256; lia).
  reflexivity.
Qed.

Lemma base32_encode_outcome (x : byte) (b : Pg.bytea) :
  base32_encode (Some (x :: b)) = Raise undefined_substr.
Proof.
  unfold base32_encode.
  replace (Pg.length_bytea (x :: b) =? 0) with false
    by (symmetry; apply Z.eqb_neq; unfold Pg.length_bytea; cbn [List.length]; lia).
  unfold for_range, Pg.length_bytea. cbn [List.length].
  replace (Z.to_nat (Z.of_nat (S (List.length b)) - 1 - 0 + 1))
    with (S (List.length b)) by lia.
  cbn [for_loop]. rewrite encode_first_byte. reflexivity.
Qed.

(** C4. [base32_encode] raises on every byte string that is not empty: its
    first character is never produced, because [substr] is called with a
    [bigint] position. So no encoding exists that [base32_decode] could give
    back, and the round trip holds for the empty byte string only: it (and
    NULL) encodes to the empty text, which decodes to the empty byte string
    where the locale leaves the empty text empty. *)
Theorem base32_encode_raises (x : byte) (b : Pg.bytea) :
  base32_encode (Some (x :: b)) = Raise undefined_substr
  /\ base32_encode (Some []) = Ok EmptyString
  /\ base32_encode None = Ok EmptyString
  /\ (forall lc : Pg.locale,
        Pg.ascii_cased lc -> @base32_decode lc (Some EmptyString) = Ok []).
Proof.
  split; [apply base32_encode_outcome |].
  split; [reflexivity | split; [reflexivity |]].
  intros lc Hlc. unfold base32_decode, cleaned_input. cbn [coalesce_text].
  rewrite (Hlc EmptyString eq_refl). reflexivity.
Qed.

(** ** Upper-casing of ASCII text *)

Lemma c_locale_ascii_cased : Pg.ascii_cased Pg.c_locale.
Proof. intros s _. reflexivity. Qed.

Lemma upper_char_idem (c : ascii) : Pg.upper_char (Pg.upper_char c) = Pg.upper_char c.
Proof. destruct c as [[] [] [] [] [] [] [] []]; vm_compute; reflexivity. Qed.

Lemma upper_char_ascii (c : ascii) :
  Pg.is_ascii_char (Pg.upper_char c) = Pg.is_ascii_char c.
Proof. destruct c as [[] [] [] [] [] [] [] []]; vm_compute; reflexivity. Qed.

Lemma in_class_ascii (c : ascii) : in_class c = true -> Pg.is_ascii_char c = true.
Proof. destruct c as [[] [] [] [] [] [] [] []]; vm_compute; congruence. Qed.

Lemma upper_ascii_idem (s : string) :
  Pg.upper_ascii (Pg.upper_ascii s) = Pg.upper_ascii s.
Proof.
  induction s as [| c s IH]; [reflexivity |].
  cbn [Pg.upper_ascii]. rewrite upper_char_idem, IH. reflexivity.
Qed.

Lemma upper_ascii_app (a b : string) :
  Pg.upper_ascii (String.append a b)
  = String.append (Pg.upper_ascii a) (Pg.upper_ascii b).
Proof. induction a as [| c a IH]; cbn [Pg.upper_ascii String.append]; congruence. Qed.

Lemma is_ascii_upper (s : string) : Pg.is_ascii (Pg.upper_ascii s) = Pg.is_ascii s.
Proof.
  induction s as [| c s IH]; [reflexivity |].
  cbn [Pg.upper_ascii Pg.is_ascii]. rewrite upper_char_ascii, IH. reflexivity.
Qed.

Lemma is_ascii_app (a b : string) :
  Pg.is_ascii (String.append a b) = Pg.is_ascii a && Pg.is_ascii b.
Proof.
  induction a as [| c a IH]; cbn [Pg.is_ascii String.append]; [reflexivity |].
  rewrite IH. apply andb_assoc.
Qed.

Lemma class_only_ascii (s : string) : class_only s = true -> Pg.is_ascii s = true.
Proof.
  induction s as [| c s IH]; [reflexivity |].
  cbn [class_only Pg.is_ascii]. intros H.
  apply andb_true_iff in H. destruct H as [Hc Hs].
  rewrite (in_class_ascii c Hc), (IH Hs). reflexivity.
Qed.

Lemma upper_ascii_class_only (s : string) :
  class_only s = true -> Pg.upper_ascii s = s.
Proof.
  induction s as [| c s IH]; [reflexivity |].
  cbn [class_only Pg.upper_ascii]. intros H.
  apply andb_true_iff in H. destruct H as [Hc Hs].
  destruct (in_class_code c Hc) as [_ Hup]. rewrite Hup, (IH Hs). reflexivity.
Qed.

Lemma strip_app (a b : string) :
  strip_outside_class (String.append a b)
  = String.append (strip_outside_class a) (strip_outside_class b).
Proof.
  induction a as [| c a IH]; cbn [strip_outside_class String.append]; [reflexivity |].
  destruct (in_class c); cbn [String.append]; congruence.
Qed.

Lemma strip_of_class_only (s : string) :
  class_only s = true -> strip_outside_class s = s.
Proof.
  induction s as [| c s IH]; [reflexivity |].
  cbn [class_only strip_outside_class]. intros H.
  apply andb_true_iff in H. destruct H as [Hc Hs].
  rewrite Hc, (IH Hs). reflexivity.
Qed.

(** ** C9, and the length of what is decoded *)

Section Decoder.

Context {lc : Pg.locale}.

(** The decoder reads its input through [cleaned_input] only. *)
Lemma base32_decode_same_cleaned (input1 input2 : option Pg.text) :
  cleaned_input input1 = cleaned_input input2 ->
  base32_decode input1 = base32_decode input2.
Proof. intros H. unfold base32_decode. rewrite H. reflexivity. Qed.

Lemma cleaned_ascii (s : string) :
  Pg.ascii_cased lc -> Pg.is_ascii s = true ->
  cleaned_input (Some s) = strip_outside_class (Pg.upper_ascii s).
Proof.
  intros Hlc Hs. unfold cleaned_input. cbn [coalesce_text].
  rewrite (Hlc s Hs). reflexivity.
Qed.

Lemma cleaned_of_class_only (s : string) :
  Pg.ascii_cased lc -> class_only s = true -> cleaned_input (Some s) = s.
Proof.
  intros Hlc Hs.
  rewrite (cleaned_ascii s Hlc (class_only_ascii s Hs)).
  rewrite (upper_ascii_class_only s Hs). apply strip_of_class_only. exact Hs.
Qed.

(** C9, amended. [base32_decode] never raises, whatever the input and the
    locale: it upper-cases its input and drops every character that is then
    outside [A-Z2-7]. Where the locale upper-cases ASCII text the ASCII way
    (the locale C does; a locale that makes i a dotted capital I does not),
    the decoder gives for an input what it gives for the cleaned input; in
    ASCII text a character that is not a letter or a digit from 2 to 7, the
    digits 0, 1, 8 and 9 like any other, changes nothing in the result, and
    the case of the letters does not matter; the empty text and NULL decode
    to the empty byte string. *)
Theorem base32_decode_strips_silently (input : option Pg.text) :
  (exists out : Pg.bytea, base32_decode input = Ok out)
  /\ (Pg.ascii_cased lc ->
      base32_decode input = base32_decode (Some (cleaned_input input))
      /\ (forall (a b : string) (c : ascii),
            Pg.is_ascii (String.append a (String c b)) = true ->
            in_class (Pg.upper_char c) = false ->
            base32_decode (Some (String.append a (String c b)))
            = base32_decode (Some (String.append a b)))
      /\ (forall s : string,
            Pg.is_ascii s = true ->
            base32_decode (Some (Pg.upper_ascii s)) = base32_decode (Some s))
      /\ base32_decode (Some EmptyString) = Ok []
      /\ base32_decode None = Ok []).
Proof.
  split.
  { destruct (base32_decode_bits input) as (out & q & H & _). exists out. exact H. }
  intros Hlc.
  split; [| split; [| split; [| split]]].
  - apply base32_decode_same_cleaned. symmetry.
    apply cleaned_of_class_only; [exact Hlc | apply cleaned_class_only].
  - intros a b c Hascii Hc. apply base32_decode_same_cleaned.
    assert (Hab : Pg.is_ascii (String.append a b) = true).
    { rewrite is_ascii_app in *. cbn [Pg.is_ascii] in Hascii.
      apply andb_true_iff in Hascii. destruct Hascii as [Ha Hcb].
      apply andb_true_iff in Hcb. destruct Hcb as [_ Hb].
      rewrite Ha, Hb. reflexivity. }
    rewrite (cleaned_ascii _ Hlc Hascii), (cleaned_ascii _ Hlc Hab).
    rewrite !upper_ascii_app, !strip_app. cbn [Pg.upper_ascii strip_outside_class].
    rewrite Hc. reflexivity.
  - intros s Hs. apply base32_decode_same_cleaned.
    rewrite (cleaned_ascii _ Hlc Hs).
    rewrite (cleaned_ascii (Pg.upper_ascii s) Hlc)
      by (rewrite is_ascii_upper; exact Hs).
    rewrite upper_ascii_idem. reflexivity.
  - unfold base32_decode.
    rewrite (cleaned_ascii EmptyString Hlc eq_refl). reflexivity.
  - unfold base32_decode, cleaned_input. cbn [coalesce_text].
    rewrite (Hlc EmptyString eq_refl). reflexivity.
Qed.

(** X2. [base32_decode] returns [floor(5 m / 8)] bytes, [m] the number of
    characters of the input that are left after cleaning; the bits of an
    incomplete last byte are dropped. *)
Theorem base32_decode_length (input : option Pg.text) :
  exists out : Pg.bytea,
    base32_decode input = Ok out
    /\ Z.of_nat (List.length out)
       = 5 * Z.of_nat (String.length (cleaned_input input)) / 8.
Proof.
  destruct (base32_decode_bits input) as (out & q & Hout & Hq & Hbits).
  exists out. split; [exact Hout |].
  apply (f_equal (@List.length bool)) in Hbits.
  rewrite chars_bits_length, length_app, bytes_bits_length in Hbits.
  apply Z.div_unique with (r := Z.of_nat (List.length q)); lia.
Qed.

End Decoder.

(** C9 as stated fails: a text that contains 0, 1, 8 and 9 decodes without an
    error, to the same bytes as the text without them (here under the locale
    C; the text is ASCII). *)
Lemma base32_decode_ignores_digits :
  @base32_decode Pg.c_locale (Some "MY0189") = Ok (list_byte_of_string "f")
  /\ @base32_decode Pg.c_locale (Some "0189") = Ok []
  /\ @base32_decode Pg.c_locale (Some "MY0189") = @base32_decode Pg.c_locale (Some "MY").
Proof. vm_compute. repeat split. Qed.

Lemma base32_decode_strips_silently_witness :
  @base32_decode Pg.c_locale (Some (String.append "MY" (String "0" "a")))
  = @base32_decode Pg.c_locale (Some (String.append "MY" "a"))
  /\ @base32_decode Pg.c_locale (Some (Pg.upper_ascii "my a"))
     = @base32_decode Pg.c_locale (Some "my a").
Proof.
  destruct (proj2 (@base32_decode_strips_silently Pg.c_locale None)
              c_locale_ascii_cased) as (_ & Hdrop & Hcase & _).
  split.
  - apply (Hdrop "MY" "a" "0"%char); vm_compute; reflexivity.
  - apply Hcase. vm_compute. reflexivity.
Defined.

(** ** The time step, and six digits *)


Lemma digit_not_space (d : Z) : Pg.is_space (Pg.digit_char d) = false.
Proof.
  unfold Pg.digit_char. generalize (Z.to_nat d). intros n.
  do 16 (destruct n as [| n]; [reflexivity |]). reflexivity.
Qed.

Lemma trim_six_digits (n : Z) : Pg.trim (six_digits n) = six_digits n.
Proof.
  unfold Pg.trim, six_digits. cbn [Pg.ltrim]. rewrite digit_not_space.
  cbn [Pg.rtrim]. rewrite !digit_not_space. reflexivity.
Qed.

(** ** int8_to_bytea: the call of set_byte *)

(** The first turn of the loop calls [set_byte] with a [bigint]. *)
Lemma int8_to_bytea_raises (value : Z) : int8_to_bytea value = Raise undefined_set_byte.
Proof. reflexivity. Qed.

Lemma window_otp_raises (secret_bytes : Pg.bytea) (timestep i : Z) :
  window_otp secret_bytes timestep i = Raise undefined_set_byte.
Proof. reflexivity. Qed.

(** ** admin_totp_is_valid *)

(** What the function does once the secret is decoded to a key that is not
    empty and the candidate is not blank: with a negative drift the loop has
    no turn, otherwise its first turn raises. *)
Lemma totp_loop_outcome (key : Pg.bytea) (timestep allowed_drift : Z) (code : Pg.text) :
  for_range_return (- allowed_drift) allowed_drift
    (fun i =>
       otp <- window_otp key timestep i ;;
       if String.eqb otp code then Ok (Some true) else Ok None)
  = if allowed_drift <? 0 then Ok None else Raise undefined_set_byte.
Proof.
  unfold for_range_return.
  destruct (Z.ltb_spec allowed_drift 0) as [Hneg | Hpos].
  - replace (Z.to_nat (allowed_drift - - allowed_drift + 1)) with O by lia.
    reflexivity.
  - destruct (Z.to_nat (allowed_drift - - allowed_drift + 1)) as [| n] eqn:Hn; [lia |].
    reflexivity.
Qed.

Section Totp.

Context {lc : Pg.locale}.

Lemma admin_totp_is_valid_outcome (now : Pg.timestamptz) (secret code : Pg.text)
  (key : Pg.bytea) (allowed_drift : Z) :
  base32_decode (Some secret) = Ok key -> key <> [] -> Pg.trim code <> EmptyString ->
  admin_totp_is_valid now (Some secret) (Some code) allowed_drift
  = if allowed_drift =? - 2 ^ 31 then Raise "integer out of range"
    else if allowed_drift <? 0 then Ok false
    else Raise undefined_set_byte.
Proof.
  intros Hdec Hkey Hcode. unfold admin_totp_is_valid.
  replace (String.eqb (Pg.trim code) EmptyString) with false
    by (symmetry; apply String.eqb_neq; assumption).
  rewrite Hdec. cbn [bind].
  replace (Pg.length_bytea key =? 0) with false.
  2:{ symmetry. apply Z.eqb_neq. unfold Pg.length_bytea.
      destruct key; [contradiction | cbn [List.length]; lia]. }
  unfold Pg.int4um.
  destruct (allowed_drift =? - 2 ^ 31); [reflexivity |].
  cbn [bind]. rewrite totp_loop_outcome.
  destruct (allowed_drift <? 0); reflexivity.
Qed.

(** With the drift 1 of the callers, the first turn of the loop raises. *)
Lemma admin_totp_is_valid_window (now : Pg.timestamptz) (secret code : Pg.text)
  (key : Pg.bytea) :
  base32_decode (Some secret) = Ok key -> key <> [] -> Pg.trim code <> EmptyString ->
  admin_totp_is_valid now (Some secret) (Some code) 1 = Raise undefined_set_byte.
Proof.
  intros Hdec Hkey Hcode.
  rewrite (admin_totp_is_valid_outcome now secret code key 1 Hdec Hkey Hcode).
  reflexivity.
Qed.

(** The function accepts nothing: it returns false or raises. *)
Lemma admin_totp_is_valid_never_true (now : Pg.timestamptz)
  (secret code : option Pg.text) (allowed_drift : Z) :
  admin_totp_is_valid now secret code allowed_drift = Ok false
  \/ exists m, admin_totp_is_valid now secret code allowed_drift = Raise m.
Proof.
  destruct secret as [secret |]; [| left; reflexivity].
  destruct code as [code |]; [| left; reflexivity].
  destruct (String.eqb (Pg.trim code) EmptyString) eqn:Hblank.
  { left. unfold admin_totp_is_valid. rewrite Hblank. reflexivity. }
  apply String.eqb_neq in Hblank.
  destruct (base32_decode_bits (Some secret)) as (key & q & Hdec & _).
  destruct key as [| k key].
  { left. unfold admin_totp_is_valid.
    replace (String.eqb (Pg.trim code) EmptyString) with false
      by (symmetry; apply String.eqb_neq; assumption).
    rewrite Hdec. reflexivity. }
  rewrite (admin_totp_is_valid_outcome now secret code (k :: key) allowed_drift Hdec)
    by (try discriminate; assumption).
  destruct (allowed_drift =? - 2 ^ 31); [right; eexists; reflexivity |].
  destruct (allowed_drift <? 0); [left; reflexivity | right; eexists; reflexivity].
Qed.

(** C1. With a stored secret that decodes to a non-empty key and a non-blank
    candidate, [admin_totp_is_valid(secret, code, 1)] raises: the first turn
    of its loop calls [int8_to_bytea], which raises on every counter because
    it hands a [bigint] to [set_byte]. It raises for the RFC 6238 codes of
    the three counters of the window too, where the specification has true.
    What the specification says of a NULL or blank candidate and of a secret
    that is NULL or decodes to no byte holds: the function returns false. *)
Theorem admin_totp_is_valid_raises (now : Pg.timestamptz) (secret code : Pg.text)
  (key : Pg.bytea) :
  base32_decode (Some secret) = Ok key -> key <> [] -> Pg.trim code <> EmptyString ->
  admin_totp_is_valid now (Some secret) (Some code) 1 = Raise undefined_set_byte
  /\ (forall off, In off [-1; 0; 1] ->
        admin_totp_is_valid now (Some secret)
          (Some (rfc6238_code key (unix_seconds now / 30 + off))) 1
        = Raise undefined_set_byte)
  /\ (forall value, int8_to_bytea value = Raise undefined_set_byte)
  /\ (forall c d, admin_totp_is_valid now None c d = Ok false)
  /\ (forall s d, admin_totp_is_valid now s None d = Ok false)
  /\ (forall s c d, Pg.trim c = EmptyString ->
        admin_totp_is_valid now s (Some c) d = Ok false)
  /\ (forall s c d, base32_decode (Some s) = Ok [] ->
        admin_totp_is_valid now (Some s) c d = Ok false).
Proof.
  intros Hdec Hkey Hcode.
  split; [| split; [| split; [| split; [| split; [| split]]]]].
  - apply (admin_totp_is_valid_window now secret code key Hdec Hkey Hcode).
  - intros off _.
    apply (admin_totp_is_valid_window now secret _ key Hdec Hkey).
    unfold rfc6238_code. rewrite trim_six_digits. discriminate.
  - apply int8_to_bytea_raises.
  - intros c d. reflexivity.
  - intros [s |] d; reflexivity.
  - intros [s |] c d Hc; [| reflexivity].
    unfold admin_totp_is_valid. rewrite Hc. reflexivity.
  - intros s [c |] d Hs; [| reflexivity].
    unfold admin_totp_is_valid.
    destruct (String.eqb (Pg.trim c) EmptyString); [reflexivity |].
    rewrite Hs. reflexivity.
Qed.

(** X5. With a stored secret that decodes to a non-empty key and a non-blank
    candidate, and an [allowed_drift] that is an [integer] and has its
    negative in [integer], [admin_totp_is_valid] returns false when
    [allowed_drift] is negative (its loop has no turn) and raises when it is
    0 or more, in the first turn of the loop. Whatever the secret, the
    candidate, the time and the drift, the function does not return true. *)
Theorem admin_totp_is_valid_any_drift (now : Pg.timestamptz) (secret code : Pg.text)
  (key : Pg.bytea) (allowed_drift : Z) :
  base32_decode (Some secret) = Ok key -> key <> [] -> Pg.trim code <> EmptyString ->
  - 2 ^ 31 < allowed_drift < 2 ^ 31 ->
  (allowed_drift < 0 ->
   admin_totp_is_valid now (Some secret) (Some code) allowed_drift = Ok false)
  /\ (0 <= allowed_drift ->
      admin_totp_is_valid now (Some secret) (Some code) allowed_drift
      = Raise undefined_set_byte)
  /\ (forall later s c d, admin_totp_is_valid later s c d <> Ok true).
Proof.
  intros Hdec Hkey Hcode Hrange.
  rewrite (admin_totp_is_valid_outcome now secret code key allowed_drift Hdec Hkey Hcode).
  replace (allowed_drift =? - 2 ^ 31) with false by (symmetry; apply Z.eqb_neq; lia).
  split; [| split].
  - intros H. apply Z.ltb_lt in H. rewrite H. reflexivity.
  - intros H. apply Z.ltb_ge in H. rewrite H. reflexivity.
  - intros later s c d Htrue.
    destruct (admin_totp_is_valid_never_true later s c d) as [H | [m H]];
      rewrite H in Htrue; discriminate.
Qed.


End Totp.

Lemma admin_totp_is_valid_raises_witness :
  rfc6238_code (list_byte_of_string "12345678901234567890") (unix_seconds 59000000 / 30)
  = "287082"
  /\ @admin_totp_is_valid Pg.c_locale 59000000 (Some demo_secret) (Some "287082") 1
     = Raise undefined_set_byte.
Proof.
  split; [vm_compute; reflexivity |].
  refine (proj1 (@admin_totp_is_valid_raises Pg.c_locale 59000000 demo_secret "287082"
                   (list_byte_of_string "12345678901234567890") _ _ _)).
  - vm_compute. reflexivity.
  - discriminate.
  - vm_compute. discriminate.
Defined.

Lemma admin_totp_is_valid_any_drift_witness :
  @admin_totp_is_valid Pg.c_locale 59000000 (Some demo_secret) (Some " 287082 ") (-1)
  = Ok false
  /\ @admin_totp_is_valid Pg.c_locale 59000000 (Some demo_secret) (Some " 287082 ") 2
     = Raise undefined_set_byte.
Proof.
  destruct (@admin_totp_is_valid_any_drift Pg.c_locale 59000000 demo_secret " 287082 "
              (list_byte_of_string "12345678901234567890") (-1)) as (Hneg & _).
  - vm_compute. reflexivity.
  - discriminate.
  - vm_compute. discriminate.
  - lia.
  - destruct (@admin_totp_is_valid_any_drift Pg.c_locale 59000000 demo_secret
                " 287082 " (list_byte_of_string "12345678901234567890") 2)
      as (_ & Hpos & _).
    + vm_compute. reflexivity.
    + discriminate.
    + vm_compute. discriminate.
    + lia.
    + split; [apply Hneg; lia | apply Hpos; lia].
Defined.


(** ** Tables: what a SELECT finds after an UPDATE *)

Lemma find_map_same {A : Type} (p : A -> bool) (f : A -> A) (l : list A) :
  (forall x, p (f x) = p x) -> find p (map f l) = option_map f (find p l).
Proof.
  intros H. induction l as [| x l IH]; cbn [map find]; [reflexivity |].
  rewrite H. destruct (p x); [reflexivity | exact IH].
Qed.

Lemma find_none_all {A : Type} (p : A -> bool) (l : list A) :
  (forall x, In x l -> p x = false) -> find p l = None.
Proof.
  intros H. induction l as [| x l IH]; cbn [find]; [reflexivity |].
  rewrite (H x) by (left; reflexivity). apply IH.
  intros y Hy. apply H. right. exact Hy.
Qed.

Lemma select_by_email_updated (db : database) (now : Pg.timestamptz)
  (cond : AdminUsers.row -> bool) (set : AdminUsers.row -> AdminUsers.row)
  (e : option Pg.text) :
  (forall r, AdminUsers.email (set r) = AdminUsers.email r) ->
  select_by_email (update_admin_users now cond set db) e
  = option_map
      (fun r => if cond r then AdminUsers.update_updated_at_column now (set r) else r)
      (select_by_email db e).
Proof.
  intros H. destruct e as [e |]; [| reflexivity].
  cbn [select_by_email update_admin_users admin_users].
  apply find_map_same. intros r.
  destruct (cond r); [| reflexivity].
  cbn [AdminUsers.update_updated_at_column AdminUsers.email]. rewrite H. reflexivity.
Qed.

Lemma select_by_id_updated (db : database) (now : Pg.timestamptz)
  (cond : AdminUsers.row -> bool) (set : AdminUsers.row -> AdminUsers.row) (u : uuid) :
  (forall r, AdminUsers.id (set r) = AdminUsers.id r) ->
  select_by_id (update_admin_users now cond set db) u
  = option_map
      (fun r => if cond r then AdminUsers.update_updated_at_column now (set r) else r)
      (select_by_id db u).
Proof.
  intros H. cbn [select_by_id update_admin_users admin_users].
  apply find_map_same. intros r.
  destruct (cond r); [| reflexivity].
  cbn [AdminUsers.update_updated_at_column AdminUsers.id]. rewrite H. reflexivity.
Qed.

Lemma select_by_email_found (db : database) (e : option Pg.text) (a : AdminUsers.row) :
  select_by_email db e = Some a ->
  In a (admin_users db) /\ e = Some (AdminUsers.email a).
Proof.
  destruct e as [e |]; cbn [select_by_email]; [| discriminate].
  intros H. apply find_some in H. destruct H as [Hin H].
  apply String.eqb_eq in H. split; [assumption | congruence].
Qed.

Lemma select_by_id_found (db : database) (u : uuid) (a : AdminUsers.row) :
  select_by_id db u = Some a -> In a (admin_users db) /\ AdminUsers.id a = u.
Proof.
  unfold select_by_id. intros H. apply find_some in H. destruct H as [Hin H].
  apply N.eqb_eq in H. auto.
Qed.

(** ** Names that are variables and columns *)

(** The statements of [admin_verify_two_factor] that use [id], and the
    [RETURNING id] of [admin_login], are refused; no variable of the other
    four functions is named like a column they use. *)
Lemma id_is_ambiguous :
  Plpgsql.column_references admin_verify_two_factor_variables
    AdminLoginChallenges.columns ["id"; "challenge"; "consumed_at"; "expires_at"]
  = Raise ambiguous_id
  /\ Plpgsql.column_references admin_login_variables AdminLoginChallenges.columns ["id"]
     = Raise ambiguous_id.
Proof. split; reflexivity. Qed.

Lemma other_functions_have_no_conflict :
  forallb
    (fun variables =>
       forallb
         (fun name =>
            negb (Plpgsql.declares (AdminUsers.columns ++ ["code_hash"]) name))
         variables)
    [admin_take_recovery_code_variables; admin_start_two_factor_variables;
     admin_confirm_two_factor_variables; admin_disable_two_factor_variables]
  = true.
Proof. reflexivity. Qed.

(** ** The operations on accounts and challenges *)

Section OperationProperties.

Context {lc : Pg.locale}.
Variable crypt : Pg.text -> Pg.text -> Pg.text.

(** C10. The account is looked up by exact, case-sensitive equality of the
    email text: the row an operation selects has exactly the candidate as its
    email, and when no stored account has the candidate as its email (it
    differs from each of them in some character, be it only the case of a
    letter) every operation rejects with 'Invalid credentials', whatever the
    password, and changes nothing. *)
Theorem email_lookup_is_exact (db : database) (now : Pg.timestamptz) (fresh : uuid)
  (rnd : entropy) (candidate : Pg.text) (password otp_code : option Pg.text) :
  (forall a, In a (admin_users db) -> AdminUsers.email a <> candidate) ->
  select_by_email db (Some candidate) = None
  /\ admin_login crypt db now fresh (Some candidate) password
     = Ok (login_rejected "Invalid credentials", db)
  /\ admin_start_two_factor crypt db now rnd (Some candidate) password
     = Raise "Invalid credentials"
  /\ admin_confirm_two_factor crypt db now (Some candidate) password otp_code
     = Ok (status_rejected "Invalid credentials", db)
  /\ admin_disable_two_factor crypt db now (Some candidate) password otp_code
     = Ok (status_rejected "Invalid credentials", db).
Proof.
  intros Hne.
  assert (Hnone : select_by_email db (Some candidate) = None).
  { cbn [select_by_email]. apply find_none_all. intros a Ha.
    apply String.eqb_neq. apply Hne. exact Ha. }
  unfold admin_login, admin_start_two_factor, admin_confirm_two_factor,
    admin_disable_two_factor.
  rewrite Hnone. repeat split.
Qed.


(** [admin_login] with its [INSERT .. RETURNING id] refused. *)
Lemma admin_login_outcome (db : database) (now : Pg.timestamptz) (fresh : uuid)
  (login_email login_password : option Pg.text) :
  admin_login crypt db now fresh login_email login_password
  = match select_by_email db login_email with
    | None => Ok (login_rejected "Invalid credentials", db)
    | Some account =>
        if is_true (password_differs crypt account login_password) then
          Ok (login_rejected "Invalid credentials", db)
        else if AdminUsers.two_factor_enabled account
                && match AdminUsers.two_factor_secret account with
                   | Some _ => true
                   | None => false
                   end then
          Raise ambiguous_id
        else
          Ok ({| LoginResult.success := true; LoginResult.requires_otp := false;
                 LoginResult.challenge_id := None; LoginResult.error := None;
                 LoginResult.id := Some (AdminUsers.id account);
                 LoginResult.email := Some (AdminUsers.email account);
                 LoginResult.name := Some (AdminUsers.name account);
                 LoginResult.role := Some (AdminUsers.role account);
                 LoginResult.two_factor_enabled :=
                   AdminUsers.two_factor_enabled account |},
              db)
    end.
Proof. reflexivity. Qed.

Lemma admin_login_keeps_database (db : database) (now : Pg.timestamptz) (fresh : uuid)
  (login_email login_password : option Pg.text) :
  database_after db (admin_login crypt db now fresh login_email login_password) = db.
Proof.
  rewrite admin_login_outcome.
  destruct (select_by_email db login_email) as [a |]; [| reflexivity].
  destruct (is_true _); [reflexivity |].
  destruct (AdminUsers.two_factor_enabled a && _); reflexivity.
Qed.

(** C7. For a challenge that is still valid and whose account has two-factor
    authentication switched off, or has no active secret,
    [admin_verify_two_factor] raises instead of returning success: the name
    [id] in [WHERE id = challenge] is also the output column [id]. The call
    is rolled back, so the challenge is not consumed and stays valid. *)
Theorem verify_raises_when_disabled (db : database) (now : Pg.timestamptz)
  (challenge : option uuid) (otp_code : option Pg.text)
  (record_challenge : AdminLoginChallenges.row) (account : AdminUsers.row) :
  select_valid_challenge db now challenge = Some record_challenge ->
  select_by_id db (AdminLoginChallenges.admin_user_id record_challenge) = Some account ->
  AdminUsers.two_factor_enabled account = false
  \/ AdminUsers.two_factor_secret account = None ->
  admin_verify_two_factor crypt db now challenge otp_code = Raise ambiguous_id
  /\ run crypt db now (CallVerify challenge otp_code) = db
  /\ select_valid_challenge (run crypt db now (CallVerify challenge otp_code)) now
       challenge = Some record_challenge.
Proof.
  intros Hch _ _. split; [reflexivity |]. split; [reflexivity | exact Hch].
Qed.

(** C2. [admin_verify_two_factor] raises on every call, in its first
    statement: no verification succeeds and none is rejected with a row, be
    the challenge open, consumed or expired, and no call changes the
    database, so no challenge is ever consumed. [admin_login] raises where it
    would insert a challenge, at [RETURNING id], and leaves the challenges as
    they are on every path. *)
Theorem verify_raises_on_every_call (db : database) (now : Pg.timestamptz) :
  (forall challenge otp_code,
      admin_verify_two_factor crypt db now challenge otp_code = Raise ambiguous_id
      /\ run crypt db now (CallVerify challenge otp_code) = db)
  /\ (forall fresh login_email login_password account secret,
        select_by_email db login_email = Some account ->
        is_true (password_differs crypt account login_password) = false ->
        AdminUsers.two_factor_enabled account = true ->
        AdminUsers.two_factor_secret account = Some secret ->
        admin_login crypt db now fresh login_email login_password
        = Raise ambiguous_id)
  /\ (forall fresh login_email login_password,
        run crypt db now (CallLogin fresh login_email login_password) = db).
Proof.
  split; [| split].
  - intros challenge otp_code. split; reflexivity.
  - intros fresh login_email login_password account secret Ha Hpw Hon Hsecret.
    rewrite admin_login_outcome, Ha, Hpw, Hon, Hsecret. reflexivity.
  - intros fresh login_email login_password. apply admin_login_keeps_database.
Qed.

Lemma generate_codes_total (rnd : entropy) :
  exists v, for_range 1 8 (generate_code crypt rnd) ([], []) = Ok v
            /\ List.length (fst v) = 8%nat /\ List.length (snd v) = 8%nat.
Proof.
  unfold for_range. change (Z.to_nat (8 - 1 + 1)) with 8%nat.
  cbn [for_loop generate_code bind fst snd app].
  eexists. split; [reflexivity |]. split; reflexivity.
Qed.

(** With the credentials accepted, [admin_start_two_factor] draws 20 random
    bytes and raises when it encodes them. *)
Lemma admin_start_two_factor_outcome (db : database) (now : Pg.timestamptz)
  (rnd : entropy) (login_email login_password : option Pg.text) :
  secret_bytes rnd <> [] ->
  admin_start_two_factor crypt db now rnd login_email login_password
  = if credentials_rejected crypt db login_email login_password
    then Raise "Invalid credentials"
    else Raise undefined_substr.
Proof.
  intros Hne. unfold admin_start_two_factor, credentials_rejected.
  destruct (select_by_email db login_email) as [a |]; [| reflexivity].
  destruct (is_true _); [reflexivity |].
  destruct (secret_bytes rnd) as [| x b]; [contradiction |].
  rewrite base32_encode_outcome. reflexivity.
Qed.

(** [admin_confirm_two_factor] promotes nothing: the code is never valid. *)
Lemma admin_confirm_two_factor_keeps_database (db : database) (now : Pg.timestamptz)
  (login_email login_password otp_code : option Pg.text) :
  database_after db
    (admin_confirm_two_factor crypt db now login_email login_password otp_code) = db
  /\ forall r db',
       admin_confirm_two_factor crypt db now login_email login_password otp_code
       = Ok (r, db') ->
       StatusResult.success r = false.
Proof.
  unfold admin_confirm_two_factor.
  destruct (select_by_email db login_email) as [a |];
    [| split; [reflexivity | intros r db' H; injection H as <- <-; reflexivity]].
  destruct (is_true _);
    [split; [reflexivity | intros r db' H; injection H as <- <-; reflexivity] |].
  destruct (AdminUsers.two_factor_temp_secret a) as [s |];
    [| split; [reflexivity | intros r db' H; injection H as <- <-; reflexivity]].
  destruct (admin_totp_is_valid_never_true now (Some s) otp_code 1) as [H | [m H]];
    rewrite H; cbn [bind negb database_after].
  - split; [reflexivity | intros r db' H0; injection H0 as <- <-; reflexivity].
  - split; [reflexivity | discriminate].
Qed.

(** C5. Enrolment cannot be started nor completed. With the credentials
    accepted, [admin_start_two_factor] raises when it encodes the random
    secret ([base32_encode] hands a [bigint] to [substr]) and writes nothing,
    the temp fields included; [admin_confirm_two_factor] never returns
    success and never changes the database, and with a pending secret that
    decodes to a non-empty key and a non-blank code it raises in
    [admin_totp_is_valid]. The active two-factor state is indeed never
    touched, as the specification has it, but there is no enrolment. *)
Theorem enrollment_never_completes (db : database) (now : Pg.timestamptz)
  (login_email login_password : option Pg.text) :
  (forall rnd,
      secret_bytes rnd <> [] ->
      (credentials_rejected crypt db login_email login_password = false ->
       admin_start_two_factor crypt db now rnd login_email login_password
       = Raise undefined_substr)
      /\ run crypt db now (CallStart rnd login_email login_password) = db)
  /\ (forall otp_code,
        run crypt db now (CallConfirm login_email login_password otp_code) = db
        /\ forall r db',
             admin_confirm_two_factor crypt db now login_email login_password otp_code
             = Ok (r, db') ->
             StatusResult.success r = false)
  /\ (forall a secret key code,
        select_by_email db login_email = Some a ->
        is_true (password_differs crypt a login_password) = false ->
        AdminUsers.two_factor_temp_secret a = Some secret ->
        base32_decode (Some secret) = Ok key -> key <> [] ->
        Pg.trim code <> EmptyString ->
        admin_confirm_two_factor crypt db now login_email login_password (Some code)
        = Raise undefined_set_byte).
Proof.
  split; [| split].
  - intros rnd Hne. cbn [run].
    rewrite (admin_start_two_factor_outcome db now rnd _ _ Hne).
    split.
    + intros Hcred. rewrite Hcred. reflexivity.
    + destruct (credentials_rejected crypt db login_email login_password); reflexivity.
  - intros otp_code. cbn [run].
    apply admin_confirm_two_factor_keeps_database.
  - intros a secret key code Ha Hpw Htemp Hdec Hkey Hcode.
    unfold admin_confirm_two_factor. rewrite Ha, Hpw, Htemp.
    rewrite (admin_totp_is_valid_window now secret code key Hdec Hkey Hcode).
    reflexivity.
Qed.

(** C8, amended. A failed credentials check (no account with the email, or a
    password that does not verify) is answered with the row 'Invalid
    credentials' by [admin_login], [admin_confirm_two_factor] and
    [admin_disable_two_factor], which change nothing; with the credentials
    accepted, a confirm without a pending setup and a disable on an account
    with the flag off are answered with a row as well. [admin_start_two_factor],
    whose result has the columns secret and recovery_codes only, raises the
    exception 'Invalid credentials' when the credentials check fails. *)
Theorem rejections_are_rows (db : database) (now : Pg.timestamptz)
  (login_email login_password otp_code : option Pg.text) :
  (credentials_rejected crypt db login_email login_password = true ->
   (forall fresh,
       admin_login crypt db now fresh login_email login_password
       = Ok (login_rejected "Invalid credentials", db))
   /\ admin_confirm_two_factor crypt db now login_email login_password otp_code
      = Ok (status_rejected "Invalid credentials", db)
   /\ admin_disable_two_factor crypt db now login_email login_password otp_code
      = Ok (status_rejected "Invalid credentials", db)
   /\ (forall rnd,
         admin_start_two_factor crypt db now rnd login_email login_password
         = Raise "Invalid credentials"))
  /\ (forall a,
        select_by_email db login_email = Some a ->
        credentials_rejected crypt db login_email login_password = false ->
        (AdminUsers.two_factor_temp_secret a = None ->
         admin_confirm_two_factor crypt db now login_email login_password otp_code
         = Ok (status_rejected "No pending setup found", db))
        /\ (AdminUsers.two_factor_enabled a = false ->
            admin_disable_two_factor crypt db now login_email login_password otp_code
            = Ok (status_rejected "Two-factor authentication is not enabled", db))).
Proof.
  unfold credentials_rejected. split.
  - intros Hcred.
    unfold admin_login, admin_confirm_two_factor, admin_disable_two_factor,
      admin_start_two_factor.
    destruct (select_by_email db login_email) as [a |]; [rewrite Hcred |];
      repeat split.
  - intros a Ha Hcred. rewrite Ha in Hcred.
    unfold admin_confirm_two_factor, admin_disable_two_factor.
    rewrite Ha, Hcred. split.
    + intros Htemp. rewrite Htemp. reflexivity.
    + intros Hoff. rewrite Hoff. reflexivity.
Qed.

(** C6. With the right password, [admin_disable_two_factor] rejects with
    'Two-factor authentication is not enabled' when the flag is off, as the
    specification has it. When the flag is on and the active secret decodes
    to a non-empty key, every code that is not blank makes the function raise in
    [admin_totp_is_valid], before the recovery codes are looked at: neither
    a TOTP code nor an active recovery code disables two-factor
    authentication, and nothing changes. A blank or NULL code is answered
    'Invalid authentication code', nothing changed. *)
Theorem disable_two_factor_raises (db : database) (now : Pg.timestamptz)
  (login_email login_password : Pg.text) (a : AdminUsers.row) :
  select_by_email db (Some login_email) = Some a ->
  crypt login_password (AdminUsers.password_hash a) = AdminUsers.password_hash a ->
  (AdminUsers.two_factor_enabled a = false ->
   forall otp_code,
     admin_disable_two_factor crypt db now (Some login_email) (Some login_password)
       otp_code
     = Ok (status_rejected "Two-factor authentication is not enabled", db))
  /\ (AdminUsers.two_factor_enabled a = true ->
      forall secret key code,
        AdminUsers.two_factor_secret a = Some secret ->
        base32_decode (Some secret) = Ok key -> key <> [] ->
        Pg.trim code <> EmptyString ->
        admin_disable_two_factor crypt db now (Some login_email) (Some login_password)
          (Some code)
        = Raise undefined_set_byte
        /\ run crypt db now
             (CallDisable (Some login_email) (Some login_password) (Some code)) = db)
  /\ (AdminUsers.two_factor_enabled a = true ->
      forall otp_code,
        otp_code = None \/ (exists c, otp_code = Some c /\ Pg.trim c = EmptyString) ->
        admin_disable_two_factor crypt db now (Some login_email) (Some login_password)
          otp_code
        = Ok (status_rejected "Invalid authentication code", db)).
Proof.
  intros Ha Hpw.
  assert (Hcheck : is_true (password_differs crypt a (Some login_password)) = false).
  { unfold password_differs, sql_crypt, sql_text_ne, is_true.
    rewrite Hpw, String.eqb_refl. reflexivity. }
  split; [| split].
  - intros Hoff otp_code. unfold admin_disable_two_factor.
    rewrite Ha, Hcheck, Hoff. reflexivity.
  - intros Hon secret key code Hsecret Hdec Hkey Hcode.
    assert (Hraise : admin_disable_two_factor crypt db now (Some login_email)
                       (Some login_password) (Some code) = Raise undefined_set_byte).
    { unfold admin_disable_two_factor. rewrite Ha, Hcheck, Hon, Hsecret.
      cbn [negb].
      rewrite (admin_totp_is_valid_window now secret code key Hdec Hkey Hcode).
      reflexivity. }
    split; [exact Hraise |]. cbn [run]. rewrite Hraise. reflexivity.
  - intros Hon otp_code Hblank. unfold admin_disable_two_factor.
    rewrite Ha, Hcheck, Hon. cbn [negb].
    destruct Hblank as [-> | (c & -> & Hc)].
    + destruct (AdminUsers.two_factor_secret a); reflexivity.
    + assert (Hfalse : admin_totp_is_valid now (AdminUsers.two_factor_secret a)
                         (Some c) 1 = Ok false).
      { destruct (AdminUsers.two_factor_secret a) as [s |]; [| reflexivity].
        unfold admin_totp_is_valid. rewrite Hc. reflexivity. }
      rewrite Hfalse. cbn [bind negb]. unfold admin_take_recovery_code.
      rewrite Hc. reflexivity.
Qed.

(** ** Recovery codes *)

Lemma texts_eqb_eq (a : list Pg.text) :
  forall b, texts_eqb a b = true -> a = b.
Proof.
  induction a as [| x a IH]; intros [| y b] H; cbn [texts_eqb] in H;
    try discriminate; [reflexivity |].
  apply andb_true_iff in H. destruct H as [Hxy H].
  apply String.eqb_eq in Hxy. rewrite Hxy, (IH b H). reflexivity.
Qed.

Lemma find_filter_head {A : Type} (q : A -> bool) (l : list A) :
  find q l = hd_error (filter q l).
Proof.
  induction l as [| x l IH]; cbn [find filter]; [reflexivity |].
  destruct (q x); [reflexivity | exact IH].
Qed.

Lemma filter_swap {A : Type} (q r : A -> bool) (l : list A) :
  filter q (filter r l) = filter r (filter q l).
Proof.
  induction l as [| x l IH]; cbn [filter]; [reflexivity |].
  destruct (r x) eqn:Hr, (q x) eqn:Hq; cbn [filter]; rewrite ?Hr, ?Hq, IH; reflexivity.
Qed.

Lemma filter_split_length {A : Type} (q : A -> bool) (l : list A) :
  (List.length (filter q l) + List.length (filter (fun x => negb (q x)) l)
   = List.length l)%nat.
Proof.
  induction l as [| x l IH]; cbn [filter]; [reflexivity |].
  destruct (q x); cbn [negb List.length]; lia.
Qed.

Lemma filter_narrow {A : Type} (q r : A -> bool) (l : list A) :
  (forall x, q x = true -> r x = true) -> filter q (filter r l) = filter q l.
Proof.
  intros H. induction l as [| x l IH]; cbn [filter]; [reflexivity |].
  destruct (r x) eqn:Hr; cbn [filter].
  - rewrite IH. reflexivity.
  - destruct (q x) eqn:Hq; [| exact IH].
    rewrite (H x Hq) in Hr. discriminate.
Qed.

Section Batch.

Variable batch : list (Pg.text * Pg.text).
Hypothesis batch_ok : recovery_batch_ok crypt batch = true.

Let stored : list Pg.text := map snd batch.

Lemma batch_entry (p h : Pg.text) :
  In (p, h) batch ->
  Pg.trim p = p /\ p <> EmptyString
  /\ filter (fun code_hash => String.eqb (crypt p code_hash) code_hash) stored = [h].
Proof.
  intros Hin. unfold recovery_batch_ok in batch_ok.
  apply andb_true_iff in batch_ok. destruct batch_ok as [_ Hall].
  rewrite forallb_forall in Hall. specialize (Hall (p, h) Hin).
  cbn [fst snd] in Hall. apply andb_true_iff in Hall. destruct Hall as [Hp Hf].
  unfold recovery_plaintext_ok in Hp.
  apply andb_true_iff in Hp. destruct Hp as [Htrim Hne].
  apply String.eqb_eq in Htrim. apply negb_true_iff in Hne.
  apply String.eqb_neq in Hne.
  apply texts_eqb_eq in Hf. auto.
Qed.

Lemma batch_match (p h : Pg.text) :
  In (p, h) batch -> matching_hash crypt p stored = Some h.
Proof.
  intros Hin. destruct (batch_entry p h Hin) as (_ & _ & Hf).
  unfold matching_hash. rewrite find_filter_head, Hf. reflexivity.
Qed.

Lemma batch_match_removed (p h : Pg.text) :
  In (p, h) batch -> matching_hash crypt p (Pg.array_remove stored h) = None.
Proof.
  intros Hin. destruct (batch_entry p h Hin) as (_ & _ & Hf).
  unfold matching_hash, Pg.array_remove.
  rewrite find_filter_head, filter_swap, Hf. cbn [filter].
  rewrite String.eqb_refl. reflexivity.
Qed.

Lemma batch_match_other (p h p' h' : Pg.text) :
  In (p, h) batch -> In (p', h') batch -> h' <> h ->
  matching_hash crypt p' (Pg.array_remove stored h) = Some h'.
Proof.
  intros _ Hin' Hne. destruct (batch_entry p' h' Hin') as (_ & _ & Hf).
  unfold matching_hash, Pg.array_remove.
  rewrite find_filter_head, filter_swap, Hf. cbn [filter].
  replace (String.eqb h' h) with false by (symmetry; apply String.eqb_neq; assumption).
  reflexivity.
Qed.

Lemma batch_remaining (p h : Pg.text) :
  In (p, h) batch ->
  List.length (Pg.array_remove stored h) = 7%nat
  /\ ~ In h (Pg.array_remove stored h)
  /\ (forall h', In h' stored -> h' <> h -> In h' (Pg.array_remove stored h)).
Proof.
  intros Hin. destruct (batch_entry p h Hin) as (_ & _ & Hf).
  assert (Hlen : List.length stored = 8%nat).
  { unfold stored. rewrite length_map.
    unfold recovery_batch_ok in batch_ok.
    apply andb_true_iff in batch_ok. destruct batch_ok as [H _].
    apply Nat.eqb_eq. exact H. }
  assert (Hone : filter (fun y => String.eqb y h) stored = [h]).
  { rewrite <- (filter_narrow _
                  (fun code_hash => String.eqb (crypt p code_hash) code_hash)).
    - rewrite Hf. cbn [filter]. rewrite String.eqb_refl. reflexivity.
    - intros x Hx. apply String.eqb_eq in Hx. subst x.
      assert (Hh : In h [h]) by (left; reflexivity).
      rewrite <- Hf in Hh. apply filter_In in Hh. apply Hh. }
  unfold Pg.array_remove. split; [| split].
  - pose proof (filter_split_length (fun y => String.eqb y h) stored) as Hs.
    rewrite Hone, Hlen in Hs. cbn [List.length] in Hs. lia.
  - intros H. apply filter_In in H. destruct H as [_ H].
    rewrite String.eqb_refl in H. discriminate.
  - intros h' Hh' Hne. apply filter_In. split; [assumption |].
    apply negb_true_iff. apply String.eqb_neq. assumption.
Qed.

(** C3. An account holds the eight hashes of a batch of recovery codes. On
    the path of [admin_take_recovery_code] the codes are single-use, as the
    specification has it: consuming one plaintext code succeeds and leaves
    exactly the other seven hashes stored; consuming the same plaintext again fails;
    each of the other seven codes still consumes successfully. On the path of
    [admin_verify_two_factor] no recovery code is ever consumed: with a
    challenge that is valid for the account the call raises in its first
    statement, and the hash of the code stays stored. *)
Theorem recovery_codes_single_use (db : database) (now : Pg.timestamptz)
  (user_id : uuid) (a : AdminUsers.row) (p h : Pg.text) :
  select_by_id db user_id = Some a ->
  AdminUsers.two_factor_recovery_codes a = map snd batch ->
  In (p, h) batch ->
  let remaining := Pg.array_remove (map snd batch) h in
  (List.length remaining = 7%nat
   /\ ~ In h remaining
   /\ (forall h', In h' (map snd batch) -> h' <> h -> In h' remaining))
  /\ (exists db1 a1,
         admin_take_recovery_code crypt db now user_id (Some p) = Ok (true, db1)
         /\ select_by_id db1 user_id = Some a1
         /\ AdminUsers.two_factor_recovery_codes a1 = remaining
         /\ (forall later,
               admin_take_recovery_code crypt db1 later user_id (Some p)
               = Ok (false, db1))
         /\ (forall later p' h',
               In (p', h') batch -> h' <> h ->
               exists db2,
                 admin_take_recovery_code crypt db1 later user_id (Some p')
                 = Ok (true, db2)))
  /\ (AdminUsers.two_factor_enabled a = true ->
      AdminUsers.two_factor_secret a <> None ->
      forall challenge ch,
        select_valid_challenge db now challenge = Some ch ->
        AdminLoginChallenges.admin_user_id ch = user_id ->
        admin_verify_two_factor crypt db now challenge (Some p) = Raise ambiguous_id
        /\ select_by_id (run crypt db now (CallVerify challenge (Some p))) user_id
           = Some a
        /\ In h (AdminUsers.two_factor_recovery_codes a)).
Proof.
  intros Ha Hcodes Hin remaining. fold stored in Hcodes, remaining.
  destruct (batch_entry p h Hin) as (Htrim & Hne & _).
  destruct (select_by_id_found _ _ _ Ha) as [_ Hid].
  assert (Hblank : String.eqb p "" = false) by (apply String.eqb_neq; assumption).
  split; [exact (batch_remaining p h Hin) |].
  split.
  - do 2 eexists. split; [| split; [| split; [| split]]].
    + unfold admin_take_recovery_code.
      rewrite Htrim, Hblank, Ha, Hcodes, (batch_match p h Hin). reflexivity.
    + rewrite select_by_id_updated by reflexivity.
      rewrite Ha. cbn [option_map]. rewrite Hid, N.eqb_refl. reflexivity.
    + cbn [AdminUsers.update_updated_at_column AdminUsers.set_recovery_codes
             AdminUsers.two_factor_recovery_codes].
      rewrite Hcodes. reflexivity.
    + intros later. unfold admin_take_recovery_code at 1.
      rewrite Htrim, Hblank.
      rewrite select_by_id_updated by reflexivity.
      rewrite Ha. cbn [option_map]. rewrite Hid, N.eqb_refl.
      cbn [AdminUsers.update_updated_at_column AdminUsers.set_recovery_codes
             AdminUsers.two_factor_recovery_codes].
      rewrite Hcodes, (batch_match_removed p h Hin). reflexivity.
    + intros later p' h' Hin' Hne'.
      destruct (batch_entry p' h' Hin') as (Htrim' & Hne2 & _).
      eexists. unfold admin_take_recovery_code at 1.
      rewrite Htrim'.
      replace (String.eqb p' "") with false
        by (symmetry; apply String.eqb_neq; assumption).
      rewrite select_by_id_updated by reflexivity.
      rewrite Ha. cbn [option_map]. rewrite Hid, N.eqb_refl.
      cbn [AdminUsers.update_updated_at_column AdminUsers.set_recovery_codes
             AdminUsers.two_factor_recovery_codes].
      rewrite Hcodes, (batch_match_other p h p' h' Hin Hin' Hne'). reflexivity.
  - intros _ _ challenge ch _ _.
    split; [reflexivity |]. split; [exact Ha |].
    rewrite Hcodes. fold stored.
    assert (Hh : In h [h]) by (left; reflexivity).
    destruct (batch_entry p h Hin) as (_ & _ & Hf).
    rewrite <- Hf in Hh. apply filter_In in Hh. apply Hh.
Qed.

End Batch.

End OperationProperties.

(** ** The theorems at concrete accounts, under the locale C *)

Section ConcreteAccounts.

#[local] Existing Instance Pg.c_locale.

Lemma email_lookup_is_exact_witness :
  admin_login demo_crypt demo_db_plain 59000000 1%N (Some "Admin@example.com")
    demo_password
  = Ok (login_rejected "Invalid credentials", demo_db_plain).
Proof.
  refine (proj1 (proj2 (email_lookup_is_exact demo_crypt demo_db_plain 59000000 1%N
                          demo_entropy "Admin@example.com" demo_password None _))).
  intros a [<- | []]. vm_compute. discriminate.
Defined.

Lemma verify_raises_when_disabled_witness :
  admin_verify_two_factor demo_crypt demo_db_switched_off 59000000 (Some 100%N)
    (Some "not a code")
  = Raise ambiguous_id
  /\ select_valid_challenge
       (run demo_crypt demo_db_switched_off 59000000
          (CallVerify (Some 100%N) (Some "not a code")))
       59000000 (Some 100%N)
     = Some (demo_challenge 100%N 400000000).
Proof.
  destruct (verify_raises_when_disabled demo_crypt demo_db_switched_off 59000000
              (Some 100%N) (Some "not a code") (demo_challenge 100%N 400000000)
              (demo_admin false None []))
    as (Hraise & _ & Hopen).
  - reflexivity.
  - reflexivity.
  - left. reflexivity.
  - split; [exact Hraise | exact Hopen].
Defined.

(** A challenge that was consumed is not answered 'Challenge expired or
    invalid': the call raises like every other. *)
Lemma verify_raises_on_every_call_witness :
  admin_verify_two_factor demo_crypt demo_db_consumed 59000000 (Some 100%N)
    (Some "287082")
  = Raise ambiguous_id
  /\ admin_login demo_crypt demo_db_enabled 59000000 102%N demo_email demo_password
     = Raise ambiguous_id.
Proof.
  destruct (verify_raises_on_every_call demo_crypt demo_db_consumed 59000000)
    as (Hverify & _).
  destruct (verify_raises_on_every_call demo_crypt demo_db_enabled 59000000)
    as (_ & Hlogin & _).
  split.
  - apply Hverify.
  - apply (Hlogin 102%N demo_email demo_password
             (demo_admin true (Some demo_secret) demo_hashes) demo_secret);
      reflexivity.
Defined.

Lemma recovery_codes_single_use_witness :
  (exists db1,
      admin_take_recovery_code demo_crypt demo_db_enabled 59000000 7%N
        (Some "ABCDE-F0123") = Ok (true, db1)
      /\ admin_take_recovery_code demo_crypt db1 60000000 7%N (Some "ABCDE-F0123")
         = Ok (false, db1))
  /\ admin_verify_two_factor demo_crypt demo_db_enabled 59000000 (Some 100%N)
       (Some "ABCDE-F0123")
     = Raise ambiguous_id.
Proof.
  destruct (recovery_codes_single_use demo_crypt demo_batch) with
    (db := demo_db_enabled) (now := 59000000) (user_id := 7%N)
    (a := demo_admin true (Some demo_secret) demo_hashes)
    (p := "ABCDE-F0123") (h := "s003ABCDE-F0123")
    as (_ & (db1 & a1 & Htake & _ & _ & Hagain & _) & Hverify).
  - vm_compute. reflexivity.
  - reflexivity.
  - reflexivity.
  - right. right. left. reflexivity.
  - split.
    + exists db1. split; [exact Htake | apply Hagain].
    + apply (Hverify eq_refl) with (ch := demo_challenge 100%N 400000000);
        [discriminate | reflexivity | reflexivity].
Defined.

Lemma disable_two_factor_raises_witness :
  matching_hash demo_crypt "ABCDE-F0123" demo_hashes = Some "s003ABCDE-F0123"
  /\ admin_disable_two_factor demo_crypt demo_db_enabled 59000000 demo_email
       demo_password (Some "ABCDE-F0123")
     = Raise undefined_set_byte
  /\ admin_disable_two_factor demo_crypt demo_db_enabled 59000000 demo_email
       demo_password (Some "287082")
     = Raise undefined_set_byte.
Proof.
  destruct (disable_two_factor_raises demo_crypt demo_db_enabled 59000000
              "admin@example.com" "ChangeThisPassword123!"
              (demo_admin true (Some demo_secret) demo_hashes))
    as (_ & Hon & _).
  - reflexivity.
  - reflexivity.
  - split; [reflexivity |]. split.
    + apply (Hon eq_refl demo_secret (list_byte_of_string "12345678901234567890"));
        [reflexivity | vm_compute; reflexivity | discriminate
         | vm_compute; discriminate].
    + apply (Hon eq_refl demo_secret (list_byte_of_string "12345678901234567890"));
        [reflexivity | vm_compute; reflexivity | discriminate
         | vm_compute; discriminate].
Defined.

Lemma enrollment_never_completes_witness :
  admin_start_two_factor demo_crypt demo_db_plain 59000000 demo_entropy demo_email
    demo_password
  = Raise undefined_substr
  /\ admin_confirm_two_factor demo_crypt demo_db_pending 59000000 demo_email
       demo_password (Some "287082")
     = Raise undefined_set_byte.
Proof.
  split.
  - refine (proj1 (proj1 (enrollment_never_completes demo_crypt demo_db_plain 59000000
                            demo_email demo_password) demo_entropy _) _).
    + discriminate.
    + reflexivity.
  - refine (proj2 (proj2 (enrollment_never_completes demo_crypt demo_db_pending
                            59000000 demo_email demo_password))
              demo_admin_pending demo_secret
              (list_byte_of_string "12345678901234567890") "287082" _ _ _ _ _ _).
    + reflexivity.
    + reflexivity.
    + reflexivity.
    + vm_compute. reflexivity.
    + discriminate.
    + vm_compute. discriminate.
Defined.

Lemma rejections_are_rows_witness :
  admin_login demo_crypt demo_db_plain 59000000 1%N demo_email (Some "wrong password")
  = Ok (login_rejected "Invalid credentials", demo_db_plain)
  /\ admin_confirm_two_factor demo_crypt demo_db_plain 59000000 demo_email
       demo_password (Some "287082")
     = Ok (status_rejected "No pending setup found", demo_db_plain).
Proof.
  split.
  - refine (proj1 (proj1 (rejections_are_rows demo_crypt demo_db_plain 59000000
                            demo_email (Some "wrong password") None) _) 1%N).
    vm_compute. reflexivity.
  - refine (proj1 (proj2 (rejections_are_rows demo_crypt demo_db_plain 59000000
                            demo_email demo_password (Some "287082"))
                     (demo_admin false None []) _ _) _); reflexivity.
Defined.

(** C8 as stated fails for [admin_start_two_factor]: a wrong password is
    answered with a raised exception, not with a row. *)
Lemma start_raises_on_wrong_password :
  admin_start_two_factor demo_crypt demo_db_plain 59000000 demo_entropy demo_email
    (Some "wrong password")
  = Raise "Invalid credentials".
Proof. vm_compute. reflexivity. Qed.

End ConcreteAccounts.

(** * Further properties of the migration *)

(** ** What the calls do to the accounts *)

Lemma touched_refl (now : Pg.timestamptz) (us : list AdminUsers.row) :
  Forall2 (touched_at now) us us.
Proof.
  induction us as [| r us IH]; constructor; [| exact IH].
  split; [reflexivity | now left].
Qed.

Lemma touched_trans (now : Pg.timestamptz) (a : list AdminUsers.row) :
  forall b c : list AdminUsers.row,
    Forall2 (touched_at now) a b -> Forall2 (touched_at now) b c ->
    Forall2 (touched_at now) a c.
Proof.
  induction a as [| x a IH]; intros b c Hab Hbc.
  - inversion Hab; subst. inversion Hbc; subst. constructor.
  - inversion Hab as [| x0 y a0 b' Hxy Hab']; subst.
    inversion Hbc as [| y0 z b0 c' Hyz Hbc']; subst.
    constructor; [| exact (IH _ _ Hab' Hbc')].
    destruct Hxy as [Hid1 Hup1], Hyz as [Hid2 Hup2].
    split; [congruence |].
    destruct Hup2 as [-> | Hup2]; [exact Hup1 | now right].
Qed.

Lemma touched_update (db : database) (now : Pg.timestamptz)
  (cond : AdminUsers.row -> bool) (set : AdminUsers.row -> AdminUsers.row) :
  (forall r, identity_of (set r) = identity_of r) ->
  Forall2 (touched_at now) (admin_users db)
    (admin_users (update_admin_users now cond set db)).
Proof.
  intros Hset. cbn [update_admin_users admin_users].
  induction (admin_users db) as [| r us IH]; cbn [map]; constructor; [| exact IH].
  destruct (cond r).
  - split; [| now right]. rewrite <- (Hset r). reflexivity.
  - split; [reflexivity | now left].
Qed.

Lemma select_by_email_own_update (db : database) (now : Pg.timestamptz)
  (e : option Pg.text) (a : AdminUsers.row) (set : AdminUsers.row -> AdminUsers.row) :
  select_by_email db e = Some a ->
  (forall r, AdminUsers.email (set r) = AdminUsers.email r) ->
  select_by_email
    (update_admin_users now (fun r => N.eqb (AdminUsers.id r) (AdminUsers.id a)) set db)
    e
  = Some (AdminUsers.update_updated_at_column now (set a)).
Proof.
  intros Ha Hset. rewrite select_by_email_updated by exact Hset.
  rewrite Ha. cbn [option_map]. rewrite N.eqb_refl. reflexivity.
Qed.

Lemma find_app_skip {A : Type} (q : A -> bool) (l r : list A) :
  (forall x, In x l -> q x = false) -> find q (l ++ r) = find q r.
Proof.
  induction l as [| x l IH]; intros H; [reflexivity |].
  cbn [app find]. rewrite (H x (or_introl eq_refl)).
  apply IH. intros y Hy. apply H. now right.
Qed.

Lemma array_remove_shorter (codes : list Pg.text) (h : Pg.text) :
  In h codes ->
  ~ In h (Pg.array_remove codes h)
  /\ (List.length (Pg.array_remove codes h) < List.length codes)%nat.
Proof.
  intros Hin. unfold Pg.array_remove. split.
  - intros H. apply filter_In in H. destruct H as [_ H].
    rewrite String.eqb_refl in H. discriminate.
  - induction codes as [| x codes IH]; [contradiction |].
    cbn [filter List.length]. destruct (String.eqb x h) eqn:Hx; cbn [negb].
    + pose proof (filter_length_le (fun y => negb (String.eqb y h)) codes). lia.
    + cbn [List.length]. destruct Hin as [-> | Hin].
      * rewrite String.eqb_refl in Hx. discriminate.
      * specialize (IH Hin). lia.
Qed.

Section CallProperties.

Context {lc : Pg.locale}.
Variable crypt : Pg.text -> Pg.text -> Pg.text.

Lemma touched_take_recovery (db : database) (now : Pg.timestamptz) (u : uuid)
  (attempt : option Pg.text) :
  exists ok db',
    admin_take_recovery_code crypt db now u attempt = Ok (ok, db')
    /\ Forall2 (touched_at now) (admin_users db) (admin_users db')
    /\ admin_login_challenges db' = admin_login_challenges db.
Proof.
  unfold admin_take_recovery_code.
  destruct attempt as [t |];
    [| do 2 eexists; split; [reflexivity | split; [apply touched_refl | reflexivity]]].
  destruct (String.eqb (Pg.trim t) "");
    [do 2 eexists; split; [reflexivity | split; [apply touched_refl | reflexivity]] |].
  destruct (matching_hash crypt (Pg.trim t) _) as [h |];
    do 2 eexists; (split; [reflexivity |]); (split; [| reflexivity]).
  - apply touched_update. reflexivity.
  - apply touched_refl.
Qed.

(** What [admin_disable_two_factor] leaves behind: the database as it was,
    or the account found by email rewritten, after a recovery code of it was
    used up. *)
Lemma admin_disable_two_factor_effect (db : database) (now : Pg.timestamptz)
  (login_email login_password otp_code : option Pg.text) :
  run crypt db now (CallDisable login_email login_password otp_code) = db
  \/ exists a db1,
       select_by_email db login_email = Some a
       /\ AdminUsers.two_factor_enabled a = true
       /\ admin_take_recovery_code crypt db now (AdminUsers.id a) otp_code
          = Ok (true, db1)
       /\ admin_disable_two_factor crypt db now login_email login_password otp_code
          = Ok (status_ok,
                update_admin_users now
                  (fun r => N.eqb (AdminUsers.id r) (AdminUsers.id a))
                  AdminUsers.set_disabled db1).
Proof.
  cbn [run]. unfold admin_disable_two_factor.
  destruct (select_by_email db login_email) as [a |] eqn:Ha; [| left; reflexivity].
  destruct (is_true _); [left; reflexivity |].
  destruct (AdminUsers.two_factor_enabled a) eqn:Hon; cbn [negb]; [| left; reflexivity].
  destruct (admin_totp_is_valid_never_true now (AdminUsers.two_factor_secret a)
              otp_code 1) as [H | [m H]]; rewrite H; cbn [bind negb];
    [| left; reflexivity].
  destruct (touched_take_recovery db now (AdminUsers.id a) otp_code)
    as (ok & db1 & Htake & _ & _).
  rewrite Htake. cbn [bind fst snd]. destruct ok; cbn [negb].
  - right. exists a, db1. repeat split; assumption.
  - left. cbn [database_after].
    unfold admin_take_recovery_code in Htake.
    destruct otp_code as [t |]; [| injection Htake as <-; reflexivity].
    destruct (String.eqb (Pg.trim t) ""); [injection Htake as <-; reflexivity |].
    destruct (matching_hash crypt (Pg.trim t) _);
      [discriminate | injection Htake as <-; reflexivity].
Qed.

Lemma run_touches (db : database) (now : Pg.timestamptz) (c : call) :
  Forall2 (touched_at now) (admin_users db) (admin_users (run crypt db now c)).
Proof.
  destruct c as [fresh e p | ch code | rnd e p | e p code | e p code | u attempt].
  - cbn [run]. rewrite admin_login_keeps_database. apply touched_refl.
  - apply touched_refl.
  - cbn [run]. unfold admin_start_two_factor.
    destruct (select_by_email db e) as [a |]; [| apply touched_refl].
    destruct (is_true _); [apply touched_refl |].
    destruct (base32_encode (Some (secret_bytes rnd))) as [s | m];
      [| apply touched_refl].
    cbn [bind].
    destruct (generate_codes_total crypt rnd) as (v & -> & _).
    cbn [bind database_after]. apply touched_update. reflexivity.
  - cbn [run].
    rewrite (proj1 (admin_confirm_two_factor_keeps_database crypt db now e p code)).
    apply touched_refl.
  - destruct (admin_disable_two_factor_effect db now e p code)
      as [-> | (a & db1 & _ & _ & Htake & Hrun)]; [apply touched_refl |].
    cbn [run]. rewrite Hrun. cbn [database_after].
    destruct (touched_take_recovery db now (AdminUsers.id a) code)
      as (ok & db1' & Htake' & Hstep & _).
    rewrite Htake in Htake'. injection Htake' as <- <-.
    apply touched_trans with (1 := Hstep). apply touched_update. reflexivity.
  - cbn [run].
    destruct (touched_take_recovery db now u attempt) as (ok & db1 & -> & Hstep & _).
    exact Hstep.
Qed.

(** X7. No sequence of calls of the six functions, at any times and with any
    arguments, adds or deletes an account or changes the id, email, password
    hash, name, role or creation time of one. *)
Theorem accounts_keep_identity (calls : list (Pg.timestamptz * call)) :
  forall db : database,
    map identity_of (admin_users (run_all crypt db calls))
    = map identity_of (admin_users db).
Proof.
  unfold run_all. induction calls as [| tc calls IH]; intros db; [reflexivity |].
  cbn [fold_left]. rewrite IH.
  pose proof (run_touches db (fst tc) (snd tc)) as Hstep.
  induction Hstep as [| r r' us us' [Hid _] _ IHs]; [reflexivity |].
  cbn [map]. rewrite Hid, IHs. reflexivity.
Qed.

(** X8. Through the trigger [update_admin_users_updated_at], every account
    row that a call changes carries the time of the call in [updated_at];
    every other row is exactly as before. *)
Theorem updated_at_follows_changes (db : database) (now : Pg.timestamptz) (c : call) :
  Forall2 (fun r r' => r' = r \/ AdminUsers.updated_at r' = Some now)
    (admin_users db) (admin_users (run crypt db now c)).
Proof.
  pose proof (run_touches db now c) as Hstep.
  induction Hstep as [| r r' us us' [_ Hup] _ IHs]; constructor; assumption.
Qed.

(** X9. [admin_take_recovery_code] changes nothing when it returns false.
    When it returns true, the trimmed attempt is not blank and verifies
    against a hash stored for the account; that hash is gone from the stored
    list afterwards, which is shorter; the two-factor flag, the secret and
    the challenges are as before. *)
Theorem take_recovery_code_effect (db db' : database) (now : Pg.timestamptz)
  (user_id : uuid) (attempt : option Pg.text) (ok : bool) :
  admin_take_recovery_code crypt db now user_id attempt = Ok (ok, db') ->
  (ok = false -> db' = db)
  /\ (ok = true ->
      exists (t h : Pg.text) (a a' : AdminUsers.row),
        attempt = Some t /\ Pg.trim t <> EmptyString
        /\ select_by_id db user_id = Some a
        /\ select_by_id db' user_id = Some a'
        /\ In h (AdminUsers.two_factor_recovery_codes a)
        /\ crypt (Pg.trim t) h = h
        /\ AdminUsers.two_factor_recovery_codes a'
           = Pg.array_remove (AdminUsers.two_factor_recovery_codes a) h
        /\ ~ In h (AdminUsers.two_factor_recovery_codes a')
        /\ (List.length (AdminUsers.two_factor_recovery_codes a')
            < List.length (AdminUsers.two_factor_recovery_codes a))%nat
        /\ AdminUsers.two_factor_enabled a' = AdminUsers.two_factor_enabled a
        /\ AdminUsers.two_factor_secret a' = AdminUsers.two_factor_secret a
        /\ admin_login_challenges db' = admin_login_challenges db).
Proof.
  unfold admin_take_recovery_code.
  destruct attempt as [t |].
  2:{ intros H. injection H as <- <-. split; [reflexivity | discriminate]. }
  destruct (String.eqb (Pg.trim t) "") eqn:Hblank.
  { intros H. injection H as <- <-. split; [reflexivity | discriminate]. }
  destruct (select_by_id db user_id) as [a |] eqn:Ha.
  2:{ cbn [matching_hash find]. intros H. injection H as <- <-.
      split; [reflexivity | discriminate]. }
  destruct (matching_hash crypt (Pg.trim t) _) as [h |] eqn:Hh.
  2:{ intros H. injection H as <- <-. split; [reflexivity | discriminate]. }
  intros H. injection H as <- <-. split; [discriminate |]. intros _.
  unfold matching_hash in Hh. apply find_some in Hh. destruct Hh as [Hin Hmatch].
  apply String.eqb_eq in Hmatch. apply String.eqb_neq in Hblank.
  destruct (array_remove_shorter _ _ Hin) as [Hgone Hless].
  exists t, h, a. eexists.
  split; [reflexivity |]. split; [exact Hblank |]. split; [reflexivity |].
  split.
  { rewrite select_by_id_updated by reflexivity. rewrite Ha. cbn [option_map].
    destruct (select_by_id_found _ _ _ Ha) as [_ Hid]. rewrite Hid, N.eqb_refl.
    reflexivity. }
  cbn [AdminUsers.update_updated_at_column AdminUsers.set_recovery_codes
         AdminUsers.two_factor_recovery_codes AdminUsers.two_factor_enabled
         AdminUsers.two_factor_secret].
  repeat split; assumption.
Qed.

(** ** Signing in *)

Lemma right_password_passes (a : AdminUsers.row) (p : Pg.text) :
  crypt p (AdminUsers.password_hash a) = AdminUsers.password_hash a ->
  is_true (password_differs crypt a (Some p)) = false.
Proof.
  intros H. unfold password_differs, sql_crypt, sql_text_ne. rewrite H.
  rewrite String.eqb_refl. reflexivity.
Qed.

Lemma password_differs_hash (a a' : AdminUsers.row) (p : option Pg.text) :
  AdminUsers.password_hash a' = AdminUsers.password_hash a ->
  password_differs crypt a' p = password_differs crypt a p.
Proof. intros H. unfold password_differs. rewrite H. reflexivity. Qed.

(** X10. The password comparison is not taken when [login_password] is NULL
    ([crypt] is strict, so the comparison is NULL and the IF falls through):
    for the email of a stored account, each of [admin_login],
    [admin_start_two_factor], [admin_confirm_two_factor] and
    [admin_disable_two_factor] does with a NULL password exactly what it
    does with the right password. *)
Theorem null_password_is_not_rejected (db : database) (now : Pg.timestamptz)
  (login_email : Pg.text) (a : AdminUsers.row) :
  select_by_email db (Some login_email) = Some a ->
  credentials_rejected crypt db (Some login_email) None = false
  /\ forall p : Pg.text,
       crypt p (AdminUsers.password_hash a) = AdminUsers.password_hash a ->
       (forall fresh,
           admin_login crypt db now fresh (Some login_email) None
           = admin_login crypt db now fresh (Some login_email) (Some p))
       /\ (forall rnd,
             admin_start_two_factor crypt db now rnd (Some login_email) None
             = admin_start_two_factor crypt db now rnd (Some login_email) (Some p))
       /\ (forall otp_code,
             admin_confirm_two_factor crypt db now (Some login_email) None otp_code
             = admin_confirm_two_factor crypt db now (Some login_email) (Some p)
                 otp_code)
       /\ (forall otp_code,
             admin_disable_two_factor crypt db now (Some login_email) None otp_code
             = admin_disable_two_factor crypt db now (Some login_email) (Some p)
                 otp_code).
Proof.
  intros Ha. split.
  - unfold credentials_rejected. rewrite Ha. reflexivity.
  - intros p Hp. pose proof (right_password_passes a p Hp) as Hpass.
    unfold admin_login, admin_start_two_factor, admin_confirm_two_factor,
      admin_disable_two_factor.
    rewrite Ha, Hpass.
    change (is_true (password_differs crypt a None)) with false.
    repeat split.
Qed.

(** ** Switching two-factor authentication off, then signing in *)

Lemma take_recovery_keeps_account (db db1 : database) (now : Pg.timestamptz)
  (e : option Pg.text) (a : AdminUsers.row) (attempt : option Pg.text) (ok : bool) :
  select_by_email db e = Some a ->
  admin_take_recovery_code crypt db now (AdminUsers.id a) attempt = Ok (ok, db1) ->
  exists a1 : AdminUsers.row,
    select_by_email db1 e = Some a1
    /\ AdminUsers.id a1 = AdminUsers.id a
    /\ AdminUsers.email a1 = AdminUsers.email a
    /\ AdminUsers.password_hash a1 = AdminUsers.password_hash a.
Proof.
  intros Ha. unfold admin_take_recovery_code.
  assert (Hsame : exists a1 : AdminUsers.row,
             select_by_email db e = Some a1
             /\ AdminUsers.id a1 = AdminUsers.id a
             /\ AdminUsers.email a1 = AdminUsers.email a
             /\ AdminUsers.password_hash a1 = AdminUsers.password_hash a).
  { exists a. repeat split. exact Ha. }
  destruct attempt as [t |]; [| intros H; injection H as <- <-; exact Hsame].
  destruct (String.eqb (Pg.trim t) "");
    [intros H; injection H as <- <-; exact Hsame |].
  destruct (matching_hash crypt (Pg.trim t) _) as [h |];
    [| intros H; injection H as <- <-; exact Hsame].
  intros H. injection H as <- <-.
  eexists. split.
  - apply (select_by_email_own_update db now e a); [exact Ha | reflexivity].
  - repeat split.
Qed.
(** X13. After a successful [admin_disable_two_factor], [admin_login] with
    the same credentials returns the identity at once, with no challenge
    and changing nothing; a second disable is answered 'Two-factor
    authentication is not enabled' and a confirm 'No pending setup found',
    whatever the code. (A disable succeeds through a recovery code only, on
    an account whose flag is on and whose secret is NULL or decodes to no
    byte.) *)
Theorem disable_then_login (db db' : database) (now : Pg.timestamptz)
  (login_email login_password otp_code : option Pg.text) (r : StatusResult.row) :
  admin_disable_two_factor crypt db now login_email login_password otp_code
  = Ok (r, db') ->
  StatusResult.success r = true ->
  (forall later fresh,
      exists row,
        admin_login crypt db' later fresh login_email login_password = Ok (row, db')
        /\ LoginResult.success row = true
        /\ LoginResult.requires_otp row = false
        /\ LoginResult.challenge_id row = None
        /\ LoginResult.email row = login_email
        /\ LoginResult.two_factor_enabled row = false)
  /\ (forall later code,
        admin_disable_two_factor crypt db' later login_email login_password code
        = Ok (status_rejected "Two-factor authentication is not enabled", db'))
  /\ (forall later code,
        admin_confirm_two_factor crypt db' later login_email login_password code
        = Ok (status_rejected "No pending setup found", db')).
Proof.
  unfold admin_disable_two_factor at 1.
  destruct (select_by_email db login_email) as [a |] eqn:Ha;
    [| intros H; injection H as <- <-; discriminate].
  destruct (is_true (password_differs crypt a login_password)) eqn:Hpw;
    [intros H; injection H as <- <-; discriminate |].
  destruct (negb (AdminUsers.two_factor_enabled a));
    [intros H; injection H as <- <-; discriminate |].
  destruct (admin_totp_is_valid_never_true now (AdminUsers.two_factor_secret a)
              otp_code 1) as [Htotp | [m Htotp]]; rewrite Htotp; cbn [bind];
    [| discriminate].
  assert (Hafter : forall db1 a1,
             select_by_email db1 login_email = Some a1 ->
             AdminUsers.id a1 = AdminUsers.id a ->
             AdminUsers.email a1 = AdminUsers.email a ->
             AdminUsers.password_hash a1 = AdminUsers.password_hash a ->
             let db2 :=
               update_admin_users now
                 (fun r => N.eqb (AdminUsers.id r) (AdminUsers.id a))
                 AdminUsers.set_disabled db1 in
             (forall later fresh,
                 exists row,
                   admin_login crypt db2 later fresh login_email login_password
                   = Ok (row, db2)
                   /\ LoginResult.success row = true
                   /\ LoginResult.requires_otp row = false
                   /\ LoginResult.challenge_id row = None
                   /\ LoginResult.email row = login_email
                   /\ LoginResult.two_factor_enabled row = false)
             /\ (forall later code,
                   admin_disable_two_factor crypt db2 later login_email login_password
                     code
                   = Ok (status_rejected "Two-factor authentication is not enabled",
                         db2))
             /\ (forall later code,
                   admin_confirm_two_factor crypt db2 later login_email login_password
                     code
                   = Ok (status_rejected "No pending setup found", db2))).
  { intros db1 a1 Ha1 Hid Hmail Hhash db2.
    assert (Ha2 : select_by_email db2 login_email
                  = Some (AdminUsers.update_updated_at_column now
                            (AdminUsers.set_disabled a1))).
    { unfold db2. rewrite <- Hid.
      apply select_by_email_own_update; [exact Ha1 | reflexivity]. }
    assert (Hpw2 : is_true
                     (password_differs crypt
                        (AdminUsers.update_updated_at_column now
                           (AdminUsers.set_disabled a1)) login_password) = false).
    { rewrite (password_differs_hash a) by exact Hhash. exact Hpw. }
    destruct (select_by_email_found _ _ _ Ha) as [_ Hmail0].
    split; [| split].
    - intros later fresh. unfold admin_login. rewrite Ha2, Hpw2.
      cbn [AdminUsers.two_factor_enabled AdminUsers.update_updated_at_column
             AdminUsers.set_disabled andb].
      eexists. split; [reflexivity |].
      cbn [LoginResult.success LoginResult.requires_otp LoginResult.challenge_id
             LoginResult.email LoginResult.two_factor_enabled AdminUsers.email
             AdminUsers.update_updated_at_column AdminUsers.set_disabled].
      rewrite Hmail, Hmail0. repeat split.
    - intros later code. unfold admin_disable_two_factor. rewrite Ha2, Hpw2.
      reflexivity.
    - intros later code. unfold admin_confirm_two_factor. rewrite Ha2, Hpw2.
      reflexivity. }
  cbn [negb bind fst snd].
  destruct (admin_take_recovery_code crypt db now (AdminUsers.id a) otp_code)
    as [[ok db1] | m'] eqn:Htake; cbn [bind fst snd]; [| discriminate].
  destruct ok; cbn [negb]; [| intros H; injection H as <- <-; discriminate].
  intros H _. injection H as <- <-.
  destruct (take_recovery_keeps_account db db1 now login_email a otp_code true
              Ha Htake) as (a1 & Ha1 & Hid & Hmail & Hhash).
  apply (Hafter db1 a1 Ha1 Hid Hmail Hhash).
Qed.

(** ** What no call does *)

Lemma never_gains_refl (us : list AdminUsers.row) : Forall2 never_gains us us.
Proof.
  induction us as [| r us IH]; constructor; [| exact IH].
  repeat split; [auto | now left | apply incl_refl].
Qed.

Lemma never_gains_trans (a : list AdminUsers.row) :
  forall b c : list AdminUsers.row,
    Forall2 never_gains a b -> Forall2 never_gains b c -> Forall2 never_gains a c.
Proof.
  induction a as [| x a IH]; intros b c Hab Hbc.
  - inversion Hab; subst. inversion Hbc; subst. constructor.
  - inversion Hab as [| x0 y a0 b' Hxy Hab']; subst.
    inversion Hbc as [| y0 z b0 c' Hyz Hbc']; subst.
    constructor; [| exact (IH _ _ Hab' Hbc')].
    destruct Hxy as (Hon1 & Hs1 & Hc1 & Ht1), Hyz as (Hon2 & Hs2 & Hc2 & Ht2).
    repeat split.
    + auto.
    + destruct Hs2 as [Hs2 | Hs2]; [rewrite Hs2; exact Hs1 | now right].
    + apply incl_tran with (1 := Hc2). exact Hc1.
    + congruence.
Qed.

Lemma never_gains_update (db : database) (now : Pg.timestamptz)
  (cond : AdminUsers.row -> bool) (set : AdminUsers.row -> AdminUsers.row) :
  (forall r, never_gains r (set r)) ->
  Forall2 never_gains (admin_users db)
    (admin_users (update_admin_users now cond set db)).
Proof.
  intros Hset. cbn [update_admin_users admin_users].
  induction (admin_users db) as [| r us IH]; cbn [map]; constructor; [| exact IH].
  destruct (cond r).
  - exact (Hset r).
  - repeat split; [auto | now left | apply incl_refl].
Qed.

Lemma never_gains_take_recovery (db : database) (now : Pg.timestamptz) (u : uuid)
  (attempt : option Pg.text) (ok : bool) (db1 : database) :
  admin_take_recovery_code crypt db now u attempt = Ok (ok, db1) ->
  Forall2 never_gains (admin_users db) (admin_users db1).
Proof.
  unfold admin_take_recovery_code.
  destruct attempt as [t |];
    [| intros H; injection H as <- <-; apply never_gains_refl].
  destruct (String.eqb (Pg.trim t) "");
    [intros H; injection H as <- <-; apply never_gains_refl |].
  destruct (matching_hash crypt (Pg.trim t) _) as [h |];
    intros H; injection H as <- <-; [| apply never_gains_refl].
  apply never_gains_update. intros r.
  repeat split; [auto | now left |].
  cbn [AdminUsers.set_recovery_codes AdminUsers.two_factor_recovery_codes].
  unfold Pg.array_remove. apply incl_filter.
Qed.

Lemma run_never_gains (db : database) (now : Pg.timestamptz) (c : call) :
  Forall2 never_gains (admin_users db) (admin_users (run crypt db now c))
  /\ admin_login_challenges (run crypt db now c) = admin_login_challenges db.
Proof.
  destruct c as [fresh e p | ch code | rnd e p | e p code | e p code | u attempt].
  - cbn [run]. rewrite admin_login_keeps_database.
    split; [apply never_gains_refl | reflexivity].
  - split; [apply never_gains_refl | reflexivity].
  - cbn [run]. unfold admin_start_two_factor.
    destruct (select_by_email db e) as [a |];
      [| split; [apply never_gains_refl | reflexivity]].
    destruct (is_true _); [split; [apply never_gains_refl | reflexivity] |].
    destruct (base32_encode (Some (secret_bytes rnd))) as [s | m];
      [| split; [apply never_gains_refl | reflexivity]].
    cbn [bind].
    destruct (generate_codes_total crypt rnd) as (v & -> & _).
    cbn [bind database_after]. split; [| reflexivity].
    apply never_gains_update. intros r.
    repeat split; [auto | now left | apply incl_refl].
  - cbn [run].
    rewrite (proj1 (admin_confirm_two_factor_keeps_database crypt db now e p code)).
    split; [apply never_gains_refl | reflexivity].
  - destruct (admin_disable_two_factor_effect db now e p code)
      as [-> | (a & db1 & _ & _ & Htake & Hrun)];
      [split; [apply never_gains_refl | reflexivity] |].
    cbn [run]. rewrite Hrun. cbn [database_after].
    destruct (touched_take_recovery db now (AdminUsers.id a) code)
      as (ok & db1' & Htake' & _ & Hch).
    rewrite Htake in Htake'. injection Htake' as <- <-.
    split; [| exact Hch].
    apply never_gains_trans with (1 := never_gains_take_recovery _ _ _ _ _ _ Htake).
    apply never_gains_update. intros r.
    repeat split; [discriminate | now right | intros x []].
  - cbn [run].
    destruct (touched_take_recovery db now u attempt) as (ok & db1 & Htake & _ & Hch).
    rewrite Htake. cbn [database_after]. split; [| exact Hch].
    apply (never_gains_take_recovery _ _ _ _ _ _ Htake).
Qed.

(** X28. No sequence of calls of the six functions switches two-factor
    authentication on for an account, stores a secret or a recovery code for
    it or changes its confirmation time: an account can only lose its flag,
    its secret and recovery codes. No call inserts, consumes or changes a
    challenge. Where every account has the flag off, as when the migration
    has just run, every account has it off after any calls. *)
Theorem two_factor_never_switched_on (calls : list (Pg.timestamptz * call)) :
  forall db : database,
    Forall2 never_gains (admin_users db) (admin_users (run_all crypt db calls))
    /\ admin_login_challenges (run_all crypt db calls) = admin_login_challenges db
    /\ ((forall a, In a (admin_users db) -> AdminUsers.two_factor_enabled a = false) ->
        forall a, In a (admin_users (run_all crypt db calls)) ->
                  AdminUsers.two_factor_enabled a = false).
Proof.
  assert (Hall : forall db : database,
             Forall2 never_gains (admin_users db) (admin_users (run_all crypt db calls))
             /\ admin_login_challenges (run_all crypt db calls)
                = admin_login_challenges db).
  { unfold run_all. induction calls as [| tc calls IH]; intros db.
    - split; [apply never_gains_refl | reflexivity].
    - cbn [fold_left].
      destruct (run_never_gains db (fst tc) (snd tc)) as [Hstep Hch].
      destruct (IH (run crypt db (fst tc) (snd tc))) as [Hrest Hch'].
      split; [apply never_gains_trans with (1 := Hstep); exact Hrest | congruence]. }
  intros db. destruct (Hall db) as [Hgain Hch].
  split; [exact Hgain |]. split; [exact Hch |].
  intros Hoff. clear Hch.
  induction Hgain as [| r r' us us' (Hon & _) _ IH]; intros a Ha; [contradiction |].
  destruct Ha as [<- | Ha].
  - destruct (AdminUsers.two_factor_enabled r') eqn:E; [| reflexivity].
    rewrite <- (Hoff r (or_introl eq_refl)). symmetry. apply Hon. reflexivity.
  - apply IH; [| exact Ha]. intros x Hx. apply Hoff. now right.
Qed.

End CallProperties.

(** ** The further properties at concrete accounts, under the locale C *)

Section ConcreteCalls.

#[local] Existing Instance Pg.c_locale.

Lemma take_recovery_code_effect_witness :
  exists (h : Pg.text) (a' : AdminUsers.row),
    select_by_id
      (database_after demo_db_enabled
         (admin_take_recovery_code demo_crypt demo_db_enabled 59000000 7%N
            (Some " ABCDE-F0123 "))) 7%N = Some a'
    /\ In h demo_hashes
    /\ ~ In h (AdminUsers.two_factor_recovery_codes a').
Proof.
  destruct (take_recovery_code_effect demo_crypt demo_db_enabled
              (database_after demo_db_enabled
                 (admin_take_recovery_code demo_crypt demo_db_enabled 59000000 7%N
                    (Some " ABCDE-F0123 ")))
              59000000 7%N (Some " ABCDE-F0123 ") true) as [_ Htrue].
  - vm_compute. reflexivity.
  - destruct (Htrue eq_refl)
      as (t & h & a & a' & _ & _ & Ha & Ha' & Hin & _ & _ & Hgone & _).
    exists h, a'. split; [exact Ha' |]. split; [| exact Hgone].
    vm_compute in Ha. injection Ha as <-. exact Hin.
Defined.

Lemma null_password_is_not_rejected_witness :
  admin_login demo_crypt demo_db_plain 59000000 1%N demo_email None
  = admin_login demo_crypt demo_db_plain 59000000 1%N demo_email demo_password.
Proof.
  refine (proj1 (proj2 (null_password_is_not_rejected demo_crypt demo_db_plain 59000000
                          "admin@example.com" (demo_admin false None []) _)
                   "ChangeThisPassword123!" _) 1%N).
  - reflexivity.
  - reflexivity.
Defined.

Lemma disable_then_login_witness :
  exists row : LoginResult.row,
    admin_login demo_crypt
      (run demo_crypt demo_db_recovery_only 59000000
         (CallDisable demo_email demo_password (Some "ABCDE-F0123")))
      60000000 102%N demo_email demo_password
    = Ok (row,
          run demo_crypt demo_db_recovery_only 59000000
            (CallDisable demo_email demo_password (Some "ABCDE-F0123")))
    /\ LoginResult.success row = true.
Proof.
  destruct (disable_then_login demo_crypt demo_db_recovery_only
              (run demo_crypt demo_db_recovery_only 59000000
                 (CallDisable demo_email demo_password (Some "ABCDE-F0123")))
              59000000 demo_email demo_password (Some "ABCDE-F0123") status_ok)
    as (Hlogin & _).
  - vm_compute. reflexivity.
  - reflexivity.
  - destruct (Hlogin 60000000 102%N) as (row & Hrow & Hok & _).
    exists row. split; [exact Hrow | exact Hok].
Defined.

End ConcreteCalls.

(** * The login before the migration, and the first admin *)

Lemma filter_unique_email (e : Pg.text) (l : list AdminUsers.row) :
  NoDup (map AdminUsers.email l) ->
  filter (fun a => String.eqb (AdminUsers.email a) e) l
  = match find (fun a => String.eqb (AdminUsers.email a) e) l with
    | Some a => [a]
    | None => []
    end.
Proof.
  induction l as [| x l IH]; intros Hnd; [reflexivity |].
  cbn [map] in Hnd. inversion Hnd as [| y ys Hnotin Hnd']; subst.
  cbn [filter find]. destruct (String.eqb (AdminUsers.email x) e) eqn:Hx.
  - f_equal. apply String.eqb_eq in Hx.
    assert (Hnone : forall a, In a l -> String.eqb (AdminUsers.email a) e = false).
    { intros a Ha. apply String.eqb_neq. intros Heq. apply Hnotin.
      rewrite Hx, <- Heq. apply in_map. exact Ha. }
    clear - Hnone. induction l as [| a l IH]; [reflexivity |].
    cbn [filter]. rewrite (Hnone a (or_introl eq_refl)).
    apply IH. intros b Hb. apply Hnone. now right.
  - apply IH. exact Hnd'.
Qed.

Lemma filter_none {A : Type} (l : list A) : filter (fun _ => false) l = [].
Proof. induction l as [| x l IH]; [reflexivity | exact IH]. Qed.

Lemma filter_both {A : Type} (q r : A -> bool) (l : list A) :
  filter (fun x => q x && r x) l = filter r (filter q l).
Proof.
  induction l as [| x l IH]; [reflexivity |].
  cbn [filter]. destruct (q x); cbn [andb filter]; rewrite IH; reflexivity.
Qed.

Section FirstAdmin.

Variable crypt : Pg.text -> Pg.text -> Pg.text.

Lemma previous_condition (a : AdminUsers.row) (e p : option Pg.text) :
  is_true
    (sql_and (sql_text_eq (Some (AdminUsers.email a)) e)
       (sql_text_eq (Some (AdminUsers.password_hash a))
          (sql_crypt crypt p (AdminUsers.password_hash a))))
  = match e, p with
    | Some e, Some p =>
        String.eqb (AdminUsers.email a) e
        && String.eqb (AdminUsers.password_hash a)
             (crypt p (AdminUsers.password_hash a))
    | _, _ => false
    end.
Proof.
  destruct e as [e |], p as [p |]; cbn [sql_text_eq sql_crypt].
  - destruct (String.eqb (AdminUsers.email a) e),
      (String.eqb (AdminUsers.password_hash a) (crypt p (AdminUsers.password_hash a)));
      reflexivity.
  - destruct (String.eqb (AdminUsers.email a) e); reflexivity.
  - destruct (String.eqb (AdminUsers.password_hash a)
                (crypt p (AdminUsers.password_hash a))); reflexivity.
  - reflexivity.
Qed.

(** X17. Where emails are unique and the account of the email, if there is
    one, has two-factor authentication off (as every account has when the
    migration has just run), the new [admin_login] called with a password
    changes nothing and returns the identity exactly when the [admin_login]
    it replaces returned a row, the same identity; the replaced function
    returned no row for a NULL password or a NULL email. *)
Theorem login_extends_previous (db : database) (now : Pg.timestamptz) (fresh : uuid)
  (login_email login_password : Pg.text) :
  NoDup (map AdminUsers.email (admin_users db)) ->
  (forall a, select_by_email db (Some login_email) = Some a ->
             AdminUsers.two_factor_enabled a = false) ->
  exists r : LoginResult.row,
    admin_login crypt db now fresh (Some login_email) (Some login_password) = Ok (r, db)
    /\ Previous.admin_login crypt db (Some login_email) (Some login_password)
       = identity_rows r
    /\ (LoginResult.success r = true <-> identity_rows r <> [])
    /\ Previous.admin_login crypt db (Some login_email) None = []
    /\ Previous.admin_login crypt db None (Some login_password) = [].
Proof.
  intros Hnd Hoff.
  assert (Hnull1 : Previous.admin_login crypt db (Some login_email) None = []).
  { unfold Previous.admin_login.
    rewrite (filter_ext _ (fun _ => false)), filter_none; [reflexivity |].
    intros a. apply previous_condition. }
  assert (Hnull2 : Previous.admin_login crypt db None (Some login_password) = []).
  { unfold Previous.admin_login.
    rewrite (filter_ext _ (fun _ => false)), filter_none; [reflexivity |].
    intros a. apply previous_condition. }
  unfold Previous.admin_login at 1.
  rewrite (filter_ext _
             (fun a => String.eqb (AdminUsers.email a) login_email
                       && String.eqb (AdminUsers.password_hash a)
                            (crypt login_password (AdminUsers.password_hash a))))
    by (intros a; apply previous_condition).
  rewrite filter_both, (filter_unique_email login_email _ Hnd).
  unfold admin_login. cbn [select_by_email] in *.
  destruct (find (fun a => String.eqb (AdminUsers.email a) login_email) (admin_users db))
    as [a |] eqn:Ha.
  2:{ eexists. split; [reflexivity |]. cbn. repeat split; try assumption;
        try discriminate. intros H. contradiction. }
  unfold password_differs, sql_crypt, sql_text_ne. cbn [filter map].
  destruct (String.eqb (AdminUsers.password_hash a)
              (crypt login_password (AdminUsers.password_hash a))) eqn:Hpw;
    cbn [negb is_true].
  - rewrite (Hoff a eq_refl). cbn [andb].
    eexists. split; [reflexivity |]. cbn. repeat split; try assumption.
    discriminate.
  - eexists. split; [reflexivity |]. cbn. repeat split; try assumption;
      try discriminate. intros H. contradiction.
Qed.

(** X18. The script that creates an admin: when no account has the email
    yet, it appends one account with the given email, name and role, the
    hash of the password and two-factor authentication off, and touches
    nothing else; if [crypt] verifies the password against that hash,
    [admin_login] with the email and the password then returns the identity
    of the new account at once, and a password that does not verify is
    refused. When an account with the email exists, the script changes
    nothing (the stored password stays) and still raises the notice 'Admin
    user created successfully!'. *)
Theorem create_admin_user_effect (db : database) (now : Pg.timestamptz) (fresh : uuid)
  (salt admin_email admin_password admin_name admin_role : Pg.text) :
  let out :=
    create_admin_user crypt db now fresh salt admin_email admin_password admin_name
      admin_role in
  ((forall a, In a (admin_users db) -> AdminUsers.email a <> admin_email) ->
   (exists inserted : AdminUsers.row,
       admin_users (snd out) = admin_users db ++ [inserted]
       /\ select_by_email (snd out) (Some admin_email) = Some inserted
       /\ AdminUsers.password_hash inserted = crypt admin_password salt
       /\ active_state inserted = (false, None, [], None)
       /\ pending_state inserted = (None, []))
   /\ admin_login_challenges (snd out) = admin_login_challenges db
   /\ (crypt admin_password (crypt admin_password salt) = crypt admin_password salt ->
       forall later fresh',
         admin_login crypt (snd out) later fresh' (Some admin_email)
           (Some admin_password)
         = Ok ({| LoginResult.success := true; LoginResult.requires_otp := false;
                  LoginResult.challenge_id := None; LoginResult.error := None;
                  LoginResult.id := Some fresh;
                  LoginResult.email := Some admin_email;
                  LoginResult.name := Some admin_name;
                  LoginResult.role := Some admin_role;
                  LoginResult.two_factor_enabled := false |}, snd out))
   /\ (forall other,
         crypt other (crypt admin_password salt) <> crypt admin_password salt ->
         forall later fresh',
           admin_login crypt (snd out) later fresh' (Some admin_email) (Some other)
           = Ok (login_rejected "Invalid credentials", snd out)))
  /\ (forall a, select_by_email db (Some admin_email) = Some a ->
        snd out = db
        /\ hd_error (fst out) = Some "Admin user created successfully!").
Proof.
  cbv zeta. unfold create_admin_user. cbn [fst snd]. split.
  - intros Hnew.
    assert (Hnone : forall a, In a (admin_users db) ->
                              String.eqb (AdminUsers.email a) admin_email = false).
    { intros a Ha. apply String.eqb_neq. apply Hnew. exact Ha. }
    assert (Hex : existsb (fun a => String.eqb (AdminUsers.email a) admin_email)
                    (admin_users db) = false).
    { destruct (existsb _ _) eqn:Hex; [| reflexivity].
      apply existsb_exists in Hex. destruct Hex as (a & Ha & Heq).
      rewrite (Hnone a Ha) in Heq. discriminate. }
    rewrite Hex. cbn [admin_users admin_login_challenges].
    set (inserted := {| AdminUsers.id := fresh; AdminUsers.email := admin_email;
                        AdminUsers.password_hash := crypt admin_password salt;
                        AdminUsers.name := admin_name; AdminUsers.role := admin_role;
                        AdminUsers.created_at := Some now;
                        AdminUsers.updated_at := Some now;
                        AdminUsers.two_factor_enabled := false;
                        AdminUsers.two_factor_secret := None;
                        AdminUsers.two_factor_recovery_codes := [];
                        AdminUsers.two_factor_temp_secret := None;
                        AdminUsers.two_factor_temp_recovery_codes := [];
                        AdminUsers.two_factor_confirmed_at := None |}).
    assert (Hsel : select_by_email
                     {| admin_users := admin_users db ++ [inserted];
                        admin_login_challenges := admin_login_challenges db |}
                     (Some admin_email) = Some inserted).
    { cbn [select_by_email admin_users]. rewrite (find_app_skip _ _ _ Hnone).
      cbn [find inserted AdminUsers.email]. rewrite String.eqb_refl. reflexivity. }
    split; [| split; [reflexivity | split]].
    + exists inserted. split; [reflexivity |]. split; [exact Hsel |].
      repeat split.
    + intros Hlaw later fresh'. unfold admin_login. rewrite Hsel.
      rewrite (right_password_passes crypt inserted admin_password Hlaw).
      reflexivity.
    + intros other Hother later fresh'. unfold admin_login. rewrite Hsel.
      unfold password_differs, sql_crypt, sql_text_ne.
      cbn [inserted AdminUsers.password_hash].
      assert (Hne : String.eqb (crypt admin_password salt)
                      (crypt other (crypt admin_password salt)) = false).
      { apply String.eqb_neq. intros Heq. apply Hother. symmetry. exact Heq. }
      rewrite Hne. reflexivity.
  - intros a Ha. cbn [select_by_email] in Ha. apply find_some in Ha.
    destruct Ha as [Hin Heq].
    assert (Hex : existsb (fun a => String.eqb (AdminUsers.email a) admin_email)
                    (admin_users db) = true).
    { apply existsb_exists. exists a. split; assumption. }
    rewrite Hex. split; reflexivity.
Qed.

End FirstAdmin.

Lemma login_extends_previous_witness :
  exists r : LoginResult.row,
    admin_login demo_crypt demo_db_plain 59000000 1%N demo_email demo_password
    = Ok (r, demo_db_plain)
    /\ Previous.admin_login demo_crypt demo_db_plain demo_email demo_password
       = identity_rows r
    /\ LoginResult.success r = true.
Proof.
  destruct (login_extends_previous demo_crypt demo_db_plain 59000000 1%N
              "admin@example.com" "ChangeThisPassword123!")
    as (r & Hr & Hprev & _).
  - cbn. constructor; [intros [] | constructor].
  - intros a Ha. vm_compute in Ha. injection Ha as <-. reflexivity.
  - exists r. split; [exact Hr |]. split; [exact Hprev |].
    vm_compute in Hr. injection Hr as <-. reflexivity.
Defined.

(** * Challenges and their accounts *)



Section ChallengeProperties.

Context {lc : Pg.locale}.
Variable crypt : Pg.text -> Pg.text -> Pg.text.



End ChallengeProperties.


(** * What a call leaves alone *)

Lemma only_account_refl (u : uuid) (us : list AdminUsers.row) : only_account u us us.
Proof. induction us as [| r us IH]; constructor; [reflexivity | exact IH]. Qed.

Lemma only_account_update (db : database) (now : Pg.timestamptz) (u : uuid)
  (set : AdminUsers.row -> AdminUsers.row) :
  only_account u (admin_users db)
    (admin_users (update_admin_users now (fun a => N.eqb (AdminUsers.id a) u) set db)).
Proof.
  cbn [update_admin_users admin_users]. unfold only_account.
  induction (admin_users db) as [| r us IH]; cbn [map]; constructor; [| exact IH].
  intros Hne. apply N.eqb_neq in Hne. rewrite Hne. reflexivity.
Qed.

Lemma only_account_trans (u : uuid) (a : list AdminUsers.row) :
  forall b c, only_account u a b -> only_account u b c -> only_account u a c.
Proof.
  unfold only_account. induction a as [| x a IH]; intros b c Hab Hbc.
  - inversion Hab; subst. inversion Hbc; subst. constructor.
  - inversion Hab as [| x0 y a0 b' Hxy Hab']; subst.
    inversion Hbc as [| y0 z b0 c' Hyz Hbc']; subst.
    constructor; [| exact (IH _ _ Hab' Hbc')].
    intros Hne. rewrite <- (Hxy Hne). apply Hyz. rewrite (Hxy Hne). exact Hne.
Qed.

Section IsolationProperties.

Context {lc : Pg.locale}.
Variable crypt : Pg.text -> Pg.text -> Pg.text.

Lemma take_recovery_one_account (db : database) (now : Pg.timestamptz) (u : uuid)
  (attempt : option Pg.text) :
  exists ok db',
    admin_take_recovery_code crypt db now u attempt = Ok (ok, db')
    /\ only_account u (admin_users db) (admin_users db').
Proof.
  unfold admin_take_recovery_code.
  destruct attempt as [t |];
    [| do 2 eexists; split; [reflexivity | apply only_account_refl]].
  destruct (String.eqb (Pg.trim t) "");
    [do 2 eexists; split; [reflexivity | apply only_account_refl] |].
  destruct (matching_hash crypt (Pg.trim t) _) as [h |];
    do 2 eexists; (split; [reflexivity |]).
  - apply only_account_update.
  - apply only_account_refl.
Qed.

(** X26. A call changes the rows of at most one account: there is an id
    such that every row of [admin_users] with another id is after the call
    exactly what it was before.  For the functions that take an email it is
    the id of the account found, for [admin_verify_two_factor] the account of
    the challenge, for [admin_take_recovery_code] the id passed. *)
Theorem call_touches_one_account (db : database) (now : Pg.timestamptz) (c : call) :
  exists u : uuid,
    only_account u (admin_users db) (admin_users (run crypt db now c)).
Proof.
  destruct c as [fresh e p | ch code | rnd e p | e p code | e p code | u attempt].
  - exists 0%N. cbn [run]. rewrite admin_login_keeps_database.
    apply only_account_refl.
  - exists 0%N. apply only_account_refl.
  - cbn [run]. unfold admin_start_two_factor.
    destruct (select_by_email db e) as [a |]; [| exists 0%N; apply only_account_refl].
    exists (AdminUsers.id a).
    destruct (is_true _); [apply only_account_refl |].
    destruct (base32_encode (Some (secret_bytes rnd))) as [s | m];
      [| apply only_account_refl].
    cbn [bind].
    destruct (generate_codes_total crypt rnd) as (v & -> & _).
    cbn [bind database_after]. apply only_account_update.
  - exists 0%N. cbn [run].
    rewrite (proj1 (admin_confirm_two_factor_keeps_database crypt db now e p code)).
    apply only_account_refl.
  - destruct (admin_disable_two_factor_effect crypt db now e p code)
      as [-> | (a & db1 & _ & _ & Htake & Hrun)];
      [exists 0%N; apply only_account_refl |].
    exists (AdminUsers.id a). cbn [run]. rewrite Hrun. cbn [database_after].
    destruct (take_recovery_one_account db now (AdminUsers.id a) code)
      as (ok & db1' & Htake' & Hstep).
    rewrite Htake in Htake'. injection Htake' as <- <-.
    apply only_account_trans with (1 := Hstep). apply only_account_update.
  - exists u. cbn [run].
    destruct (take_recovery_one_account db now u attempt) as (ok & db1 & -> & Hstep).
    exact Hstep.
Qed.

(** X27. Whatever calls are made, the challenges of the table stay where they
    are with their id, account, creation time and expiry: no function deletes
    a challenge, moves it to another account or changes when it expires; new
    challenges are added after the old ones. *)
Theorem challenges_keep_their_terms (calls : list (Pg.timestamptz * call)) :
  forall db : database,
    exists rest,
      map challenge_terms (admin_login_challenges (run_all crypt db calls))
      = map challenge_terms (admin_login_challenges db) ++ rest.
Proof.
  unfold run_all. induction calls as [| tc calls IH]; intros db.
  - exists []. symmetry. apply app_nil_r.
  - cbn [fold_left].
    destruct (IH (run crypt db (fst tc) (snd tc))) as (rest & Hrest).
    exists rest. rewrite Hrest.
    rewrite (proj2 (run_never_gains crypt db (fst tc) (snd tc))). reflexivity.
Qed.

End IsolationProperties.

(** * Properties of the admin client *)

(** ** The stored entry follows the state hook *)

Lemma persistUser_in_sync (user : option AdminAuthContext.AdminUser)
  (st : AdminAuthContext.state) : in_sync (AdminAuthContext.persistUser user st).
Proof. reflexivity. Qed.

Lemma updateAdminUser_in_sync (updates : AdminAuthContext.PartialAdminUser)
  (st : AdminAuthContext.state) :
  in_sync st -> in_sync (AdminAuthContext.updateAdminUser updates st).
Proof.
  intros H. unfold AdminAuthContext.updateAdminUser.
  destruct (AdminAuthContext.adminUser st); [reflexivity | exact H].
Qed.

Lemma client_run_in_sync {S : Type} (sb : supabase S) (c : client_call)
  (w : AdminAuthContext.state * S) :
  in_sync (fst w) -> in_sync (fst (client_run sb c w)).
Proof.
  destruct w as [st server]. cbn [fst snd]. intros Hsync.
  destruct c as [e p | ch code | p | p code | p code | updates |];
    cbn [client_run fst snd].
  - unfold AdminAuthContext.login.
    destruct (rpc_admin_login sb (Some e) (Some p) server) as [[r |] server'];
      [| exact Hsync].
    destruct (Rpc.error r); [exact Hsync |].
    destruct (Rpc.data r) as [[| response rows] |]; try exact Hsync.
    destruct (LoginResult.requires_otp response); [exact Hsync |].
    destruct (negb (LoginResult.success response)); [exact Hsync |].
    apply persistUser_in_sync.
  - unfold AdminAuthContext.verifyTwoFactor.
    destruct (rpc_admin_verify_two_factor sb (Some ch) (Some code) server)
      as [[r |] server']; [| exact Hsync].
    destruct (Rpc.error r); [exact Hsync |].
    destruct (AdminAuthContext.first_row (Rpc.data r)) as [result |]; [| exact Hsync].
    destruct (negb (VerifyResult.success result)); [exact Hsync |].
    apply persistUser_in_sync.
  - unfold AdminAuthContext.startTwoFactorSetup.
    destruct (AdminAuthContext.ensureAdminEmail st) as [e | m]; [| exact Hsync].
    destruct (rpc_admin_start_two_factor sb e (Some p) server) as [[r |] server'];
      [| exact Hsync].
    destruct (Rpc.error r); [exact Hsync |].
    destruct (AdminAuthContext.first_row (Rpc.data r)) as [result |]; [| exact Hsync].
    destruct (String.eqb (StartResult.secret result) ""); exact Hsync.
  - unfold AdminAuthContext.confirmTwoFactorSetup.
    destruct (AdminAuthContext.ensureAdminEmail st) as [e | m]; [| exact Hsync].
    destruct (rpc_admin_confirm_two_factor sb e (Some p) (Some code) server)
      as [[r |] server']; [| exact Hsync].
    destruct (Rpc.error r); [exact Hsync |].
    destruct (AdminAuthContext.first_row (Rpc.data r)) as [result |]; [| exact Hsync].
    destruct (negb (StatusResult.success result)); [exact Hsync |].
    apply updateAdminUser_in_sync. exact Hsync.
  - unfold AdminAuthContext.disableTwoFactor.
    destruct (AdminAuthContext.ensureAdminEmail st) as [e | m]; [| exact Hsync].
    destruct (rpc_admin_disable_two_factor sb e (Some p) (Some code) server)
      as [[r |] server']; [| exact Hsync].
    destruct (Rpc.error r); [exact Hsync |].
    destruct (AdminAuthContext.first_row (Rpc.data r)) as [result |]; [| exact Hsync].
    destruct (negb (StatusResult.success result)); [exact Hsync |].
    apply updateAdminUser_in_sync. exact Hsync.
  - apply updateAdminUser_in_sync. exact Hsync.
  - apply persistUser_in_sync.
Qed.

(** X21. Whatever the server answers, and whether the request throws, the
    functions of the provider keep the entry 'adminUser' of [localStorage]
    equal to the state hook [adminUser]: from a state where the two agree,
    any sequence of [login], [verifyTwoFactor], [startTwoFactorSetup],
    [confirmTwoFactorSetup], [disableTwoFactor], [updateAdminUser] and
    [logout] leads to a state where they agree. *)
Theorem client_storage_in_sync {S : Type} (sb : supabase S) (calls : list client_call) :
  forall w : AdminAuthContext.state * S,
    in_sync (fst w) ->
    in_sync (fst (client_run_all sb calls w)).
Proof.
  unfold client_run_all.
  induction calls as [| c calls IH]; intros w Hsync; [exact Hsync |].
  cbn [fold_left]. apply IH. apply client_run_in_sync. exact Hsync.
Qed.

(** ** The client in front of the migration *)

Section ClientProperties.

Context {lc : Pg.locale}.
Variable crypt : Pg.text -> Pg.text -> Pg.text.

Lemma take_recovery_refused (db : database) (now : Pg.timestamptz) (u : uuid)
  (attempt : option Pg.text) :
  exists ok db1,
    admin_take_recovery_code crypt db now u attempt = Ok (ok, db1)
    /\ (ok = false -> db1 = db).
Proof.
  unfold admin_take_recovery_code.
  destruct attempt as [t |]; [| do 2 eexists; split; [reflexivity | reflexivity]].
  destruct (String.eqb (Pg.trim t) "");
    [do 2 eexists; split; [reflexivity | reflexivity] |].
  destruct (matching_hash crypt (Pg.trim t) _);
    do 2 eexists; (split; [reflexivity |]); [discriminate | reflexivity].
Qed.

(** X22. [login] against the migration signs the admin in exactly when the
    email has an account, the password is not rejected for it and the account
    has no active second factor (the flag off, or no secret): it then stores
    the identity of that account. In every other case, the one of an account
    with an active second factor and the right password included (where
    [admin_login] raises on the name [id] of its [INSERT]), it resolves to
    'Invalid credentials' and leaves the state of the client as it was:
    [login] never resolves to [requiresOtp]. The database is unchanged in
    both cases. *)
Theorem client_login_outcomes (now : Pg.timestamptz) (fresh : uuid) (rnd : entropy)
  (login_email login_password : Pg.text) (st : AdminAuthContext.state)
  (db : database) :
  let resolved :=
    AdminAuthContext.login (flowboard_backend crypt now fresh rnd) login_email
      login_password st db in
  let signs_in (a : AdminUsers.row) :=
    select_by_email db (Some login_email) = Some a
    /\ is_true (password_differs crypt a (Some login_password)) = false
    /\ (AdminUsers.two_factor_enabled a = false
        \/ AdminUsers.two_factor_secret a = None) in
  (AdminAuthContext.LoginOutcome.success (fst (fst resolved)) = true
   <-> exists a : AdminUsers.row, signs_in a)
  /\ (forall a : AdminUsers.row,
        signs_in a ->
        resolved
        = ({| AdminAuthContext.LoginOutcome.success := true;
              AdminAuthContext.LoginOutcome.error := None;
              AdminAuthContext.LoginOutcome.requiresOtp := None;
              AdminAuthContext.LoginOutcome.challengeId := None |},
           AdminAuthContext.persistUser (Some (admin_of a)) st, db))
  /\ ((forall a : AdminUsers.row, ~ signs_in a) ->
      resolved = (AdminAuthContext.login_failed "Invalid credentials", st, db)).
Proof.
  cbv zeta.
  unfold AdminAuthContext.login. cbn [flowboard_backend rpc_admin_login].
  rewrite admin_login_outcome.
  destruct (select_by_email db (Some login_email)) as [a |] eqn:Ha.
  2:{ cbn. split; [split; [discriminate | intros (a & H & _); discriminate] |].
      split; [intros a (H & _); discriminate | reflexivity]. }
  destruct (is_true (password_differs crypt a (Some login_password))) eqn:Hpw.
  { cbn. split.
    - split; [discriminate |]. intros (a' & H & Hpw' & _).
      injection H as H. subst a'. cbn in Hpw. congruence.
    - split; [| reflexivity]. intros a' (H & Hpw' & _).
      injection H as H. subst a'. cbn in Hpw. congruence. }
  destruct (AdminUsers.two_factor_enabled a) eqn:Hon;
    [destruct (AdminUsers.two_factor_secret a) as [s |] eqn:Hs |]; cbn; cbn in Hpw.
  - split.
    + split; [discriminate |]. intros (a' & H & _ & [Hoff | Hnone]); congruence.
    + split; [| reflexivity]. intros a' (H & _ & [Hoff | Hnone]); congruence.
  - rewrite ?Hon; cbn. split.
    + split; [| reflexivity]. intros _. exists a.
      split; [reflexivity |]. split; [exact Hpw |]. right. exact Hs.
    + split.
      * intros a' (H & _). injection H as H. subst a'.
        unfold admin_of. rewrite Hon. reflexivity.
      * intros Hnot. destruct (Hnot a).
        split; [reflexivity |]. split; [exact Hpw |]. right. exact Hs.
  - rewrite ?Hon; cbn. split.
    + split; [| reflexivity]. intros _. exists a.
      split; [reflexivity |]. split; [exact Hpw |]. left. exact Hon.
    + split.
      * intros a' (H & _). injection H as H. subst a'.
        unfold admin_of. rewrite Hon. reflexivity.
      * intros Hnot. destruct (Hnot a).
        split; [reflexivity |]. split; [exact Hpw |]. left. exact Hon.
Qed.

(** X24. For a signed-in admin, [confirmTwoFactorSetup] never succeeds: it
    resolves to a failure with one of the three messages of the server
    function or, when the server raised, with 'Unable to confirm 2FA', and
    changes neither the client nor the database. [disableTwoFactor] leaves
    the client and the server in agreement: after a success the flag
    [twoFactorEnabled] of the client is off and so is the flag of the account
    with the admin's email on the server, without an active secret; a failure
    changes neither the client nor the database and carries one of the three
    messages of the server function or 'Unable to disable 2FA'. *)
Theorem client_two_factor_flag (now : Pg.timestamptz) (fresh : uuid) (rnd : entropy)
  (password code : Pg.text) (st : AdminAuthContext.state) (db : database)
  (u : AdminAuthContext.AdminUser) :
  AdminAuthContext.adminUser st = Some u ->
  (exists msg,
      AdminAuthContext.confirmTwoFactorSetup (flowboard_backend crypt now fresh rnd)
        password code st db = (AdminAuthContext.status_failed msg, st, db)
      /\ In msg ["Invalid credentials"; "No pending setup found";
                 "Verification code is invalid"; "Unable to confirm 2FA"])
  /\ (forall out st' db',
        AdminAuthContext.disableTwoFactor (flowboard_backend crypt now fresh rnd)
          password code st db = (out, st', db') ->
        (AdminAuthContext.StatusOutcome.success out = true ->
         AdminAuthContext.adminUser st'
         = Some (AdminAuthContext.spread u (AdminAuthContext.only_twoFactorEnabled false))
         /\ exists a' : AdminUsers.row,
              select_by_email db' (AdminAuthContext.email u) = Some a'
              /\ AdminUsers.two_factor_enabled a' = false
              /\ AdminUsers.two_factor_secret a' = None)
        /\ (AdminAuthContext.StatusOutcome.success out = false ->
            st' = st /\ db' = db
            /\ exists msg,
                 AdminAuthContext.StatusOutcome.error out = Some msg
                 /\ In msg ["Invalid credentials";
                            "Two-factor authentication is not enabled";
                            "Invalid authentication code";
                            "Unable to disable 2FA"])).
Proof.
  intros Hu. split.
  - unfold AdminAuthContext.confirmTwoFactorSetup, AdminAuthContext.ensureAdminEmail.
    rewrite Hu. cbn [flowboard_backend rpc_admin_confirm_two_factor].
    unfold admin_confirm_two_factor.
    destruct (select_by_email db (AdminAuthContext.email u)) as [a |] eqn:Ha.
    2:{ cbn. eexists. split; [reflexivity |]. left. reflexivity. }
    destruct (is_true (password_differs crypt a (Some password))) eqn:Hpw.
    { cbn. eexists. split; [reflexivity |]. left. reflexivity. }
    destruct (AdminUsers.two_factor_temp_secret a) as [s |] eqn:Hs.
    2:{ cbn. eexists. split; [reflexivity |]. right. left. reflexivity. }
    destruct (admin_totp_is_valid_never_true now (Some s) (Some code) 1)
      as [H | [m H]]; rewrite H; cbn.
    + eexists. split; [reflexivity |]. right. right. left. reflexivity.
    + eexists. split; [reflexivity |]. right. right. right. left. reflexivity.
  - intros out st' db'.
    unfold AdminAuthContext.disableTwoFactor, AdminAuthContext.ensureAdminEmail.
    rewrite Hu. cbn [flowboard_backend rpc_admin_disable_two_factor].
    unfold admin_disable_two_factor.
    destruct (select_by_email db (AdminAuthContext.email u)) as [a |] eqn:Ha.
    2:{ cbn. intros H. injection H as <- <- <-. cbn.
        split; [discriminate |]. intros _. repeat split.
        eexists. split; [reflexivity |]. left. reflexivity. }
    destruct (is_true (password_differs crypt a (Some password))) eqn:Hpw.
    { cbn. intros H. injection H as <- <- <-. cbn.
      split; [discriminate |]. intros _. repeat split.
      eexists. split; [reflexivity |]. left. reflexivity. }
    destruct (negb (AdminUsers.two_factor_enabled a)).
    { cbn. intros H. injection H as <- <- <-. cbn.
      split; [discriminate |]. intros _. repeat split.
      eexists. split; [reflexivity |]. right. left. reflexivity. }
    destruct (admin_totp_is_valid_never_true now (AdminUsers.two_factor_secret a)
                (Some code) 1) as [Hv | [m Hv]]; rewrite Hv; cbn [bind negb].
    + destruct (take_recovery_refused db now (AdminUsers.id a) (Some code))
        as (ok & db1 & Htake & Hsame).
      rewrite Htake. cbn [bind fst snd]. destruct ok; cbn [negb].
      * cbn [postgrest Rpc.error Rpc.data AdminAuthContext.first_row status_ok
               StatusResult.success negb].
        intros H. injection H as <- <- <-.
        split; [| discriminate]. intros _. split.
        { unfold AdminAuthContext.updateAdminUser. rewrite Hu. reflexivity. }
        destruct (take_recovery_keeps_account crypt db db1 now _ a (Some code) true
                    Ha Htake) as (a1 & Ha1 & Hid1 & _).
        eexists. split.
        { rewrite <- Hid1.
          apply select_by_email_own_update; [exact Ha1 | reflexivity]. }
        split; reflexivity.
      * rewrite (Hsame eq_refl).
        cbn. intros H. injection H as <- <- <-. cbn.
        split; [discriminate |]. intros _. repeat split.
        eexists. split; [reflexivity |]. right. right. left. reflexivity.
    + cbn. intros H. injection H as <- <- <-. cbn.
      split; [discriminate |]. intros _. repeat split.
      eexists. split; [reflexivity |]. right. right. right. left. reflexivity.
Qed.

(** X25. [startTwoFactorSetup] never hands over a secret: whoever is signed
    in and whatever the password, it resolves to 'Unable to start setup' and
    leaves the state of the client as it was. With nobody signed in it asks
    nothing of the server; for a signed-in admin the server raises, on the
    refused password or on encoding the secret it drew, and the database is
    unchanged. *)
Theorem client_start_setup (now : Pg.timestamptz) (fresh : uuid) (rnd : entropy)
  (password : Pg.text) (st : AdminAuthContext.state) (db : database) :
  secret_bytes rnd <> [] ->
  AdminAuthContext.startTwoFactorSetup (flowboard_backend crypt now fresh rnd)
    password st db
  = (AdminAuthContext.start_failed "Unable to start setup", st, db)
  /\ (forall (S : Type) (sb : supabase S) (server : S),
        AdminAuthContext.adminUser st = None ->
        AdminAuthContext.startTwoFactorSetup sb password st server
        = (AdminAuthContext.start_failed "Unable to start setup", st, server))
  /\ (forall u : AdminAuthContext.AdminUser,
        AdminAuthContext.adminUser st = Some u ->
        exists m,
          admin_start_two_factor crypt db now rnd (AdminAuthContext.email u)
            (Some password) = Raise m).
Proof.
  intros Hne. split; [| split].
  - unfold AdminAuthContext.startTwoFactorSetup, AdminAuthContext.ensureAdminEmail.
    destruct (AdminAuthContext.adminUser st) as [u |]; [| reflexivity].
    cbn [flowboard_backend rpc_admin_start_two_factor].
    rewrite (admin_start_two_factor_outcome crypt db now rnd _ _ Hne).
    destruct (credentials_rejected crypt db _ _); reflexivity.
  - intros S sb server Hnone.
    unfold AdminAuthContext.startTwoFactorSetup, AdminAuthContext.ensureAdminEmail.
    rewrite Hnone. reflexivity.
  - intros u _.
    rewrite (admin_start_two_factor_outcome crypt db now rnd _ _ Hne).
    destruct (credentials_rejected crypt db _ _); eexists; reflexivity.
Qed.

End ClientProperties.

(** ** The client at concrete accounts *)

Lemma client_storage_in_sync_witness :
  in_sync
    (fst (client_run_all demo_backend
            [ClientLogin "admin@example.com" "ChangeThisPassword123!";
             ClientStartTwoFactorSetup "ChangeThisPassword123!";
             ClientConfirmTwoFactorSetup "ChangeThisPassword123!" "287082";
             ClientLogout]
            (signed_out, demo_db_plain))).
Proof.
  apply (client_storage_in_sync demo_backend). reflexivity.
Defined.

Lemma client_two_factor_flag_witness :
  exists (st' : AdminAuthContext.state) (db' : database)
         (u' : AdminAuthContext.AdminUser) (a' : AdminUsers.row),
    AdminAuthContext.disableTwoFactor demo_backend "ChangeThisPassword123!"
      "ABCDE-F0123" (signed_in (demo_admin true None demo_hashes))
      demo_db_recovery_only
    = (AdminAuthContext.status_done, st', db')
    /\ AdminAuthContext.adminUser st' = Some u'
    /\ AdminAuthContext.twoFactorEnabled u' = false
    /\ select_by_email db' demo_email = Some a'
    /\ AdminUsers.two_factor_enabled a' = false.
Proof.
  pose (r := AdminAuthContext.disableTwoFactor demo_backend
               "ChangeThisPassword123!" "ABCDE-F0123"
               (signed_in (demo_admin true None demo_hashes)) demo_db_recovery_only).
  destruct (@client_two_factor_flag Pg.c_locale demo_crypt 59000000 102%N demo_entropy
              "ChangeThisPassword123!" "ABCDE-F0123"
              (signed_in (demo_admin true None demo_hashes)) demo_db_recovery_only
              (admin_of (demo_admin true None demo_hashes)) eq_refl) as (_ & Hdisable).
  destruct (Hdisable AdminAuthContext.status_done (snd (fst r)) (snd r)) as (Hok & _).
  - vm_compute. reflexivity.
  - destruct (Hok eq_refl) as (Huser & a' & Ha' & Hoff & _).
    exists (snd (fst r)), (snd r). do 2 eexists.
    split; [vm_compute; reflexivity |].
    split; [exact Huser |]. split; [reflexivity |].
    split; [exact Ha' | exact Hoff].
Defined.

Lemma client_start_setup_witness :
  AdminAuthContext.startTwoFactorSetup demo_backend "ChangeThisPassword123!"
    (signed_in (demo_admin false None [])) demo_db_plain
  = (AdminAuthContext.start_failed "Unable to start setup",
     signed_in (demo_admin false None []), demo_db_plain).
Proof.
  refine (proj1 (@client_start_setup Pg.c_locale demo_crypt 59000000 102%N
                   demo_entropy "ChangeThisPassword123!"
                   (signed_in (demo_admin false None [])) demo_db_plain _)).
  intros H. vm_compute in H. discriminate H.
Defined.
